(** * Membership and message access engine of the group-chat backend

    A shallow embedding of the controllers
    [controllers/groupMemberController.js], [controllers/messageController.js]
    and [controllers/groupController.js], of two helpers of
    [controllers/authController.js], and of what they rely on in the
    Mongoose schemas ([models/Group.js], [models/GroupMember.js],
    [models/Message.js], [models/User.js]).

    The document store is a record of collections; each collection is the
    list of its documents in insertion (natural) order.  A request handler
    is a function from the store to a response and a new store.  The clock
    ([new Date()], [Date.now]) and the driver's ObjectId generator are
    passed to the handlers explicitly.

    An id that a handler only hands to a query is modelled as the
    ObjectId that the query layer casts it to.  Where a handler looks at
    the text of a parameter itself, as [removeMember] does, the parameter
    is a string and the cast is written out; so are the setters that a
    schema runs on a filter value ([email] in [inviteToGroup]). *)

From Stdlib Require Import List ZArith Bool Arith Lia String Ascii.
From Stdlib Require Import Permutation Sorted RelationClasses.
From Stdlib Require Import DecimalString.
Import ListNotations.

Local Open Scope string_scope.
Local Open Scope list_scope.
Local Open Scope Z_scope.

(* ================================================================= *)
(** ** Basic types *)

(** An ObjectId: the number that its 12 bytes encode.  The controllers
    compare ids ([toString() === ...], query matching) and, for one route
    parameter, compare the hexadecimal text of an id with a string; see
    [toString] and [castObjectId] below. *)
Definition ObjectId := nat.
Bind Scope nat_scope with ObjectId.

(** A JavaScript [Date], as milliseconds since the epoch. *)
Definition Date := Z.

(** [enum: ['admin', 'moderator', 'member']] of [groupMemberSchema.role]. *)
Inductive Role := admin | moderator | member.

Definition role_string (r : Role) : string :=
  match r with
  | admin => "admin"
  | moderator => "moderator"
  | member => "member"
  end.

Definition role_eqb (a b : Role) : bool :=
  (role_string a =? role_string b)%string.

(** [enum: ['pending', 'accepted', 'rejected']] of an invitation. *)
Inductive InviteStatus := pending | accepted | rejected.

Definition status_eqb (a b : InviteStatus) : bool :=
  match a, b with
  | pending, pending | accepted, accepted | rejected, rejected => true
  | _, _ => false
  end.

(* ================================================================= *)
(** ** Documents ([models/*.js]) *)

Module User.
Record t := mk { _id : ObjectId; name : string; email : string }.
End User.

Module Invite.
(** An element of [groupSchema.invitedUsers]. *)
Record t := mk {
  user : ObjectId;
  invitedBy : ObjectId;
  invitedAt : Date;
  status : InviteStatus
}.
End Invite.

Module Group.
Record t := mk {
  _id : ObjectId;
  name : string;
  description : string;
  createdBy : option ObjectId;
  isPublic : bool;
  maxMembers : Z;
  invitedUsers : list Invite.t
}.
End Group.

Module GroupMember.
Record t := mk {
  user : ObjectId;
  group : ObjectId;
  role : Role;
  joinedAt : Date;
  isActive : bool
}.
End GroupMember.

Module Receipt.
(** An element of [messageSchema.readBy], with the two fields the schema
    declares.  The schema layer also gives every element an [_id] of its
    own, a fresh ObjectId that no handler reads; it is not a field of
    the model, and its only effect, on [$addToSet], is described there. *)
Record t := mk { user : ObjectId; readAt : Date }.
End Receipt.

Module Message.
Record t := mk {
  _id : ObjectId;
  content : string;
  sender : ObjectId;
  group : ObjectId;
  messageType : string;
  readBy : list Receipt.t;
  createdAt : Date
}.
End Message.

(** The database: one list per collection. *)
Record Db := mkDb {
  users : list User.t;
  groups : list Group.t;
  members : list GroupMember.t;
  messages : list Message.t
}.

(* ================================================================= *)
(** ** Responses and exceptions *)

(** [res.status(s).json({ success, message, data })]. *)
Record Response (A : Type) := mkResponse {
  status : Z;
  message : string;
  data : option A
}.
Arguments mkResponse {A} _ _ _.
Arguments status {A} _.
Arguments message {A} _.
Arguments data {A} _.

Definition fail {A} (s : Z) (msg : string) : Response A :=
  mkResponse s msg None.

(** A thrown JavaScript error: the [catch] blocks inspect its [name] and
    its [message]. *)
Module Error.
Record t := mk { name : string; message : string }.
End Error.

Inductive Result (A : Type) :=
| Return (a : A)
| Throw (e : Error.t).
Arguments Return {A} _.
Arguments Throw {A} _.

(** [throw new Error(msg)]. *)
Definition newError {A} (msg : string) : Result A :=
  Throw {| Error.name := "Error"; Error.message := msg |}.

(** [s.includes(sub)]. *)
Definition includes (s sub : string) : bool :=
  match index 0 sub s with
  | Some _ => true
  | None => false
  end.

(** Code running inside a [try] block: it reads and writes the database
    and either returns or throws; what was written before a throw stays
    written. *)
Definition M (A : Type) : Type := Db -> Result A * Db.

Definition ret {A} (a : A) : M A := fun db => (Return a, db).

Definition lift {A} (r : Result A) : M A := fun db => (r, db).

Definition gets {A} (f : Db -> A) : M A := fun db => (Return (f db), db).

Definition modify (f : Db -> Db) : M unit := fun db => (Return tt, f db).

Definition bind {A B} (c : M A) (k : A -> M B) : M B :=
  fun db =>
    match c db with
    | (Return a, db') => k a db'
    | (Throw e, db') => (Throw e, db')
    end.

Notation "x <- c ;; k" := (bind c (fun x => k))
  (at level 61, c at next level, right associativity).

(** [try { body } catch (error) { handler }] of a request handler. *)
Definition tryCatch {A} (body : M A) (handler : Error.t -> A)
  : Db -> A * Db :=
  fun db =>
    match body db with
    | (Return a, db') => (a, db')
    | (Throw e, db') => (handler e, db')
    end.

(* ================================================================= *)
(** ** Query primitives *)

Section Queries.
Context {A : Type}.

(** [Model.findOne(q)]: the first matching document. *)
Definition findOne (q : A -> bool) (l : list A) : option A := find q l.

(** [Model.countDocuments(q)]. *)
Definition countDocuments (q : A -> bool) (l : list A) : Z :=
  Z.of_nat (List.length (filter q l)).

(** [Model.deleteMany(q)]. *)
Definition deleteMany (q : A -> bool) (l : list A) : list A :=
  filter (fun d => negb (q d)) l.

(** [Model.findOneAndUpdate(q, u)]: updates the first match only. *)
Fixpoint findOneAndUpdate (q : A -> bool) (u : A -> A) (l : list A)
  : list A :=
  match l with
  | [] => []
  | d :: l' => if q d then u d :: l' else d :: findOneAndUpdate q u l'
  end.

(** [Model.findByIdAndDelete(id)]: removes the first match only. *)
Fixpoint findOneAndDelete (q : A -> bool) (l : list A) : list A :=
  match l with
  | [] => []
  | d :: l' => if q d then l' else d :: findOneAndDelete q l'
  end.

(** [.skip(n)] and [.limit(n)] on a cursor; [n] is a JavaScript number. *)
Definition skip (n : Z) (l : list A) : list A := skipn (Z.to_nat n) l.
Definition limit (n : Z) (l : list A) : list A := firstn (Z.to_nat n) l.

(** [.sort(spec)]: [leb x y] says that [x] may come before [y] under
    the sort specification.  Ties keep insertion order. *)
Variable leb : A -> A -> bool.

Fixpoint insert (x : A) (l : list A) : list A :=
  match l with
  | [] => [x]
  | y :: l' => if leb x y then x :: l else y :: insert x l'
  end.

Fixpoint sort (l : list A) : list A :=
  match l with
  | [] => []
  | x :: l' => insert x (sort l')
  end.
End Queries.

(* ================================================================= *)
(** ** Strings *)

(** White space removed by [String.prototype.trim], restricted to the
    code units below 256: TAB, LF, VT, FF, CR, SP and NBSP. *)
Definition isWhiteSpace (c : ascii) : bool :=
  let n := nat_of_ascii c in
  (Nat.eqb n 9 || Nat.eqb n 10 || Nat.eqb n 11 || Nat.eqb n 12
   || Nat.eqb n 13 || Nat.eqb n 32 || Nat.eqb n 160)%bool.

Fixpoint trimStart (s : string) : string :=
  match s with
  | EmptyString => EmptyString
  | String c s' => if isWhiteSpace c then trimStart s' else s
  end.

Definition reverse (s : string) : string :=
  string_of_list_ascii (rev (list_ascii_of_string s)).

Definition trimEnd (s : string) : string := reverse (trimStart (reverse s)).

(** [s.trim()]. *)
Definition trim (s : string) : string := trimEnd (trimStart s).

(** [String.prototype.toLowerCase] on the code units below 256: the
    letters A-Z and the Latin-1 capitals U+00C0 to U+00DE, without the
    multiplication sign U+00D7, move up by 32. *)
Definition toLowerCaseChar (c : ascii) : ascii :=
  let n := nat_of_ascii c in
  if ((65 <=? n)%nat && (n <=? 90)%nat
      || (192 <=? n)%nat && (n <=? 222)%nat && negb (Nat.eqb n 215))%bool
  then ascii_of_nat (n + 32)
  else c.

Fixpoint toLowerCase (s : string) : string :=
  match s with
  | EmptyString => EmptyString
  | String c s' => String (toLowerCaseChar c) (toLowerCase s')
  end.

(** A value for the path [email] of [userSchema] as the schema casts it,
    in a document and in the filter of a query alike: the setters of
    [trim: true] and [lowercase: true] run on it. *)
Definition castEmail (email : string) : string := toLowerCase (trim email).

(* ================================================================= *)
(** ** ObjectIds and strings *)

(** The lower-case hexadecimal digit of a number below 16. *)
Definition hexDigit (n : nat) : ascii :=
  match get n "0123456789abcdef" with
  | Some c => c
  | None => "0"%char
  end.

(** The last [width] hexadecimal digits of [n], in front of [acc]. *)
Fixpoint hexDigits (width n : nat) (acc : string) : string :=
  match width with
  | O => acc
  | S w => hexDigits w (n / 16) (String (hexDigit (n mod 16)) acc)
  end.

(** [id.toString()]: the 24 hexadecimal digits of the id, in lower
    case. *)
Definition toString (id : ObjectId) : string := hexDigits 24 id "".

(** The value of a hexadecimal digit, in either case. *)
Definition hexValue (c : ascii) : option nat :=
  let n := nat_of_ascii c in
  if ((48 <=? n)%nat && (n <=? 57)%nat)%bool then Some (n - 48)%nat
  else if ((97 <=? n)%nat && (n <=? 102)%nat)%bool then Some (n - 87)%nat
  else if ((65 <=? n)%nat && (n <=? 70)%nat)%bool then Some (n - 55)%nat
  else None.

Fixpoint parseHex (s : string) (acc : nat) : option nat :=
  match s with
  | EmptyString => Some acc
  | String c s' =>
      match hexValue c with
      | Some d => parseHex s' (16 * acc + d)%nat
      | None => None
      end
  end.

(** The cast of a string to an ObjectId that the query layer applies to
    a filter value: a string of 24 hexadecimal digits, upper or lower
    case, is the id with those digits.  These are the strings that the
    route validator [isMongoId] lets through to the handlers; for any
    other string the cast is modelled as failing with a [CastError]. *)
Definition castObjectId (s : string) : Result ObjectId :=
  if Nat.eqb (String.length s) 24 then
    match parseHex s 0 with
    | Some id => Return id
    | None =>
        Throw {| Error.name := "CastError";
                 Error.message := "Cast to ObjectId failed" |}
    end
  else
    Throw {| Error.name := "CastError";
             Error.message := "Cast to ObjectId failed" |}.

(* ================================================================= *)
(** ** [controllers/messageController.js]: utility functions *)

(** Query [{ user, group, isActive: true }] on [GroupMember]. *)
Definition activeMembershipQ (userId groupId : ObjectId)
  (r : GroupMember.t) : bool :=
  Nat.eqb r.(GroupMember.user) userId
  && Nat.eqb r.(GroupMember.group) groupId
  && Bool.eqb r.(GroupMember.isActive) true.

(** Query [{ user, group }] on [GroupMember]. *)
Definition membershipQ (userId groupId : ObjectId)
  (r : GroupMember.t) : bool :=
  Nat.eqb r.(GroupMember.user) userId
  && Nat.eqb r.(GroupMember.group) groupId.

(** Query [{ user, group, role: 'admin' }] on [GroupMember]. *)
Definition adminMembershipQ (userId groupId : ObjectId)
  (r : GroupMember.t) : bool :=
  Nat.eqb r.(GroupMember.user) userId
  && Nat.eqb r.(GroupMember.group) groupId
  && role_eqb r.(GroupMember.role) admin.

(** Query [{ group, role: 'admin', isActive: true }] on [GroupMember]. *)
Definition activeAdminQ (groupId : ObjectId) (r : GroupMember.t) : bool :=
  Nat.eqb r.(GroupMember.group) groupId
  && role_eqb r.(GroupMember.role) admin
  && Bool.eqb r.(GroupMember.isActive) true.

(** Query [{ group, isActive: true }] on [GroupMember]. *)
Definition activeInGroupQ (groupId : ObjectId) (r : GroupMember.t) : bool :=
  Nat.eqb r.(GroupMember.group) groupId
  && Bool.eqb r.(GroupMember.isActive) true.

Definition groupByIdQ (groupId : ObjectId) (g : Group.t) : bool :=
  Nat.eqb g.(Group._id) groupId.

Definition messageByIdQ (messageId : ObjectId) (m : Message.t) : bool :=
  Nat.eqb m.(Message._id) messageId.

(** Query [{ group }] on [Message]. *)
Definition messageOfGroupQ (groupId : ObjectId) (m : Message.t) : bool :=
  Nat.eqb m.(Message.group) groupId.

Definition notAMember : string := "You are not a member of this group".

Definition validateGroupMembership (userId groupId : ObjectId) (db : Db)
  : Result GroupMember.t :=
  match findOne (activeMembershipQ userId groupId) db.(members) with
  | None => newError notAMember
  | Some membership => Return membership
  end.

(** [content] is [None] when the request body has no such field. *)
Definition validateMessageContent (content : option string) : Result string :=
  match content with
  | None => newError "Message content cannot be empty"
  | Some c =>
      if (Nat.eqb (String.length c) 0
          || Nat.eqb (String.length (trim c)) 0)%bool
      then newError "Message content cannot be empty"
      else if (1000 <? String.length c)%nat
      then newError "Message cannot exceed 1000 characters"
      else Return (trim c)
  end.

Definition validTypes : list string := ["text"; "image"; "file"; "system"].

Definition validateMessageType (messageType : string) : Result string :=
  if existsb (String.eqb messageType) validTypes
  then Return messageType
  else newError "Invalid message type".

(** [{ currentPage, totalPages, totalMessages, hasNext, hasPrev }]. *)
Record Pagination := mkPagination {
  currentPage : Z;
  totalPages : Z;
  totalMessages : Z;
  hasNext : bool;
  hasPrev : bool
}.

(** [Math.ceil(a / b)] for a count [a >= 0] and a page size [b >= 1],
    on integers: the quotient of two such numbers is computed exactly
    enough by the floating-point division for every count a collection
    can hold. *)
Definition ceilDiv (a b : Z) : Z := (a + b - 1) / b.

(** Sort specification [{ createdAt: -1 }]. *)
Definition newestFirst (a b : Message.t) : bool :=
  b.(Message.createdAt) <=? a.(Message.createdAt).

(** Sort specification [{ createdAt: 1 }]. *)
Definition oldestFirst (a b : Message.t) : bool :=
  a.(Message.createdAt) <=? b.(Message.createdAt).

Definition getMessagesWithPagination (groupId : ObjectId) (page lim : Z)
  (db : Db) : list Message.t * Pagination :=
  let skipped := (page - 1) * lim in
  let found :=
    limit lim (skip skipped
      (sort newestFirst (filter (messageOfGroupQ groupId) db.(messages)))) in
  let totalCount := countDocuments (messageOfGroupQ groupId) db.(messages) in
  let chronologicalMessages := rev found in
  (chronologicalMessages,
   {| currentPage := page;
      totalPages := ceilDiv totalCount lim;
      totalMessages := totalCount;
      hasNext := page <? ceilDiv totalCount lim;
      hasPrev := 1 <? page |}).

(** [$addToSet] on [readBy]: the operator appends the value unless an
    element equal to it in every field is present.  The value is cast to
    a subdocument of [readBy] first and so carries an [_id] that no
    stored element has; no stored element is equal to it, and it is
    appended every time. *)
Definition addToSet (x : Receipt.t) (l : list Receipt.t) : list Receipt.t :=
  l ++ [x].

Definition pushReceipt (userId : ObjectId) (now : Date) (m : Message.t)
  : Message.t :=
  {| Message._id := m.(Message._id);
     Message.content := m.(Message.content);
     Message.sender := m.(Message.sender);
     Message.group := m.(Message.group);
     Message.messageType := m.(Message.messageType);
     Message.readBy :=
       addToSet {| Receipt.user := userId; Receipt.readAt := now |}
                m.(Message.readBy);
     Message.createdAt := m.(Message.createdAt) |}.

(** [now] is the value of [new Date()] at the call. *)
Definition markMessageAsRead (messageId userId : ObjectId) (now : Date)
  (db : Db) : Db :=
  {| users := db.(users);
     groups := db.(groups);
     members := db.(members);
     messages :=
       findOneAndUpdate (messageByIdQ messageId) (pushReceipt userId now)
                        db.(messages) |}.

(** Record update helpers for the [Db] collections. *)
Definition setMessages (f : list Message.t -> list Message.t) (db : Db) : Db :=
  {| users := db.(users); groups := db.(groups);
     members := db.(members); messages := f db.(messages) |}.

Definition setMembers (f : list GroupMember.t -> list GroupMember.t)
  (db : Db) : Db :=
  {| users := db.(users); groups := db.(groups);
     members := f db.(members); messages := db.(messages) |}.

Definition setGroups (f : list Group.t -> list Group.t) (db : Db) : Db :=
  {| users := db.(users); groups := f db.(groups);
     members := db.(members); messages := db.(messages) |}.

(** [Message.create({ content, sender, group, messageType })] with the
    validators of [messageSchema]: [content] is trimmed, required and at
    most 1000 characters long, [messageType] is one of the enum values.
    [newId] is the id given by the driver and [now] the creation time. *)
Definition Message_create (newId : ObjectId) (content : string)
  (sender group : ObjectId) (messageType : string) (now : Date)
  : M Message.t :=
  fun db =>
    let c := trim content in
    if Nat.eqb (String.length c) 0 then
      (Throw {| Error.name := "ValidationError";
                Error.message :=
                  "Message validation failed: content: Message content is required" |},
       db)
    else if (1000 <? String.length c)%nat then
      (Throw {| Error.name := "ValidationError";
                Error.message :=
                  "Message validation failed: content: Message cannot exceed 1000 characters" |},
       db)
    else if negb (existsb (String.eqb messageType) validTypes) then
      (Throw {| Error.name := "ValidationError";
                Error.message :=
                  "Message validation failed: messageType: not a valid enum value" |},
       db)
    else
      let m := {| Message._id := newId;
                  Message.content := c;
                  Message.sender := sender;
                  Message.group := group;
                  Message.messageType := messageType;
                  Message.readBy := [];
                  Message.createdAt := now |} in
      (Return m, setMessages (fun l => l ++ [m]) db).

(** The response document of [sendMessage]:
    [{ ...populatedMessage, readBy: [{ user: userId, readAt: new Date() }] }]. *)
Definition withReadBy (rs : list Receipt.t) (m : Message.t) : Message.t :=
  {| Message._id := m.(Message._id);
     Message.content := m.(Message.content);
     Message.sender := m.(Message.sender);
     Message.group := m.(Message.group);
     Message.messageType := m.(Message.messageType);
     Message.readBy := rs;
     Message.createdAt := m.(Message.createdAt) |}.

(** [sendMessage]: [content] and [messageType] are the fields of the
    request body ([None] when absent); [messageType] defaults to
    ['text']. *)
Definition sendMessage (groupId userId : ObjectId)
  (content messageType : option string) (now : Date) (newId : ObjectId)
  : Db -> Response Message.t * Db :=
  let messageType := match messageType with Some t => t | None => "text" end in
  tryCatch
    (validatedContent <- lift (validateMessageContent content) ;;
     validatedMessageType <- lift (validateMessageType messageType) ;;
     _ <- (fun db => (validateGroupMembership userId groupId db, db)) ;;
     group <- gets (fun db => findOne (groupByIdQ groupId) db.(groups)) ;;
     match group with
     | None => ret (fail 404 "Group not found")
     | Some _ =>
         message <- Message_create newId validatedContent userId groupId
                      validatedMessageType now ;;
         populatedMessage <-
           gets (fun db =>
                   findOne (messageByIdQ message.(Message._id)) db.(messages)) ;;
         _ <- modify (markMessageAsRead message.(Message._id) userId now) ;;
         ret (mkResponse 201 "Message sent successfully"
                (option_map
                   (withReadBy [{| Receipt.user := userId;
                                   Receipt.readAt := now |}])
                   populatedMessage))
     end)
    (fun error =>
       let msg := error.(Error.message) in
       if (includes msg "Message content cannot be empty"
           || includes msg "Message cannot exceed"
           || includes msg "Invalid message type")%bool
       then fail 400 msg
       else if includes msg "not a member" then fail 403 msg
       else if (error.(Error.name) =? "ValidationError")%string
       then fail 400 "Validation failed"
       else fail 500 "Error sending message").

(** [parseInt(q) || d]: [None] stands for [NaN]. *)
Definition parseIntOr (q : option Z) (d : Z) : Z :=
  match q with
  | Some v => if v =? 0 then d else v
  | None => d
  end.

(** [getGroupMessages]: [qpage] and [qlimit] are [parseInt] of the query
    parameters. *)
Definition getGroupMessages (groupId userId : ObjectId)
  (qpage qlimit : option Z) (now : Date)
  : Db -> Response (list Message.t * Pagination) * Db :=
  let page := parseIntOr qpage 1 in
  let lim := parseIntOr qlimit 50 in
  tryCatch
    (if ((page <? 1) || (lim <? 1) || (100 <? lim))%bool then
       ret (fail 400
              "Invalid pagination parameters. Page must be >= 1, limit between 1-100")
     else
       _ <- (fun db => (validateGroupMembership userId groupId db, db)) ;;
       group <- gets (fun db => findOne (groupByIdQ groupId) db.(groups)) ;;
       match group with
       | None => ret (fail 404 "Group not found")
       | Some _ =>
           r <- gets (getMessagesWithPagination groupId page lim) ;;
           _ <- modify (fun db =>
                          fold_left
                            (fun d m =>
                               markMessageAsRead m.(Message._id) userId now d)
                            (fst r) db) ;;
           ret (mkResponse 200 "" (Some r))
       end)
    (fun error =>
       let msg := error.(Error.message) in
       if includes msg "not a member" then fail 403 msg
       else fail 500 "Error fetching messages").

(** Query [{ group, 'readBy.user': { $ne: userId }, sender: { $ne: userId } }]:
    [$ne] on the array path holds when no element of [readBy] has that
    user. *)
Definition unreadQ (groupId userId : ObjectId) (m : Message.t) : bool :=
  Nat.eqb m.(Message.group) groupId
  && forallb (fun r => negb (Nat.eqb r.(Receipt.user) userId))
             m.(Message.readBy)
  && negb (Nat.eqb m.(Message.sender) userId).

Definition getUnreadMessageCount (groupId userId : ObjectId)
  : Db -> Response Z * Db :=
  tryCatch
    (_ <- (fun db => (validateGroupMembership userId groupId db, db)) ;;
     unreadCount <-
       gets (fun db => countDocuments (unreadQ groupId userId) db.(messages)) ;;
     ret (mkResponse 200 "" (Some unreadCount)))
    (fun error =>
       let msg := error.(Error.message) in
       if includes msg "not a member" then fail 403 msg
       else fail 500 "Error fetching unread message count").

(* ================================================================= *)
(** ** [controllers/groupMemberController.js] *)

(** [GroupMember.create({ user, group, role })] under the unique compound
    index [{ user: 1, group: 1 }] of [groupMemberSchema]: the insert is
    refused with a duplicate-key error when a row with the same user and
    group exists, whatever its [isActive] flag.  [joinedAt] and
    [isActive] take their schema defaults. *)
Definition GroupMember_create (userId groupId : ObjectId) (r : Role)
  (now : Date) : M GroupMember.t :=
  fun db =>
    if existsb (membershipQ userId groupId) db.(members) then
      (Throw {| Error.name := "MongoServerError";
                Error.message := "E11000 duplicate key error" |},
       db)
    else
      let row := {| GroupMember.user := userId;
                    GroupMember.group := groupId;
                    GroupMember.role := r;
                    GroupMember.joinedAt := now;
                    GroupMember.isActive := true |} in
      (Return row, setMembers (fun l => l ++ [row]) db).

Definition setInvitedUsers (l : list Invite.t) (g : Group.t) : Group.t :=
  {| Group._id := g.(Group._id);
     Group.name := g.(Group.name);
     Group.description := g.(Group.description);
     Group.createdBy := g.(Group.createdBy);
     Group.isPublic := g.(Group.isPublic);
     Group.maxMembers := g.(Group.maxMembers);
     Group.invitedUsers := l |}.

(** [group.save()] after a change to [group.invitedUsers]. *)
Definition saveInvitedUsers (group : Group.t) : M unit :=
  modify (setGroups
            (findOneAndUpdate (groupByIdQ group.(Group._id))
               (setInvitedUsers group.(Group.invitedUsers)))).

(** Query [{ email }] on [User]: the filter value is cast by the schema
    before it is compared. *)
Definition userByEmailQ (email : string) (u : User.t) : bool :=
  (u.(User.email) =? castEmail email)%string.

Definition inviteToGroup (groupId adminId : ObjectId) (email : string)
  (now : Date) : Db -> Response User.t * Db :=
  tryCatch
    (group <- gets (fun db => findOne (groupByIdQ groupId) db.(groups)) ;;
     match group with
     | None => ret (fail 404 "Group not found")
     | Some group =>
         adminMembership <-
           gets (fun db =>
                   findOne (adminMembershipQ adminId groupId) db.(members)) ;;
         match adminMembership with
         | None => ret (fail 403 "Only group admin can invite members")
         | Some _ =>
             userToInvite <-
               gets (fun db => findOne (userByEmailQ email) db.(users)) ;;
             match userToInvite with
             | None => ret (fail 404 "User not found")
             | Some userToInvite =>
                 existingMember <-
                   gets (fun db =>
                           findOne
                             (membershipQ userToInvite.(User._id) groupId)
                             db.(members)) ;;
                 match existingMember with
                 | Some _ =>
                     ret (fail 409 "User is already a member of this group")
                 | None =>
                     match find (fun invite =>
                                   Nat.eqb invite.(Invite.user)
                                           userToInvite.(User._id))
                                group.(Group.invitedUsers) with
                     | Some _ =>
                         ret (fail 409
                                "User has already been invited to this group")
                     | None =>
                         let group' :=
                           setInvitedUsers
                             (group.(Group.invitedUsers) ++
                                [{| Invite.user := userToInvite.(User._id);
                                    Invite.invitedBy := adminId;
                                    Invite.invitedAt := now;
                                    Invite.status := pending |}])
                             group in
                         _ <- saveInvitedUsers group' ;;
                         ret (mkResponse 200 "User invited successfully"
                                (Some userToInvite))
                     end
                 end
             end
         end
     end)
    (fun _ => fail 500 "Error inviting user to group").

Definition pendingFor (userId : ObjectId) (invite : Invite.t) : bool :=
  Nat.eqb invite.(Invite.user) userId
  && status_eqb invite.(Invite.status) pending.

Definition setStatus (s : InviteStatus) (i : Invite.t) : Invite.t :=
  {| Invite.user := i.(Invite.user);
     Invite.invitedBy := i.(Invite.invitedBy);
     Invite.invitedAt := i.(Invite.invitedAt);
     Invite.status := s |}.

Definition acceptInvitation (groupId userId : ObjectId) (now : Date)
  : Db -> Response unit * Db :=
  tryCatch
    (group <- gets (fun db => findOne (groupByIdQ groupId) db.(groups)) ;;
     match group with
     | None => ret (fail 404 "Group not found")
     | Some group =>
         match find (pendingFor userId) group.(Group.invitedUsers) with
         | None => ret (fail 404 "No pending invitation found")
         | Some _ =>
             _ <- GroupMember_create userId groupId member now ;;
             (* invitation.status = 'accepted' on the invitation found *)
             let group' :=
               setInvitedUsers
                 (findOneAndUpdate (pendingFor userId) (setStatus accepted)
                    group.(Group.invitedUsers))
                 group in
             _ <- saveInvitedUsers group' ;;
             ret (mkResponse 200 "Group invitation accepted successfully"
                    (Some tt))
         end
     end)
    (fun _ => fail 500 "Error accepting invitation").

(** Sort specification [{ role: -1, joinedAt: 1 }]: [role] is a string
    field and is compared as a string, greatest first; rows with the same
    role are ordered by [joinedAt], least first. *)
Definition roleDescJoinedAsc (a b : GroupMember.t) : bool :=
  match String.compare (role_string a.(GroupMember.role))
                       (role_string b.(GroupMember.role)) with
  | Gt => true
  | Lt => false
  | Eq => a.(GroupMember.joinedAt) <=? b.(GroupMember.joinedAt)
  end.

Definition getGroupMembers (groupId userId : ObjectId)
  : Db -> Response (list GroupMember.t) * Db :=
  tryCatch
    (userMembership <-
       gets (fun db =>
               findOne (activeMembershipQ userId groupId) db.(members)) ;;
     match userMembership with
     | None => ret (fail 403 "You are not a member of this group")
     | Some _ =>
         found <-
           gets (fun db =>
                   sort roleDescJoinedAsc
                     (filter (activeInGroupQ groupId) db.(members))) ;;
         ret (mkResponse 200 "" (Some found))
     end)
    (fun _ => fail 500 "Error fetching group members").

Definition deactivate (r : GroupMember.t) : GroupMember.t :=
  {| GroupMember.user := r.(GroupMember.user);
     GroupMember.group := r.(GroupMember.group);
     GroupMember.role := r.(GroupMember.role);
     GroupMember.joinedAt := r.(GroupMember.joinedAt);
     GroupMember.isActive := false |}.

(** [removeMember]: [userId] is the route parameter, the string that
    names the member to remove, and [adminId] the id of the authenticated
    caller.  The guard compares the parameter with [adminId.toString()]
    as strings; the filter [{ user: userId, group: groupId }] of the
    update is cast, so there the parameter stands for the id it spells. *)
Definition removeMember (groupId : ObjectId) (userId : string)
  (adminId : ObjectId) : Db -> Response unit * Db :=
  tryCatch
    (adminMembership <-
       gets (fun db =>
               findOne (adminMembershipQ adminId groupId) db.(members)) ;;
     match adminMembership with
     | None => ret (fail 403 "Only group admin can remove members")
     | Some _ =>
         let remove : M (Response unit) :=
           user <- lift (castObjectId userId) ;;
           _ <- modify (setMembers
                          (findOneAndUpdate (membershipQ user groupId)
                             deactivate)) ;;
           ret (mkResponse 200 "Member removed successfully" (Some tt)) in
         if (userId =? toString adminId)%string then
           adminCount <-
             gets (fun db =>
                     countDocuments (activeAdminQ groupId) db.(members)) ;;
           if adminCount =? 1 then
             ret (fail 400
                    "Cannot remove yourself as the only admin. Transfer admin role first or delete group.")
           else remove
         else remove
     end)
    (fun _ => fail 500 "Error removing member from group").

(* ================================================================= *)
(** ** [controllers/groupController.js] *)

Definition mainChatName : string := "Main Chat".

Definition groupByNameQ (n : string) (g : Group.t) : bool :=
  (g.(Group.name) =? n)%string.

(** [Group.create(doc)]: [groupSchema] declares no unique index besides
    the [_id] given by the driver. *)
Definition Group_create (g : Group.t) : M Group.t :=
  fun db => (Return g, setGroups (fun l => l ++ [g]) db).

(** [{ group: { ...group, memberCount }, messages }]. *)
Record GroupData := mkGroupData {
  gd_group : Group.t;
  memberCount : Z;
  gd_messages : list Message.t
}.

Definition getGroupWithMemberCount (groupId : ObjectId)
  : M (Group.t * Z) :=
  fun db =>
    match findOne (groupByIdQ groupId) db.(groups) with
    | None => (newError "Group not found", db)
    | Some group =>
        (Return (group,
                 countDocuments (activeInGroupQ groupId) db.(members)), db)
    end.

Definition getGroupData (groupId : ObjectId) (messageLimit : Z)
  : M GroupData :=
  groupData <- getGroupWithMemberCount groupId ;;
  found <-
    gets (fun db =>
            limit messageLimit
              (sort oldestFirst
                 (filter (messageOfGroupQ groupId) db.(messages)))) ;;
  ret {| gd_group := fst groupData;
         memberCount := snd groupData;
         gd_messages := found |}.

Definition getMainChat (userId : ObjectId) (now : Date) (newId : ObjectId)
  : Db -> Response GroupData * Db :=
  tryCatch
    (found <- gets (fun db => findOne (groupByNameQ mainChatName) db.(groups)) ;;
     mainChat <-
       match found with
       | Some g => ret g
       | None =>
           Group_create
             {| Group._id := newId;
                Group.name := mainChatName;
                Group.description := "Welcome to the main chat room!";
                Group.createdBy := Some userId;
                Group.isPublic := true;
                Group.maxMembers := 1000;
                Group.invitedUsers := [] |}
       end ;;
     existingMembership <-
       gets (fun db =>
               findOne (membershipQ userId mainChat.(Group._id)) db.(members)) ;;
     _ <- match existingMembership with
          | Some _ => ret tt
          | None =>
              _ <- GroupMember_create userId mainChat.(Group._id) member now ;;
              ret tt
          end ;;
     groupData <- getGroupData mainChat.(Group._id) 50 ;;
     ret (mkResponse 200 "" (Some groupData)))
    (fun _ => fail 500 "Error loading main chat").

Definition deleteGroup (groupId userId : ObjectId)
  : Db -> Response unit * Db :=
  tryCatch
    (group <- gets (fun db => findOne (groupByIdQ groupId) db.(groups)) ;;
     match group with
     | None => ret (fail 404 "Group not found")
     | Some group =>
         adminMembership <-
           gets (fun db =>
                   findOne (adminMembershipQ userId groupId) db.(members)) ;;
         match adminMembership with
         | None => ret (fail 403 "Only group admin can delete the group")
         | Some _ =>
             if (group.(Group.name) =? mainChatName)%string then
               ret (fail 400 "Cannot delete the Main Chat group")
             else
               _ <- modify (setMessages (deleteMany (messageOfGroupQ groupId))) ;;
               _ <- modify (setMembers
                              (deleteMany
                                 (fun r =>
                                    Nat.eqb r.(GroupMember.group) groupId))) ;;
               _ <- modify (setGroups (findOneAndDelete (groupByIdQ groupId))) ;;
               ret (mkResponse 200 "Group deleted successfully" (Some tt))
         end
     end)
    (fun _ => fail 500 "Error deleting group").

(* ================================================================= *)
(** ** Vocabulary of the specification *)

(** The messages stored for a group, in insertion order. *)
Definition storedMessages (groupId : ObjectId) (db : Db) : list Message.t :=
  filter (messageOfGroupQ groupId) db.(messages).

(** Oldest to newest. *)
Definition chronological (l : list Message.t) : Prop :=
  StronglySorted
    (fun a b => a.(Message.createdAt) <= b.(Message.createdAt)) l.

(** Newest to oldest. *)
Definition newestFirstOrder (l : list Message.t) : Prop :=
  StronglySorted
    (fun a b => b.(Message.createdAt) <= a.(Message.createdAt)) l.

(** The user has a membership row of the group with the active flag set. *)
Definition isActiveMember (userId groupId : ObjectId) (db : Db) : Prop :=
  exists r, In r db.(members)
            /\ r.(GroupMember.user) = userId
            /\ r.(GroupMember.group) = groupId
            /\ r.(GroupMember.isActive) = true.

(** The user has a membership row of the group, active or not. *)
Definition hasMembershipRow (userId groupId : ObjectId) (db : Db) : Prop :=
  exists r, In r db.(members)
            /\ r.(GroupMember.user) = userId
            /\ r.(GroupMember.group) = groupId.

Definition groupExists (groupId : ObjectId) (db : Db) : Prop :=
  exists g, In g db.(groups) /\ g.(Group._id) = groupId.

(** Content accepted by the specification: present, non-empty after
    trimming and at most 1000 characters long. *)
Definition validContent (content : option string) : Prop :=
  exists c, content = Some c
            /\ trim c <> ""
            /\ (String.length c <= 1000)%nat.

(** Message type accepted by the specification: one of the four enum
    values, ['text'] when the field is absent. *)
Definition validType (messageType : option string) : Prop :=
  In (match messageType with Some t => t | None => "text" end) validTypes.

(** [counts P l n]: exactly [n] elements of [l] satisfy [P]. *)
Inductive counts {A : Type} (P : A -> Prop) : list A -> nat -> Prop :=
| counts_nil : counts P [] 0
| counts_yes (x : A) (l : list A) (n : nat) :
    P x -> counts P l n -> counts P (x :: l) (S n)
| counts_no (x : A) (l : list A) (n : nat) :
    ~ P x -> counts P l n -> counts P (x :: l) n.

(** The user has a read receipt on the message. *)
Definition hasReceipt (userId : ObjectId) (m : Message.t) : Prop :=
  exists r, In r m.(Message.readBy) /\ r.(Receipt.user) = userId.

(** A message of the group that counts as unread for the user: sent by
    somebody else and without a receipt of the user. *)
Definition unreadFor (groupId userId : ObjectId) (m : Message.t) : Prop :=
  m.(Message.group) = groupId
  /\ m.(Message.sender) <> userId
  /\ ~ hasReceipt userId m.

(** The receipts of a user on a message. *)
Definition receiptsOf (userId : ObjectId) (m : Message.t) : list Receipt.t :=
  filter (fun r => Nat.eqb r.(Receipt.user) userId) m.(Message.readBy).

(** Sample data: one group, [alice] its admin, [bob] a member. *)
Definition alice : ObjectId := 1.
Definition bob : ObjectId := 2.
Definition carol : ObjectId := 3.
Definition general : ObjectId := 10.

Definition generalGroup : Group.t :=
  {| Group._id := general; Group.name := "General";
     Group.description := ""; Group.createdBy := Some alice;
     Group.isPublic := false; Group.maxMembers := 50;
     Group.invitedUsers := [] |}.

Definition text (id : ObjectId) (c : string) (from : ObjectId) (at_ : Date)
  : Message.t :=
  {| Message._id := id; Message.content := c; Message.sender := from;
     Message.group := general; Message.messageType := "text";
     Message.readBy := []; Message.createdAt := at_ |}.

(** Group "General" with three messages from [alice]. *)
Definition chatDb : Db :=
  {| users := [User.mk alice "Alice" "alice@example.com";
               User.mk bob "Bob" "bob@example.com";
               User.mk carol "Carol" "carol@example.com"];
     groups := [generalGroup];
     members := [GroupMember.mk alice general admin 100 true;
                 GroupMember.mk bob general member 200 true];
     messages := [text 21 "one" alice 1000;
                  text 22 "two" alice 2000;
                  text 23 "three" alice 3000] |}.

(** Number of active membership rows of the group with role admin. *)
Definition adminCount (groupId : ObjectId) (db : Db) : Z :=
  countDocuments (activeAdminQ groupId) db.(members).

(** [alice] was removed from "General" and kept the admin row; [bob] is
    the only active admin. *)
Definition removedAdminDb : Db :=
  {| users := chatDb.(users);
     groups := [generalGroup];
     members := [GroupMember.mk alice general admin 100 false;
                 GroupMember.mk bob general admin 200 true];
     messages := [] |}.

(** "General" with an admin, a member and a moderator, in join order. *)
Definition staffDb : Db :=
  {| users := chatDb.(users);
     groups := [generalGroup];
     members := [GroupMember.mk alice general admin 100 true;
                 GroupMember.mk bob general member 200 true;
                 GroupMember.mk carol general moderator 300 true];
     messages := [] |}.

(** The group document that [getMainChat] creates when none is found. *)
Definition newMainChat (userId newId : ObjectId) : Group.t :=
  {| Group._id := newId;
     Group.name := mainChatName;
     Group.description := "Welcome to the main chat room!";
     Group.createdBy := Some userId;
     Group.isPublic := true;
     Group.maxMembers := 1000;
     Group.invitedUsers := [] |}.

Definition lobby : ObjectId := 11.

(** "Main Chat" exists; [bob] was removed from it. *)
Definition lobbyDb : Db :=
  {| users := chatDb.(users);
     groups := [newMainChat alice lobby];
     members := [GroupMember.mk alice lobby admin 100 true;
                 GroupMember.mk bob lobby member 200 false];
     messages := [] |}.

(** The user has a membership row of the group with the active flag
    cleared. *)
Definition hasInactiveRow (userId groupId : ObjectId) (db : Db) : Prop :=
  exists r, In r db.(members)
            /\ r.(GroupMember.user) = userId
            /\ r.(GroupMember.group) = groupId
            /\ r.(GroupMember.isActive) = false.

(** The group exists and lists a pending invitation for the user. *)
Definition hasPendingInvitation (userId groupId : ObjectId) (db : Db)
  : Prop :=
  exists g i, findOne (groupByIdQ groupId) db.(groups) = Some g
              /\ In i g.(Group.invitedUsers)
              /\ i.(Invite.user) = userId
              /\ i.(Invite.status) = pending.

(** The unique index: no two membership rows with the same user and
    group. *)
Definition uniqueMembership (db : Db) : Prop :=
  NoDup (map (fun r => (r.(GroupMember.user), r.(GroupMember.group)))
             db.(members)).

(** The user has a membership row of the group with role admin, active or
    not. *)
Definition hasAdminRow (userId groupId : ObjectId) (db : Db) : Prop :=
  exists r, In r db.(members)
            /\ r.(GroupMember.user) = userId
            /\ r.(GroupMember.group) = groupId
            /\ r.(GroupMember.role) = admin.

(** The user has an active membership row of the group with role admin. *)
Definition isActiveAdmin (userId groupId : ObjectId) (db : Db) : Prop :=
  exists r, In r db.(members)
            /\ r.(GroupMember.user) = userId
            /\ r.(GroupMember.group) = groupId
            /\ r.(GroupMember.role) = admin
            /\ r.(GroupMember.isActive) = true.

(** A content of 1001 characters. *)
Definition longContent : string :=
  string_of_list_ascii (repeat "a"%char 1001).

(** Membership rows of "General" without the group document, as a
    request can find them while a [deleteGroup] is under way: its three
    deletions are started together. *)
Definition orphanDb : Db :=
  {| users := chatDb.(users);
     groups := [];
     members := chatDb.(members);
     messages := [] |}.

(* ================================================================= *)
(** ** [controllers/messageController.js]: the other handlers *)

(** Decimal digits of a number, as a template literal prints it. *)
Definition string_of_nat (n : nat) : string :=
  NilZero.string_of_uint (Nat.to_uint n).

(** [markMessagesAsRead]: [messageIds] is [None] when the body has no such
    field or the field is not an array. *)
Definition markMessagesAsRead (groupId userId : ObjectId)
  (messageIds : option (list ObjectId)) (now : Date)
  : Db -> Response Z * Db :=
  tryCatch
    (match messageIds with
     | None | Some [] => ret (fail 400 "Message IDs array is required")
     | Some ids =>
         _ <- (fun db => (validateGroupMembership userId groupId db, db)) ;;
         _ <- modify (fun db =>
                        fold_left
                          (fun d messageId =>
                             markMessageAsRead messageId userId now d)
                          ids db) ;;
         ret (mkResponse 200
                (string_of_nat (List.length ids) ++ " messages marked as read")
                (Some (Z.of_nat (List.length ids))))
     end)
    (fun error =>
       let msg := error.(Error.message) in
       if includes msg "not a member" then fail 403 msg
       else fail 500 "Error marking messages as read").

(** Query [{ user, group, role: 'admin', isActive: true }] on
    [GroupMember]. *)
Definition activeAdminMembershipQ (userId groupId : ObjectId)
  (r : GroupMember.t) : bool :=
  Nat.eqb r.(GroupMember.user) userId
  && Nat.eqb r.(GroupMember.group) groupId
  && role_eqb r.(GroupMember.role) admin
  && Bool.eqb r.(GroupMember.isActive) true.

Definition deleteMessage (messageId userId : ObjectId)
  : Db -> Response unit * Db :=
  tryCatch
    (message <- gets (fun db => findOne (messageByIdQ messageId) db.(messages)) ;;
     match message with
     | None => ret (fail 404 "Message not found")
     | Some message =>
         let isSender := Nat.eqb message.(Message.sender) userId in
         let delete : M (Response unit) :=
           _ <- modify (setMessages (findOneAndDelete (messageByIdQ messageId))) ;;
           ret (mkResponse 200 "Message deleted successfully" (Some tt)) in
         if negb isSender then
           adminMembership <-
             gets (fun db =>
                     findOne
                       (activeAdminMembershipQ userId message.(Message.group))
                       db.(members)) ;;
           match adminMembership with
           | None =>
               ret (fail 403
                      "Only message sender or group admin can delete messages")
           | Some _ => delete
           end
         else delete
     end)
    (fun _ => fail 500 "Error deleting message").

Definition setContent (c : string) (m : Message.t) : Message.t :=
  {| Message._id := m.(Message._id);
     Message.content := c;
     Message.sender := m.(Message.sender);
     Message.group := m.(Message.group);
     Message.messageType := m.(Message.messageType);
     Message.readBy := m.(Message.readBy);
     Message.createdAt := m.(Message.createdAt) |}.

(** [Message.findByIdAndUpdate(id, { content, updatedAt }, { new: true,
    runValidators: true })]: the setter and the validators of [content]
    run on the new value.  The [updatedAt] stamp is not a field of the
    document model. *)
Definition Message_updateContent (messageId : ObjectId) (content : string)
  : M (option Message.t) :=
  fun db =>
    let c := trim content in
    if Nat.eqb (String.length c) 0 then
      (Throw {| Error.name := "ValidationError";
                Error.message :=
                  "Validation failed: content: Message content is required" |},
       db)
    else if (1000 <? String.length c)%nat then
      (Throw {| Error.name := "ValidationError";
                Error.message :=
                  "Validation failed: content: Message cannot exceed 1000 characters" |},
       db)
    else
      let db' := setMessages
                   (findOneAndUpdate (messageByIdQ messageId) (setContent c))
                   db in
      (Return (findOne (messageByIdQ messageId) db'.(messages)), db').

Definition editMessage (messageId userId : ObjectId)
  (content : option string) : Db -> Response Message.t * Db :=
  tryCatch
    (message <- gets (fun db => findOne (messageByIdQ messageId) db.(messages)) ;;
     match message with
     | None => ret (fail 404 "Message not found")
     | Some message =>
         if negb (Nat.eqb message.(Message.sender) userId) then
           ret (fail 403 "Only message sender can edit messages")
         else
           validatedContent <- lift (validateMessageContent content) ;;
           updatedMessage <- Message_updateContent messageId validatedContent ;;
           ret (mkResponse 200 "Message updated successfully" updatedMessage)
     end)
    (fun error =>
       let msg := error.(Error.message) in
       if (includes msg "Message content cannot be empty"
           || includes msg "Message cannot exceed")%bool
       then fail 400 msg
       else fail 500 "Error editing message").

(* ================================================================= *)
(** ** [controllers/groupController.js]: the other handlers *)

(** [error.code === 11000]: the duplicate-key errors of the store are
    the ones whose message starts with the code. *)
Definition isDuplicateKey (e : Error.t) : bool :=
  prefix "E11000" e.(Error.message).

(** Query [{ name: name.trim() }], with [_id: { $ne: excludeId }] when an
    id to exclude is given. *)
Definition groupNameTakenQ (name : string) (excludeId : option ObjectId)
  (g : Group.t) : bool :=
  (g.(Group.name) =? trim name)%string
  && match excludeId with
     | Some id => negb (Nat.eqb g.(Group._id) id)
     | None => true
     end.

Definition validateGroupName (name : string) (excludeId : option ObjectId)
  (db : Db) : Result unit :=
  match findOne (groupNameTakenQ name excludeId) db.(groups) with
  | Some _ => newError "Group with this name already exists"
  | None => Return tt
  end.

(** The validators of [groupSchema] on [name] (trimmed, required, at most
    100 characters) and [description] (at most 500 characters). *)
Definition validateGroupFields (name description : string)
  : Result string :=
  let n := trim name in
  if Nat.eqb (String.length n) 0 then
    Throw {| Error.name := "ValidationError";
             Error.message :=
               "Group validation failed: name: Group name is required" |}
  else if (100 <? String.length n)%nat then
    Throw {| Error.name := "ValidationError";
             Error.message :=
               "Group validation failed: name: Group name cannot exceed 100 characters" |}
  else if (500 <? String.length description)%nat then
    Throw {| Error.name := "ValidationError";
             Error.message :=
               "Group validation failed: description: Description cannot exceed 500 characters" |}
  else Return n.

Definition setName (n : string) (g : Group.t) : Group.t :=
  {| Group._id := g.(Group._id);
     Group.name := n;
     Group.description := g.(Group.description);
     Group.createdBy := g.(Group.createdBy);
     Group.isPublic := g.(Group.isPublic);
     Group.maxMembers := g.(Group.maxMembers);
     Group.invitedUsers := g.(Group.invitedUsers) |}.

(** [Group.create(doc)] for a document built from a request body: the
    schema validators run first and the name is stored trimmed. *)
Definition Group_createValidated (g : Group.t) : M Group.t :=
  fun db =>
    match validateGroupFields g.(Group.name) g.(Group.description) with
    | Throw e => (Throw e, db)
    | Return n => Group_create (setName n g) db
    end.

(** [Math.min(Math.max(n, 1), 1000)]. *)
Definition clampMembers (n : Z) : Z := Z.min (Z.max n 1) 1000.

(** The double quote character. *)
Definition dquote : string := String "034"%char EmptyString.

(** The template literal of the welcome message of [createGroup]. *)
Definition welcomeContent (name : string) : string :=
  ("Group " ++ dquote ++ name ++ dquote
   ++ " was created! Start the conversation.")%string.

(** [createGroup]: [description], [isPublic] and [maxMembers] are [None]
    when the body has no such field; an absent description is stored as
    the empty string.  [newGroupId] and [newMessageId] are the ids given by
    the driver. *)
Definition createGroup (userId : ObjectId) (name : string)
  (description : option string) (isPublic : option bool)
  (maxMembers : option Z) (now : Date) (newGroupId newMessageId : ObjectId)
  : Db -> Response Group.t * Db :=
  tryCatch
    (_ <- (fun db => (validateGroupName name None db, db)) ;;
     group <-
       Group_createValidated
         {| Group._id := newGroupId;
            Group.name := trim name;
            Group.description :=
              match description with Some d => trim d | None => "" end;
            Group.createdBy := Some userId;
            Group.isPublic :=
              match isPublic with Some b => b | None => false end;
            Group.maxMembers := clampMembers (parseIntOr maxMembers 50);
            Group.invitedUsers := [] |} ;;
     _ <- GroupMember_create userId group.(Group._id) admin now ;;
     _ <- Message_create newMessageId (welcomeContent name) userId
            group.(Group._id) "system" now ;;
     ret (mkResponse 201 "Group created successfully" (Some group)))
    (fun error =>
       if (isDuplicateKey error
           || includes error.(Error.message) "already exists")%bool
       then fail 409 "Group with this name already exists"
       else fail 500 "Error creating group").

(** The update document of [updateGroup]: a field is written when the
    body gives a truthy value for it ([isPublic]: any value). *)
Definition applyUpdate (name description : option string)
  (isPublic : option bool) (maxMembers : option Z) (g : Group.t) : Group.t :=
  {| Group._id := g.(Group._id);
     Group.name :=
       match name with
       | Some n => if Nat.eqb (String.length n) 0 then g.(Group.name)
                   else trim n
       | None => g.(Group.name)
       end;
     Group.description :=
       match description with
       | Some d => if Nat.eqb (String.length d) 0 then g.(Group.description)
                   else trim d
       | None => g.(Group.description)
       end;
     Group.createdBy := g.(Group.createdBy);
     Group.isPublic :=
       match isPublic with Some b => b | None => g.(Group.isPublic) end;
     Group.maxMembers :=
       match maxMembers with
       | Some n => if n =? 0 then g.(Group.maxMembers) else clampMembers n
       | None => g.(Group.maxMembers)
       end;
     Group.invitedUsers := g.(Group.invitedUsers) |}.

(** [Group.findByIdAndUpdate(groupId, updateData, { new: true,
    runValidators: true })]: the validators of the written fields run on
    their new values. *)
Definition Group_update (groupId : ObjectId) (name description : option string)
  (isPublic : option bool) (maxMembers : option Z) : M (option Group.t) :=
  fun db =>
    let nameWritten :=
      match name with
      | Some n => negb (Nat.eqb (String.length n) 0)
      | None => false
      end in
    let descriptionWritten :=
      match description with
      | Some d => negb (Nat.eqb (String.length d) 0)
      | None => false
      end in
    let n := match name with Some n => trim n | None => "" end in
    let d := match description with Some d => trim d | None => "" end in
    if (nameWritten && Nat.eqb (String.length n) 0)%bool then
      (Throw {| Error.name := "ValidationError";
                Error.message :=
                  "Validation failed: name: Group name is required" |}, db)
    else if (nameWritten && (100 <? String.length n)%nat)%bool then
      (Throw {| Error.name := "ValidationError";
                Error.message :=
                  "Validation failed: name: Group name cannot exceed 100 characters" |},
       db)
    else if (descriptionWritten && (500 <? String.length d)%nat)%bool then
      (Throw {| Error.name := "ValidationError";
                Error.message :=
                  "Validation failed: description: Description cannot exceed 500 characters" |},
       db)
    else
      let db' := setGroups
                   (findOneAndUpdate (groupByIdQ groupId)
                      (applyUpdate name description isPublic maxMembers))
                   db in
      (Return (findOne (groupByIdQ groupId) db'.(groups)), db').

Definition updateGroup (groupId userId : ObjectId)
  (name description : option string) (isPublic : option bool)
  (maxMembers : option Z) : Db -> Response Group.t * Db :=
  tryCatch
    (group <- gets (fun db => findOne (groupByIdQ groupId) db.(groups)) ;;
     match group with
     | None => ret (fail 404 "Group not found")
     | Some group =>
         adminMembership <-
           gets (fun db =>
                   findOne (adminMembershipQ userId groupId) db.(members)) ;;
         match adminMembership with
         | None => ret (fail 403 "Only group admin can update the group")
         | Some _ =>
             _ <- match name with
                  | Some n =>
                      if (negb (Nat.eqb (String.length n) 0)
                          && negb (n =? group.(Group.name))%string)%bool
                      then fun db => (validateGroupName n (Some groupId) db, db)
                      else ret tt
                  | None => ret tt
                  end ;;
             updatedGroup <-
               Group_update groupId name description isPublic maxMembers ;;
             ret (mkResponse 200 "Group updated successfully" updatedGroup)
         end
     end)
    (fun error =>
       if (error.(Error.name) =? "ValidationError")%string
       then fail 400 "Validation failed"
       else if (isDuplicateKey error
                || includes error.(Error.message) "already exists")%bool
       then fail 409 "Group with this name already exists"
       else fail 500 "Error updating group").

Definition deleteGroupPublic (groupId : ObjectId)
  : Db -> Response unit * Db :=
  tryCatch
    (group <- gets (fun db => findOne (groupByIdQ groupId) db.(groups)) ;;
     match group with
     | None => ret (fail 404 "Group not found")
     | Some group =>
         if (group.(Group.name) =? mainChatName)%string then
           ret (fail 400 "Cannot delete the Main Chat group")
         else
           _ <- modify (setMessages (deleteMany (messageOfGroupQ groupId))) ;;
           _ <- modify (setMembers
                          (deleteMany
                             (fun r =>
                                Nat.eqb r.(GroupMember.group) groupId))) ;;
           _ <- modify (setGroups (findOneAndDelete (groupByIdQ groupId))) ;;
           ret (mkResponse 200 "Group deleted successfully" (Some tt))
     end)
    (fun _ => fail 500 "Error deleting group").

(** [{ ...groupData, userRole: membership.role }]. *)
Definition getGroupDetails (groupId userId : ObjectId)
  : Db -> Response (GroupData * Role) * Db :=
  tryCatch
    (membership <-
       gets (fun db =>
               findOne (activeMembershipQ userId groupId) db.(members)) ;;
     match membership with
     | None => ret (fail 403 "You are not a member of this group")
     | Some membership =>
         groupData <- getGroupData groupId 50 ;;
         ret (mkResponse 200 ""
                (Some (groupData, membership.(GroupMember.role))))
     end)
    (fun _ => fail 500 "Error fetching group details").

(** The list [defaultGroups] of [createDefaultGroups]:
    name, description and capacity of each public default group. *)
Definition defaultGroups : list (string * string * Z) :=
  [("General Chat", "General discussions for everyone", 1000);
   ("Technology", "Tech talks and discussions", 500);
   ("Gaming", "Video games and gaming culture", 300);
   ("Music", "Share and discuss music", 200);
   ("Sports", "Sports discussions and updates", 400)].

(** One turn of the loop of [createDefaultGroups]; [newId] is the id the
    driver gives if the group is created. *)
Definition createDefaultGroup (groupData : string * string * Z)
  (newId : ObjectId) : M unit :=
  let '(name, description, maxMembers) := groupData in
  existingGroup <-
    gets (fun db => findOne (groupByNameQ name) db.(groups)) ;;
  match existingGroup with
  | Some _ => ret tt
  | None =>
      _ <- Group_create
             {| Group._id := newId;
                Group.name := name;
                Group.description := description;
                Group.createdBy := None;
                Group.isPublic := true;
                Group.maxMembers := maxMembers;
                Group.invitedUsers := [] |} ;;
      ret tt
  end.

(** [createDefaultGroups]: [newIds] are the ids the driver would give to
    the groups of [defaultGroups], in order. *)
Fixpoint createGroupsFrom (l : list (string * string * Z))
  (newIds : list ObjectId) : M unit :=
  match l with
  | [] => ret tt
  | groupData :: l' =>
      _ <- createDefaultGroup groupData (hd 0%nat newIds) ;;
      createGroupsFrom l' (tl newIds)
  end.

Definition createDefaultGroups (newIds : list ObjectId) : M unit :=
  createGroupsFrom defaultGroups newIds.

(* ================================================================= *)
(** ** [controllers/authController.js]: utility functions *)

(** Query [{ name: 'Main Chat', isPublic: true }]. *)
Definition publicMainChatQ (g : Group.t) : bool :=
  (g.(Group.name) =? mainChatName)%string && Bool.eqb g.(Group.isPublic) true.

(** [getMainChatGroup(creatorId = null)]. *)
Definition getMainChatGroup (creatorId : option ObjectId)
  (newId : ObjectId) : M Group.t :=
  found <- gets (fun db => findOne publicMainChatQ db.(groups)) ;;
  match found with
  | Some mainChat => ret mainChat
  | None =>
      Group_create
        {| Group._id := newId;
           Group.name := mainChatName;
           Group.description := "Welcome to the main chat room!";
           Group.createdBy := creatorId;
           Group.isPublic := true;
           Group.maxMembers := 1000;
           Group.invitedUsers := [] |}
  end.

Definition ensureGroupMembership (userId groupId : ObjectId) (now : Date)
  : M bool :=
  existingMembership <-
    gets (fun db => findOne (membershipQ userId groupId) db.(members)) ;;
  match existingMembership with
  | Some _ => ret true
  | None =>
      _ <- GroupMember_create userId groupId member now ;;
      ret true
  end.

(* ================================================================= *)
(** ** Further vocabulary *)

(** [dropWhite l]: [l] without its leading white space. *)
Fixpoint dropWhite (l : list ascii) : list ascii :=
  match l with
  | [] => []
  | c :: l' => if isWhiteSpace c then dropWhite l' else l
  end.

(** The string is empty or starts with a character that is not white
    space. *)
Definition noLeadingWhite (s : string) : Prop :=
  match s with
  | EmptyString => True
  | String c _ => isWhiteSpace c = false
  end.

(** The string is empty or ends with a character that is not white
    space. *)
Definition noTrailingWhite (s : string) : Prop :=
  noLeadingWhite (reverse s).

(** The [_id] index of the message collection: no two stored messages
    have the same id. *)
Definition uniqueMessageIds (db : Db) : Prop :=
  NoDup (map Message._id db.(messages)).

(** A message after a read mark for [messageId]: the receipt is added when
    the message has that id. *)
Definition readIf (userId : ObjectId) (now : Date) (messageId : ObjectId)
  (m : Message.t) : Message.t :=
  if Nat.eqb m.(Message._id) messageId then pushReceipt userId now m else m.

(** A message after read marks for each of [ids], in order. *)
Definition readAll (userId : ObjectId) (now : Date) (ids : list ObjectId)
  (m : Message.t) : Message.t :=
  fold_left (fun m' messageId => readIf userId now messageId m') ids m.

(** A message with [n] more receipts [{ user: userId, readAt: now }] at
    the end of [readBy]. *)
Definition receiptsAdded (userId : ObjectId) (now : Date) (n : nat)
  (m : Message.t) : Message.t :=
  withReadBy
    (m.(Message.readBy)
     ++ repeat {| Receipt.user := userId; Receipt.readAt := now |} n)
    m.

(** How often the id of the message is listed in [ids]. *)
Definition timesListed (ids : list ObjectId) (m : Message.t) : nat :=
  count_occ Nat.eq_dec ids m.(Message._id).

(** A membership row after a removal of the member [userId] of
    [groupId]: the row of that member has its [isActive] flag cleared,
    every other row is as before. *)
Definition removedIn (userId groupId : ObjectId) (r : GroupMember.t)
  : GroupMember.t :=
  if membershipQ userId groupId r then deactivate r else r.

(** A user whose id has letters among its hexadecimal digits, with the
    24 digits of the id in lower case, as [toString] prints them, and in
    upper case. *)
Definition dana : ObjectId := 218.
Definition danaLower : string := "0000000000000000000000da".
Definition danaUpper : string := "0000000000000000000000DA".

Definition studio : ObjectId := 12.

(** A store with four accounts and nothing else. *)
Definition accountsDb : Db :=
  {| users := chatDb.(users) ++ [User.mk dana "Dana" "dana@example.com"];
     groups := [];
     members := [];
     messages := [] |}.

(** [dana] has created the group "Studio" and is its only admin. *)
Definition studioDb : Db :=
  snd (createGroup dana "Studio" None None None 100 studio 40 accountsDb).

(** [alice] has created a group named "Main Chat" and is its admin;
    [bob] has joined it through [getMainChat]; [alice] has removed
    [bob]. *)
Definition mainChatCreatedDb : Db :=
  snd (createGroup alice "Main Chat" (Some "Welcome to the main chat room!")
         (Some true) (Some 1000) 100 lobby 40 accountsDb).

Definition mainChatJoinedDb : Db :=
  snd (getMainChat bob 200 98 mainChatCreatedDb).

Definition mainChatRemovedDb : Db :=
  snd (removeMember lobby (toString bob) alice mainChatJoinedDb).

(** [carol] is invited to "General" by [alice], becomes a member of it
    by [ensureGroupMembership] before answering, and is then removed
    by [alice]: an inactive row next to a pending invitation. *)
Definition invitedDb : Db :=
  snd (inviteToGroup general alice "carol@example.com" 600 chatDb).

Definition assignedDb : Db :=
  snd (ensureGroupMembership carol general 650 invitedDb).

(** A database whose only group is a private group named "Main Chat". *)
Definition privateLobbyDb : Db :=
  {| users := chatDb.(users);
     groups := [{| Group._id := lobby;
                   Group.name := "Main Chat";
                   Group.description := "";
                   Group.createdBy := Some alice;
                   Group.isPublic := false;
                   Group.maxMembers := 50;
                   Group.invitedUsers := [] |}];
     members := [GroupMember.mk alice lobby admin 100 true];
     messages := [] |}.

(* ================================================================= *)
(** * Properties *)

(** ** The cursor operations *)

Section SortFacts.
Context {A : Type}.
Variable leb : A -> A -> bool.
Hypothesis leb_total : forall x y, leb x y = false -> leb y x = true.
Hypothesis leb_trans :
  forall x y z, leb x y = true -> leb y z = true -> leb x z = true.

Let R (x y : A) : Prop := leb x y = true.

Lemma insert_perm (x : A) (l : list A) :
  Permutation (insert leb x l) (x :: l).
Proof.
  induction l as [|y l IH]; simpl.
  - apply Permutation_refl.
  - destruct (leb x y).
    + apply Permutation_refl.
    + eapply perm_trans; [apply perm_skip, IH | apply perm_swap].
Qed.

Lemma sort_perm (l : list A) : Permutation (sort leb l) l.
Proof.
  induction l as [|x l IH]; simpl.
  - constructor.
  - eapply perm_trans; [apply insert_perm | apply perm_skip, IH].
Qed.

Lemma insert_sorted (x : A) (l : list A) :
  StronglySorted R l -> StronglySorted R (insert leb x l).
Proof.
  induction 1 as [|y l Hs IH Hy]; simpl.
  - repeat constructor.
  - destruct (leb x y) eqn:E.
    + constructor; [constructor; assumption|].
      constructor; [exact E|].
      eapply Forall_impl; [|exact Hy].
      intros z Hz. exact (leb_trans _ _ _ E Hz).
    + constructor; [exact IH|].
      eapply Permutation_Forall.
      * apply Permutation_sym, insert_perm.
      * constructor; [apply leb_total; exact E | exact Hy].
Qed.

Lemma sort_sorted (l : list A) : StronglySorted R (sort leb l).
Proof.
  induction l as [|x l IH]; simpl.
  - constructor.
  - apply insert_sorted, IH.
Qed.
End SortFacts.

Lemma StronglySorted_snoc {A : Type} (R : A -> A -> Prop)
  (l : list A) (a : A) :
  StronglySorted R l -> Forall (fun x => R x a) l ->
  StronglySorted R (l ++ [a]).
Proof.
  induction 1 as [|b l Hs IH Hb]; simpl; intros Hall.
  - repeat constructor.
  - inversion Hall as [|? ? Hba Hl]; subst.
    constructor; [apply IH, Hl|].
    apply Forall_app; split; [exact Hb | repeat constructor; exact Hba].
Qed.

Section SortedFacts.
Context {A : Type}.
Variable R : A -> A -> Prop.

Lemma StronglySorted_app_inv (l1 l2 : list A) :
  StronglySorted R (l1 ++ l2) ->
  StronglySorted R l1 /\ StronglySorted R l2 /\
  (forall x y, In x l1 -> In y l2 -> R x y).
Proof.
  induction l1 as [|a l1 IH]; simpl; intros H.
  - repeat split; [constructor | exact H | contradiction].
  - apply StronglySorted_inv in H. destruct H as [Hs Ha].
    destruct (IH Hs) as (H1 & H2 & H12).
    apply Forall_app in Ha. destruct Ha as [Ha1 Ha2].
    repeat split.
    + constructor; assumption.
    + exact H2.
    + intros x y [<-|Hx] Hy.
      * rewrite Forall_forall in Ha2. apply Ha2, Hy.
      * apply H12; assumption.
Qed.

Lemma StronglySorted_firstn (n : nat) (l : list A) :
  StronglySorted R l -> StronglySorted R (firstn n l).
Proof.
  intros H. rewrite <- (firstn_skipn n l) in H.
  apply StronglySorted_app_inv in H. tauto.
Qed.

Lemma StronglySorted_skipn (n : nat) (l : list A) :
  StronglySorted R l -> StronglySorted R (skipn n l).
Proof.
  intros H. rewrite <- (firstn_skipn n l) in H.
  apply StronglySorted_app_inv in H. tauto.
Qed.

Lemma StronglySorted_rev (l : list A) :
  StronglySorted R l -> StronglySorted (fun x y => R y x) (rev l).
Proof.
  induction 1 as [|a l Hs IH Ha]; simpl.
  - constructor.
  - apply StronglySorted_snoc; [exact IH|].
    apply Forall_rev, Ha.
Qed.
End SortedFacts.

(** ** Membership and group lookups *)

Lemma find_ex {A : Type} (q : A -> bool) (l : list A) :
  (exists x, In x l /\ q x = true) -> exists y, find q l = Some y.
Proof.
  intros (x & Hin & Hq).
  destruct (find q l) as [y|] eqn:E; [eauto|].
  pose proof (find_none q l E x Hin) as Hn. congruence.
Qed.

Lemma activeMembershipQ_true (u g : ObjectId) (r : GroupMember.t) :
  activeMembershipQ u g r = true <->
  r.(GroupMember.user) = u /\ r.(GroupMember.group) = g
  /\ r.(GroupMember.isActive) = true.
Proof.
  unfold activeMembershipQ.
  rewrite !andb_true_iff, !Nat.eqb_eq, eqb_true_iff. tauto.
Qed.

Lemma membershipQ_true (u g : ObjectId) (r : GroupMember.t) :
  membershipQ u g r = true <->
  r.(GroupMember.user) = u /\ r.(GroupMember.group) = g.
Proof.
  unfold membershipQ. rewrite andb_true_iff, !Nat.eqb_eq. tauto.
Qed.

Lemma isActiveMember_findOne (u g : ObjectId) (db : Db) :
  isActiveMember u g db <->
  exists r, findOne (activeMembershipQ u g) db.(members) = Some r.
Proof.
  split.
  - intros (r & Hin & Hr). apply find_ex. exists r. split; [exact Hin|].
    apply activeMembershipQ_true, Hr.
  - intros (r & Hf). apply find_some in Hf. destruct Hf as [Hin Hq].
    exists r. split; [exact Hin|]. apply activeMembershipQ_true, Hq.
Qed.

Lemma not_isActiveMember_findOne (u g : ObjectId) (db : Db) :
  ~ isActiveMember u g db ->
  findOne (activeMembershipQ u g) db.(members) = None.
Proof.
  intros Hn.
  destruct (findOne (activeMembershipQ u g) (members db)) as [r|] eqn:E;
    [|reflexivity].
  exfalso. apply Hn, isActiveMember_findOne. eauto.
Qed.

Lemma groupExists_findOne (g : ObjectId) (db : Db) :
  groupExists g db <->
  exists grp, findOne (groupByIdQ g) db.(groups) = Some grp.
Proof.
  split.
  - intros (grp & Hin & Hid). apply find_ex. exists grp. split; [exact Hin|].
    unfold groupByIdQ. apply Nat.eqb_eq, Hid.
  - intros (grp & Hf). apply find_some in Hf. destruct Hf as [Hin Hq].
    exists grp. split; [exact Hin|]. apply Nat.eqb_eq, Hq.
Qed.

Lemma not_groupExists_findOne (g : ObjectId) (db : Db) :
  ~ groupExists g db -> findOne (groupByIdQ g) db.(groups) = None.
Proof.
  intros Hn.
  destruct (findOne (groupByIdQ g) (groups db)) as [grp|] eqn:E;
    [|reflexivity].
  exfalso. apply Hn, groupExists_findOne. eauto.
Qed.

Lemma find_none_existsb {A : Type} (q : A -> bool) (l : list A) :
  find q l = None -> existsb q l = false.
Proof.
  induction l as [|x l IH]; simpl; [reflexivity|].
  destruct (q x); [discriminate | exact IH].
Qed.

Lemma find_some_existsb {A : Type} (q : A -> bool) (l : list A) (x : A) :
  find q l = Some x -> existsb q l = true.
Proof.
  intros H. apply find_some in H. apply existsb_exists. eauto.
Qed.

Lemma find_app_none {A : Type} (q : A -> bool) (l : list A) (x : A) :
  find q l = None -> q x = true -> find q (l ++ [x]) = Some x.
Proof.
  induction l as [|y l IH]; simpl; intros Hn Hq.
  - rewrite Hq. reflexivity.
  - destruct (q y); [discriminate | apply IH; assumption].
Qed.

Lemma find_app_some {A : Type} (q : A -> bool) (l l' : list A) (x : A) :
  find q l = Some x -> find q (l ++ l') = Some x.
Proof.
  induction l as [|y l IH]; simpl; intros H; [discriminate|].
  destruct (q y); [exact H | apply IH, H].
Qed.

Lemma hasMembershipRow_findOne (u g : ObjectId) (db : Db) :
  hasMembershipRow u g db <->
  exists r, findOne (membershipQ u g) db.(members) = Some r.
Proof.
  split.
  - intros (r & Hin & Hr). apply find_ex. exists r. split; [exact Hin|].
    apply membershipQ_true, Hr.
  - intros (r & Hf). apply find_some in Hf. destruct Hf as [Hin Hq].
    exists r. split; [exact Hin|]. apply membershipQ_true, Hq.
Qed.

Lemma role_eqb_admin (r : Role) : role_eqb r admin = true <-> r = admin.
Proof. destruct r; cbv; split; intros H; congruence. Qed.

Lemma activeAdminQ_true (g : ObjectId) (r : GroupMember.t) :
  activeAdminQ g r = true <->
  r.(GroupMember.group) = g /\ r.(GroupMember.role) = admin
  /\ r.(GroupMember.isActive) = true.
Proof.
  unfold activeAdminQ.
  rewrite !andb_true_iff, Nat.eqb_eq, role_eqb_admin, eqb_true_iff. tauto.
Qed.

Lemma adminMembershipQ_true (u g : ObjectId) (r : GroupMember.t) :
  adminMembershipQ u g r = true <->
  r.(GroupMember.user) = u /\ r.(GroupMember.group) = g
  /\ r.(GroupMember.role) = admin.
Proof.
  unfold adminMembershipQ.
  rewrite !andb_true_iff, !Nat.eqb_eq, role_eqb_admin. tauto.
Qed.

Lemma hasAdminRow_findOne (u g : ObjectId) (db : Db) :
  hasAdminRow u g db <->
  exists r, findOne (adminMembershipQ u g) db.(members) = Some r.
Proof.
  split.
  - intros (r & Hin & Hr). apply find_ex. exists r. split; [exact Hin|].
    apply adminMembershipQ_true, Hr.
  - intros (r & Hf). apply find_some in Hf. destruct Hf as [Hin Hq].
    exists r. split; [exact Hin|]. apply adminMembershipQ_true, Hq.
Qed.

Lemma not_hasAdminRow_findOne (u g : ObjectId) (db : Db) :
  ~ hasAdminRow u g db ->
  findOne (adminMembershipQ u g) db.(members) = None.
Proof.
  intros Hn.
  destruct (findOne (adminMembershipQ u g) (members db)) as [r|] eqn:E;
    [|reflexivity].
  exfalso. apply Hn, hasAdminRow_findOne. eauto.
Qed.

Lemma not_hasMembershipRow_findOne (u g : ObjectId) (db : Db) :
  ~ hasMembershipRow u g db ->
  findOne (membershipQ u g) db.(members) = None.
Proof.
  intros Hn.
  destruct (findOne (membershipQ u g) (members db)) as [r|] eqn:E;
    [|reflexivity].
  exfalso. apply Hn, hasMembershipRow_findOne. eauto.
Qed.

(** ** Pagination *)

Lemma newestFirst_total (a b : Message.t) :
  newestFirst a b = false -> newestFirst b a = true.
Proof. unfold newestFirst. rewrite Z.leb_gt, Z.leb_le. lia. Qed.

Lemma newestFirst_trans (a b c : Message.t) :
  newestFirst a b = true -> newestFirst b c = true -> newestFirst a c = true.
Proof. unfold newestFirst. rewrite !Z.leb_le. lia. Qed.

Lemma sort_newestFirst_order (l : list Message.t) :
  newestFirstOrder (sort newestFirst l).
Proof.
  unfold newestFirstOrder.
  pose proof (sort_sorted newestFirst newestFirst_total newestFirst_trans l)
    as H.
  induction H as [|a l' Hs IH Ha]; constructor.
  - exact IH.
  - eapply Forall_impl; [|exact Ha].
    intros b Hb. unfold newestFirst in Hb. apply Z.leb_le, Hb.
Qed.

Lemma ceilDiv_spec (a b : Z) :
  0 < b -> (ceilDiv a b - 1) * b < a <= ceilDiv a b * b.
Proof.
  intros Hb. unfold ceilDiv.
  pose proof (Z.div_mod (a + b - 1) b ltac:(lia)) as Hdm.
  pose proof (Z.mod_pos_bound (a + b - 1) b Hb) as Hm.
  nia.
Qed.

Lemma getGroupMessages_ok (db : Db) (groupId userId : ObjectId)
  (page lim : Z) (now : Date) :
  1 <= page -> 1 <= lim <= 100 ->
  isActiveMember userId groupId db -> groupExists groupId db ->
  getGroupMessages groupId userId (Some page) (Some lim) now db =
  (mkResponse 200 "" (Some (getMessagesWithPagination groupId page lim db)),
   fold_left (fun d m => markMessageAsRead m.(Message._id) userId now d)
     (fst (getMessagesWithPagination groupId page lim db)) db).
Proof.
  intros Hp Hl Hm Hg.
  apply isActiveMember_findOne in Hm. destruct Hm as [r Hr].
  apply groupExists_findOne in Hg. destruct Hg as [grp Hgrp].
  unfold getGroupMessages, parseIntOr.
  replace (page =? 0) with false by (symmetry; apply Z.eqb_neq; lia).
  replace (lim =? 0) with false by (symmetry; apply Z.eqb_neq; lia).
  replace (page <? 1) with false by (symmetry; apply Z.ltb_ge; lia).
  replace (lim <? 1) with false by (symmetry; apply Z.ltb_ge; lia).
  replace (100 <? lim) with false by (symmetry; apply Z.ltb_ge; lia).
  cbn [orb].
  unfold tryCatch, bind, gets, modify, ret, validateGroupMembership.
  cbv beta. rewrite Hr. cbv beta iota. rewrite Hgrp. reflexivity.
Qed.

(** C3. For an active member of an existing group with [n] stored
    messages, [page >= 1] and [1 <= lim <= 100], [getGroupMessages]
    answers 200 with the requested page of the newest-first ordering,
    reversed: the messages are in ascending [createdAt] order, page 1
    consists of the [min lim n] most recent messages, and the pagination
    record is [{ currentPage = page, totalPages = ceil(n / lim),
    totalMessages = n, hasNext = page < totalPages, hasPrev = page > 1 }],
    where [totalPages] is the least [k] with [n <= k * lim]. *)
Theorem getGroupMessages_page (db : Db) (groupId userId : ObjectId)
  (page lim : Z) (now : Date) :
  1 <= page -> 1 <= lim <= 100 ->
  isActiveMember userId groupId db -> groupExists groupId db ->
  let stored := storedMessages groupId db in
  let n := Z.of_nat (List.length stored) in
  exists newest msgs pages,
    fst (getGroupMessages groupId userId (Some page) (Some lim) now db)
    = mkResponse 200 ""
        (Some (msgs,
               {| currentPage := page;
                  totalPages := pages;
                  totalMessages := n;
                  hasNext := page <? pages;
                  hasPrev := 1 <? page |}))
    /\ (pages - 1) * lim < n <= pages * lim
    /\ Permutation newest stored
    /\ newestFirstOrder newest
    /\ msgs = rev (firstn (Z.to_nat lim)
                     (skipn (Z.to_nat ((page - 1) * lim)) newest))
    /\ chronological msgs
    /\ (page = 1 ->
        Z.of_nat (List.length msgs) = Z.min lim n
        /\ exists older,
            Permutation (older ++ msgs) stored
            /\ forall m m', In m msgs -> In m' older ->
                 m'.(Message.createdAt) <= m.(Message.createdAt)).
Proof.
  intros Hp Hl Hm Hg stored n.
  pose proof (sort_perm newestFirst stored) as Hperm.
  pose proof (sort_newestFirst_order stored) as Hord.
  set (newest := sort newestFirst stored) in *.
  exists newest,
    (rev (firstn (Z.to_nat lim) (skipn (Z.to_nat ((page - 1) * lim)) newest))),
    (ceilDiv n lim).
  split.
  { rewrite getGroupMessages_ok by assumption. reflexivity. }
  split; [apply ceilDiv_spec; lia|].
  split; [exact Hperm|].
  split; [exact Hord|].
  split; [reflexivity|].
  split.
  { unfold chronological.
    apply (StronglySorted_rev
             (fun a b => Message.createdAt b <= Message.createdAt a)).
    apply StronglySorted_firstn, StronglySorted_skipn, Hord. }
  intros ->. replace (Z.to_nat ((1 - 1) * lim)) with 0%nat by lia.
  cbn [skipn]. split.
  - rewrite length_rev, length_firstn.
    rewrite (Permutation_length Hperm). fold n. lia.
  - exists (skipn (Z.to_nat lim) newest). split.
    + eapply perm_trans; [apply Permutation_app_comm|].
      eapply perm_trans; [|exact Hperm].
      rewrite <- (firstn_skipn (Z.to_nat lim) newest) at 3.
      apply Permutation_app_tail, Permutation_sym, Permutation_rev.
    + intros m m' Hin Hin'. apply in_rev in Hin.
      unfold newestFirstOrder in Hord.
      rewrite <- (firstn_skipn (Z.to_nat lim) newest) in Hord.
      apply StronglySorted_app_inv in Hord.
      destruct Hord as (_ & _ & H). exact (H m m' Hin Hin').
Qed.

Lemma getGroupMessages_page_witness :
  exists newest msgs pages,
    fst (getGroupMessages general alice (Some 1) (Some 2) 9000 chatDb)
    = mkResponse 200 ""
        (Some (msgs,
               {| currentPage := 1;
                  totalPages := pages;
                  totalMessages := 3;
                  hasNext := 1 <? pages;
                  hasPrev := 1 <? 1 |}))
    /\ (pages - 1) * 2 < 3 <= pages * 2
    /\ Permutation newest (storedMessages general chatDb)
    /\ newestFirstOrder newest
    /\ msgs = rev (firstn (Z.to_nat 2)
                     (skipn (Z.to_nat ((1 - 1) * 2)) newest))
    /\ chronological msgs
    /\ (1 = 1 ->
        Z.of_nat (List.length msgs) = Z.min 2 3
        /\ exists older,
            Permutation (older ++ msgs) (storedMessages general chatDb)
            /\ forall m m', In m msgs -> In m' older ->
                 m'.(Message.createdAt) <= m.(Message.createdAt)).
Proof.
  apply (getGroupMessages_page chatDb general alice 1 2 9000).
  - lia.
  - lia.
  - exists (GroupMember.mk alice general admin 100 true). simpl. tauto.
  - exists generalGroup. simpl. tauto.
Defined.

(** Page 1 with limit 2 of the three sample messages: the two most recent
    ones, oldest first. *)
Example getGroupMessages_example :
  option_map (fun r => (map Message._id (fst r), snd r))
    (data (fst (getGroupMessages general alice (Some 1) (Some 2) 9000 chatDb)))
  = Some ([22%nat; 23%nat],
          {| currentPage := 1; totalPages := 2; totalMessages := 3;
             hasNext := true; hasPrev := false |}).
Proof. reflexivity. Qed.

(** ** Sending a message *)

Lemma length_zero_empty (s : string) :
  Nat.eqb (String.length s) 0 = true <-> s = "".
Proof.
  destruct s; simpl; split; intros H; try reflexivity; discriminate.
Qed.

Lemma validateMessageContent_valid (content : option string) :
  validContent content ->
  exists c, content = Some c
            /\ validateMessageContent content = Return (trim c).
Proof.
  intros (c & -> & Hne & Hlen). exists c. split; [reflexivity|].
  unfold validateMessageContent.
  destruct (Nat.eqb (String.length c) 0) eqn:E0.
  { apply length_zero_empty in E0. subst c. exfalso. apply Hne. reflexivity. }
  destruct (Nat.eqb (String.length (trim c)) 0) eqn:E1.
  { apply length_zero_empty in E1. contradiction. }
  cbn [orb].
  destruct (Nat.ltb_spec 1000 (String.length c)) as [Hgt|_]; [lia|].
  reflexivity.
Qed.

Lemma validateMessageContent_invalid (content : option string) :
  ~ validContent content ->
  validateMessageContent content = newError "Message content cannot be empty"
  \/ validateMessageContent content
     = newError "Message cannot exceed 1000 characters".
Proof.
  intros Hn. destruct content as [c|]; [|left; reflexivity].
  unfold validateMessageContent.
  destruct (Nat.eqb (String.length c) 0) eqn:E0; [left; reflexivity|].
  destruct (Nat.eqb (String.length (trim c)) 0) eqn:E1; [left; reflexivity|].
  cbn [orb].
  destruct (Nat.ltb_spec 1000 (String.length c)) as [Hgt|Hle];
    [right; reflexivity|].
  exfalso. apply Hn. exists c. repeat split; [|exact Hle].
  intros Ht. rewrite Ht in E1. discriminate.
Qed.

Lemma validateMessageType_valid (messageType : string) :
  In messageType validTypes ->
  validateMessageType messageType = Return messageType.
Proof.
  intros Hin. unfold validateMessageType.
  replace (existsb (String.eqb messageType) validTypes) with true;
    [reflexivity|].
  symmetry. apply existsb_exists. exists messageType.
  split; [exact Hin | apply String.eqb_refl].
Qed.

Lemma validateMessageType_invalid (messageType : string) :
  ~ In messageType validTypes ->
  validateMessageType messageType = newError "Invalid message type".
Proof.
  intros Hn. unfold validateMessageType.
  destruct (existsb (String.eqb messageType) validTypes) eqn:E;
    [|reflexivity].
  apply existsb_exists in E. destruct E as (t & Hin & Heq).
  apply String.eqb_eq in Heq. subst t. contradiction.
Qed.

Lemma validContent_dec (content : option string) :
  validContent content \/ ~ validContent content.
Proof.
  destruct content as [c|].
  - destruct (string_dec (trim c) "") as [He|Hne].
    + right. intros (c' & [= <-] & H & _). contradiction.
    + destruct (le_dec (String.length c) 1000) as [Hle|Hgt].
      * left. exists c. tauto.
      * right. intros (c' & [= <-] & _ & H). contradiction.
  - right. intros (c' & [=] & _).
Qed.

(** ** Unread counts and read receipts *)

Lemma counts_filter {A : Type} (P : A -> Prop) (q : A -> bool)
  (l : list A) :
  (forall x, q x = true <-> P x) ->
  counts P l (List.length (filter q l)).
Proof.
  intros Hq. induction l as [|x l IH]; simpl.
  - constructor.
  - destruct (q x) eqn:E; simpl.
    + apply counts_yes; [apply Hq, E | exact IH].
    + apply counts_no; [|exact IH].
      intros HP. apply Hq in HP. congruence.
Qed.

Lemma counts_unique {A : Type} (P : A -> Prop) (l : list A) (n n' : nat) :
  counts P l n -> counts P l n' -> n = n'.
Proof.
  intros H. revert n'.
  induction H as [|x l n HP _ IH|x l n HP _ IH]; intros n' H';
    inversion H'; subst; auto; contradiction.
Qed.

Lemma unreadQ_spec (g u : ObjectId) (m : Message.t) :
  unreadQ g u m = true <-> unreadFor g u m.
Proof.
  unfold unreadQ, unreadFor, hasReceipt.
  rewrite !andb_true_iff, negb_true_iff, Nat.eqb_eq, Nat.eqb_neq,
    forallb_forall.
  split.
  - intros [[Hg Hr] Hs]. repeat split; try assumption.
    intros (r & Hin & Hu). specialize (Hr r Hin).
    rewrite negb_true_iff, Nat.eqb_neq in Hr. contradiction.
  - intros (Hg & Hs & Hr). repeat split; try assumption.
    intros r Hin. rewrite negb_true_iff, Nat.eqb_neq.
    intros Hu. apply Hr. eauto.
Qed.

Lemma filter_filter_sub {A : Type} (p q : A -> bool) (l : list A) :
  (forall x, q x = true -> p x = true) ->
  filter q (filter p l) = filter q l.
Proof.
  intros H. induction l as [|x l IH]; simpl; [reflexivity|].
  destruct (p x) eqn:Ep; simpl.
  - rewrite IH. reflexivity.
  - destruct (q x) eqn:Eq; [|exact IH].
    apply H in Eq. congruence.
Qed.

(** C5. For an active member [userId] of the group, the answer of
    [getUnreadMessageCount] is the number of stored messages of the group
    that were sent by somebody else and carry no receipt of [userId]; the
    messages sent by [userId] do not contribute: the number is the same
    with them left out. *)
Theorem getUnreadMessageCount_spec (db : Db) (groupId userId : ObjectId) :
  isActiveMember userId groupId db ->
  exists n : nat,
    getUnreadMessageCount groupId userId db
    = (mkResponse 200 "" (Some (Z.of_nat n)), db)
    /\ counts (unreadFor groupId userId) db.(messages) n
    /\ counts (unreadFor groupId userId)
         (filter (fun m => negb (Nat.eqb m.(Message.sender) userId))
                 db.(messages)) n.
Proof.
  intros Hm. apply isActiveMember_findOne in Hm. destruct Hm as [r Hr].
  exists (List.length (filter (unreadQ groupId userId) db.(messages))).
  split; [|split].
  - unfold getUnreadMessageCount, tryCatch, bind, gets, ret,
      validateGroupMembership.
    rewrite Hr. reflexivity.
  - apply counts_filter, unreadQ_spec.
  - rewrite <- (filter_filter_sub
                  (fun m => negb (Nat.eqb m.(Message.sender) userId))
                  (unreadQ groupId userId) db.(messages)).
    + apply counts_filter, unreadQ_spec.
    + intros m Hq. unfold unreadQ in Hq.
      apply andb_true_iff in Hq. tauto.
Qed.

Lemma getUnreadMessageCount_spec_witness :
  exists n : nat,
    getUnreadMessageCount general bob chatDb
    = (mkResponse 200 "" (Some (Z.of_nat n)), chatDb)
    /\ counts (unreadFor general bob) chatDb.(messages) n
    /\ counts (unreadFor general bob)
         (filter (fun m => negb (Nat.eqb m.(Message.sender) bob))
                 chatDb.(messages)) n.
Proof.
  apply (getUnreadMessageCount_spec chatDb general bob).
  exists (GroupMember.mk bob general member 200 true).
  simpl. tauto.
Defined.

(** The example of the specification: three messages from A, B reads the
    first two. *)
Example unreadCount_example :
  fst (getUnreadMessageCount general bob chatDb)
  = mkResponse 200 "" (Some 3)
  /\ fst (getUnreadMessageCount general bob
            (markMessageAsRead 22 bob 5000
               (markMessageAsRead 21 bob 4000 chatDb)))
     = mkResponse 200 "" (Some 1)
  /\ fst (getUnreadMessageCount general alice chatDb)
     = mkResponse 200 "" (Some 0).
Proof. repeat split. Qed.

Lemma filter_nil {A : Type} (q : A -> bool) (l : list A) :
  (forall x, In x l -> q x = false) -> filter q l = [].
Proof.
  induction l as [|x l IH]; intros H; simpl; [reflexivity|].
  rewrite (H x (or_introl eq_refl)). apply IH.
  intros y Hy. apply H. right. exact Hy.
Qed.

(** Every call adds a receipt, whatever receipts the message has: after
    two calls the user has two receipts more, also when both calls are made
    at the same time. *)
Lemma pushReceipt_two_times (u : ObjectId) (t1 t2 : Date) (m : Message.t) :
  receiptsOf u (pushReceipt u t2 (pushReceipt u t1 m))
  = receiptsOf u m
    ++ [{| Receipt.user := u; Receipt.readAt := t1 |};
        {| Receipt.user := u; Receipt.readAt := t2 |}].
Proof.
  unfold receiptsOf, pushReceipt, addToSet. cbn [Message.readBy].
  rewrite !filter_app. cbn [filter Receipt.user]. rewrite Nat.eqb_refl.
  rewrite <- app_assoc. reflexivity.
Qed.

(** C2. Two [markMessageAsRead] calls for the same message and user
    leave two receipts of that user on the message: [$addToSet] compares
    whole elements of [readBy], and the element of the second call is
    never equal to the one stored by the first. *)
Theorem markMessageAsRead_twice_two_receipts :
  let db' := markMessageAsRead 21 bob 5000
               (markMessageAsRead 21 bob 4000 chatDb) in
  option_map (receiptsOf bob) (findOne (messageByIdQ 21) db'.(messages))
  = Some [{| Receipt.user := bob; Receipt.readAt := 4000 |};
          {| Receipt.user := bob; Receipt.readAt := 5000 |}].
Proof. reflexivity. Qed.

(** ** Member listing *)

Lemma roleDescJoinedAsc_total (a b : GroupMember.t) :
  roleDescJoinedAsc a b = false -> roleDescJoinedAsc b a = true.
Proof.
  unfold roleDescJoinedAsc.
  destruct (GroupMember.role a), (GroupMember.role b); simpl;
    try discriminate; try reflexivity;
    rewrite Z.leb_gt, Z.leb_le; lia.
Qed.

Lemma roleDescJoinedAsc_trans (a b c : GroupMember.t) :
  roleDescJoinedAsc a b = true -> roleDescJoinedAsc b c = true ->
  roleDescJoinedAsc a c = true.
Proof.
  unfold roleDescJoinedAsc.
  destruct (GroupMember.role a), (GroupMember.role b), (GroupMember.role c);
    simpl; try discriminate; try reflexivity;
    rewrite !Z.leb_le; lia.
Qed.

(** An admin row is never followed by a row of another role. *)
Lemma roleDescJoinedAsc_admin (a b : GroupMember.t) :
  roleDescJoinedAsc a b = true ->
  a.(GroupMember.role) = admin -> b.(GroupMember.role) = admin.
Proof.
  unfold roleDescJoinedAsc. intros H Ha. rewrite Ha in H.
  destruct (GroupMember.role b); simpl in H; [reflexivity| |]; discriminate.
Qed.

(** X22. The listing of [getGroupMembers] holds exactly the active rows
    of the group, ordered by
    the sort specification; under that order the admins come last. *)
Lemma getGroupMembers_listing (db : Db) (groupId userId : ObjectId) :
  isActiveMember userId groupId db ->
  exists l,
    getGroupMembers groupId userId db = (mkResponse 200 "" (Some l), db)
    /\ Permutation l (filter (activeInGroupQ groupId) db.(members))
    /\ StronglySorted (fun a b => roleDescJoinedAsc a b = true) l
    /\ (forall l1 r l2,
          l = l1 ++ r :: l2 -> r.(GroupMember.role) = admin ->
          Forall (fun r' => r'.(GroupMember.role) = admin) l2).
Proof.
  intros Hm. apply isActiveMember_findOne in Hm. destruct Hm as [r Hr].
  exists (sort roleDescJoinedAsc (filter (activeInGroupQ groupId) db.(members))).
  pose proof (sort_sorted roleDescJoinedAsc roleDescJoinedAsc_total
                roleDescJoinedAsc_trans
                (filter (activeInGroupQ groupId) db.(members))) as Hs.
  split; [|split; [|split]].
  - unfold getGroupMembers, tryCatch, bind, gets, ret. rewrite Hr. reflexivity.
  - apply sort_perm.
  - exact Hs.
  - intros l1 r0 l2 E Hadm. rewrite E in Hs.
    apply StronglySorted_app_inv in Hs. destruct Hs as (_ & Hs & _).
    apply StronglySorted_inv in Hs. destruct Hs as [_ Hall].
    eapply Forall_impl; [|exact Hall].
    intros b Hb. exact (roleDescJoinedAsc_admin r0 b Hb Hadm).
Qed.

(** C6. In the listing of [getGroupMembers] the admin comes last, not
    first: the [role] strings are sorted in descending order, and
    ["moderator" > "member" > "admin"]. *)
Theorem getGroupMembers_admin_last :
  option_map (map (fun r => (r.(GroupMember.user), r.(GroupMember.role))))
             (data (fst (getGroupMembers general alice staffDb)))
  = Some [(carol, moderator); (bob, member); (alice, admin)].
Proof. reflexivity. Qed.

(** ** Removing a member *)

Lemma two_matches {A : Type} (q : A -> bool) (l : list A) (x y : A) :
  In x l -> In y l -> x <> y -> q x = true -> q y = true ->
  (2 <= List.length (filter q l))%nat.
Proof.
  intros Hx Hy Hxy Hqx Hqy.
  assert (Hfx : In x (filter q l)) by (apply filter_In; auto).
  assert (Hfy : In y (filter q l)) by (apply filter_In; auto).
  apply in_split in Hfx. destruct Hfx as (l1 & l2 & E).
  rewrite E in Hfy |- *. rewrite length_app. simpl.
  apply in_app_or in Hfy. destruct Hfy as [H|[H|H]].
  - destruct l1; [destruct H | simpl; lia].
  - congruence.
  - destruct l2; [destruct H | simpl; lia].
Qed.

(** X19. The guard of [removeMember] is a comparison of strings.  For
    a caller with an admin row, in a group with exactly one active admin:
    the parameter that is the caller's id as [toString] prints it is
    refused with 400 and nothing is written; every other parameter that
    the query layer casts to an id passes the guard, another spelling of
    the caller's own id included, and the first row of that id in the
    group is deactivated. *)
Lemma removeMember_guard (db : Db) (groupId adminId : ObjectId)
  (userId : string) :
  hasAdminRow adminId groupId db ->
  adminCount groupId db = 1 ->
  (userId = toString adminId ->
   removeMember groupId userId adminId db
   = (fail 400
        "Cannot remove yourself as the only admin. Transfer admin role first or delete group.",
      db))
  /\ (forall user,
        userId <> toString adminId ->
        castObjectId userId = Return user ->
        removeMember groupId userId adminId db
        = (mkResponse 200 "Member removed successfully" (Some tt),
           setMembers
             (findOneAndUpdate (membershipQ user groupId) deactivate) db)).
Proof.
  intros Ha Hcount.
  apply hasAdminRow_findOne in Ha. destruct Ha as [r Hr].
  unfold adminCount in Hcount.
  split.
  - intros ->.
    unfold removeMember, tryCatch, bind, gets, ret.
    rewrite Hr. cbv beta iota. rewrite String.eqb_refl, Hcount. reflexivity.
  - intros user Hne Hcast.
    unfold removeMember, tryCatch, bind, gets, ret, lift, modify.
    rewrite Hr. cbv beta iota.
    destruct (String.eqb_spec userId (toString adminId)) as [E|_];
      [contradiction|].
    rewrite Hcast. reflexivity.
Qed.

Lemma findOneAndUpdate_In_other {A : Type} (q : A -> bool) (u : A -> A)
  (l : list A) (x : A) :
  In x l -> q x = false -> In x (findOneAndUpdate q u l).
Proof.
  induction l as [|y l IH]; simpl; intros Hin Hq; [exact Hin|].
  destruct (q y) eqn:E.
  - destruct Hin as [->|Hin]; [congruence | right; exact Hin].
  - destruct Hin as [->|Hin]; [left; reflexivity | right; auto].
Qed.

Lemma findOneAndUpdate_count {A : Type} (p q : A -> bool) (u : A -> A)
  (l : list A) :
  (List.length (filter p l)
   <= S (List.length (filter p (findOneAndUpdate q u l))))%nat.
Proof.
  induction l as [|y l IH]; simpl; [lia|].
  destruct (q y); simpl.
  - destruct (p y), (p (u y)); simpl; lia.
  - destruct (p y); simpl; lia.
Qed.

(** [removeMember] either answers something else than 200 and writes
    nothing, or answers 200 and deactivates the first row, in the group,
    of the id that the parameter spells. *)
Lemma removeMember_cases (db : Db) (groupId adminId : ObjectId)
  (userId : string) :
  (snd (removeMember groupId userId adminId db) = db
   /\ status (fst (removeMember groupId userId adminId db)) <> 200)
  \/ (exists user,
        castObjectId userId = Return user
        /\ removeMember groupId userId adminId db
           = (mkResponse 200 "Member removed successfully" (Some tt),
              setMembers
                (findOneAndUpdate (membershipQ user groupId) deactivate)
                db)).
Proof.
  unfold removeMember, tryCatch, bind, gets, ret, modify, lift.
  destruct (findOne (adminMembershipQ adminId groupId) (members db));
    [|left; split; [reflexivity | discriminate]].
  cbv beta iota.
  destruct (castObjectId userId) as [user|e] eqn:Ec.
  - destruct (userId =? toString adminId)%string.
    + destruct (countDocuments (activeAdminQ groupId) (members db) =? 1);
        [left; split; [reflexivity | discriminate]|].
      right. exists user. split; reflexivity.
    + right. exists user. split; reflexivity.
  - left. destruct (userId =? toString adminId)%string.
    + destruct (countDocuments (activeAdminQ groupId) (members db) =? 1);
        split; (reflexivity || discriminate).
    + split; [reflexivity | discriminate].
Qed.

(** X20. With an active admin as caller, a [removeMember] call leaves
    the group with an active admin whenever the parameter, if it is cast
    to the caller's id, is that id as [toString] prints it. *)
Lemma removeMember_floor (db : Db) (groupId adminId : ObjectId)
  (userId : string) :
  isActiveAdmin adminId groupId db ->
  (castObjectId userId = Return adminId -> userId = toString adminId) ->
  1 <= adminCount groupId (snd (removeMember groupId userId adminId db)).
Proof.
  intros (ra & Hina & Hua & Hga & Hra & Haa) Hspelled.
  assert (Hq : activeAdminQ groupId ra = true)
    by (apply activeAdminQ_true; auto).
  assert (Hone : forall l, In ra l ->
            1 <= countDocuments (activeAdminQ groupId) l).
  { intros l Hin. unfold countDocuments.
    assert (In ra (filter (activeAdminQ groupId) l))
      by (apply filter_In; auto).
    destruct (filter (activeAdminQ groupId) l); [contradiction|].
    cbn [List.length]. rewrite Nat2Z.inj_succ. lia. }
  assert (Hf : exists r, findOne (adminMembershipQ adminId groupId)
                           db.(members) = Some r).
  { apply hasAdminRow_findOne. exists ra. tauto. }
  destruct Hf as [r Hr].
  unfold adminCount, removeMember, tryCatch, bind, gets, ret, modify, lift.
  rewrite Hr. cbv beta iota.
  destruct (castObjectId userId) as [user|e] eqn:Ec.
  - destruct (String.eqb_spec userId (toString adminId)) as [E|E].
    + destruct (Z.eqb_spec (countDocuments (activeAdminQ groupId) (members db))
                  1) as [E1|E1]; cbn [snd setMembers members].
      * rewrite E1. lia.
      * pose proof (Hone _ Hina) as H1.
        pose proof (findOneAndUpdate_count (activeAdminQ groupId)
                      (membershipQ user groupId) deactivate db.(members)).
        unfold countDocuments in *. lia.
    + cbn [snd setMembers members]. apply Hone.
      apply findOneAndUpdate_In_other; [exact Hina|].
      unfold membershipQ. rewrite Hua.
      destruct (Nat.eqb_spec adminId user) as [Hsame|_]; [|reflexivity].
      exfalso. apply E. apply Hspelled. rewrite Hsame. reflexivity.
  - destruct (userId =? toString adminId)%string.
    + destruct (countDocuments (activeAdminQ groupId) (members db) =? 1);
        cbn [snd]; apply Hone, Hina.
    + cbn [snd]. apply Hone, Hina.
Qed.

(** C1. The sole active admin of a group is removed by their own
    request when the route parameter spells their id in upper-case
    hexadecimal digits: the guard compares the parameter with
    [adminId.toString()], which is in lower case, and does not fire, while
    the update finds the admin's row by the id that the parameter is cast
    to.  The group, created by [createGroup], is left without an active
    admin.  The lower-case spelling of the same id is refused. *)
Theorem removeMember_last_admin_removed :
  toString dana = danaLower
  /\ castObjectId danaUpper = Return dana
  /\ isActiveAdmin dana studio studioDb
  /\ adminCount studio studioDb = 1
  /\ removeMember studio danaLower dana studioDb
     = (fail 400
          "Cannot remove yourself as the only admin. Transfer admin role first or delete group.",
        studioDb)
  /\ status (fst (removeMember studio danaUpper dana studioDb)) = 200
  /\ adminCount studio (snd (removeMember studio danaUpper dana studioDb))
     = 0.
Proof.
  split; [reflexivity|]. split; [reflexivity|]. split.
  - exists (GroupMember.mk dana studio admin 100 true).
    split; [left; reflexivity | repeat split].
  - repeat split.
Qed.

(** ** Invitations *)

(** X21. The order of the checks of [inviteToGroup], for an existing
    group: 403 without an admin
    row of the inviter (an inactive row is enough to pass), 404 without an
    account for the email, 409 for an invitee with a membership row or with
    an invitation of any status; otherwise a pending invitation is
    appended.  The account is the first one whose stored address is the
    given one as the schema casts it, trimmed and in lower case, so an
    address that differs from a stored one in case or in surrounding
    white space finds that account. *)
Lemma inviteToGroup_checks (db : Db) (groupId adminId : ObjectId)
  (email : string) (now : Date) (g : Group.t) :
  findOne (groupByIdQ groupId) db.(groups) = Some g ->
  let answer := inviteToGroup groupId adminId email now db in
  (~ hasAdminRow adminId groupId db ->
   answer = (fail 403 "Only group admin can invite members", db))
  /\ (hasAdminRow adminId groupId db ->
      findOne (userByEmailQ email) db.(users) = None ->
      answer = (fail 404 "User not found", db))
  /\ (forall invitee,
        hasAdminRow adminId groupId db ->
        findOne (userByEmailQ email) db.(users)
        = Some invitee ->
        (hasMembershipRow invitee.(User._id) groupId db ->
         answer = (fail 409 "User is already a member of this group", db))
        /\ (~ hasMembershipRow invitee.(User._id) groupId db ->
            (exists i, In i g.(Group.invitedUsers)
                       /\ i.(Invite.user) = invitee.(User._id)) ->
            answer
            = (fail 409 "User has already been invited to this group", db))
        /\ (~ hasMembershipRow invitee.(User._id) groupId db ->
            ~ (exists i, In i g.(Group.invitedUsers)
                         /\ i.(Invite.user) = invitee.(User._id)) ->
            answer
            = (mkResponse 200 "User invited successfully" (Some invitee),
               setGroups
                 (findOneAndUpdate (groupByIdQ g.(Group._id))
                    (setInvitedUsers
                       (g.(Group.invitedUsers) ++
                          [{| Invite.user := invitee.(User._id);
                              Invite.invitedBy := adminId;
                              Invite.invitedAt := now;
                              Invite.status := pending |}])))
                 db))).
Proof.
  intros Hg answer. subst answer.
  unfold inviteToGroup, tryCatch, bind, gets, ret. rewrite Hg.
  split; [|split].
  - intros Hn. rewrite (not_hasAdminRow_findOne _ _ _ Hn). reflexivity.
  - intros Ha Hu. apply hasAdminRow_findOne in Ha. destruct Ha as [r Hr].
    rewrite Hr. cbv beta iota. rewrite Hu. reflexivity.
  - intros invitee Ha Hu. apply hasAdminRow_findOne in Ha.
    destruct Ha as [r Hr]. rewrite Hr. cbv beta iota. rewrite Hu.
    cbv beta iota.
    split; [|split].
    + intros Hm. apply hasMembershipRow_findOne in Hm. destruct Hm as [m Hm].
      rewrite Hm. reflexivity.
    + intros Hm (i & Hi & Hiu).
      rewrite (not_hasMembershipRow_findOne _ _ _ Hm).
      destruct (find_ex (fun invite =>
                           Nat.eqb (Invite.user invite) (User._id invitee))
                  (Group.invitedUsers g)) as [i' Hi'].
      { exists i. split; [exact Hi | apply Nat.eqb_eq, Hiu]. }
      rewrite Hi'. reflexivity.
    + intros Hm Hi.
      rewrite (not_hasMembershipRow_findOne _ _ _ Hm).
      destruct (find (fun invite =>
                        Nat.eqb (Invite.user invite) (User._id invitee))
                  (Group.invitedUsers g)) as [i|] eqn:Ei.
      * exfalso. apply Hi. apply find_some in Ei. destruct Ei as [Hin Hq].
        exists i. split; [exact Hin | apply Nat.eqb_eq, Hq].
      * reflexivity.
Qed.

(** C7. A removed admin is not answered 403 by [inviteToGroup]: the admin
    check does not look at [isActive], and the invitation is stored. *)
Theorem inviteToGroup_removed_admin_invites :
  ~ isActiveMember alice general removedAdminDb
  /\ status (fst (inviteToGroup general alice "carol@example.com" 500
                    removedAdminDb)) = 200
  /\ map Group.invitedUsers
       (groups (snd (inviteToGroup general alice "carol@example.com" 500
                       removedAdminDb)))
     = [[{| Invite.user := carol; Invite.invitedBy := alice;
            Invite.invitedAt := 500; Invite.status := pending |}]].
Proof.
  split; [|split; reflexivity].
  intros (r & Hin & Hu & _ & Ha). simpl in Hin.
  destruct Hin as [<-|[<-|[]]]; discriminate.
Qed.

(** ** Main Chat bootstrap *)

(** When no "Main Chat" is found the handler goes on as if the new group
    had been there from the start. *)
Lemma getMainChat_create (db : Db) (userId : ObjectId) (now : Date)
  (newId : ObjectId) :
  findOne (groupByNameQ mainChatName) db.(groups) = None ->
  getMainChat userId now newId db
  = getMainChat userId now newId
      (setGroups (fun l => l ++ [newMainChat userId newId]) db).
Proof.
  intros Hn.
  assert (Hs : findOne (groupByNameQ mainChatName)
                 (db.(groups) ++ [newMainChat userId newId])
               = Some (newMainChat userId newId)).
  { apply find_app_none; [exact Hn | reflexivity]. }
  unfold getMainChat, tryCatch, bind at 1 2 3 4 5 6 7 8, gets at 1 3.
  cbv beta. rewrite Hn.
  unfold setGroups at 1. cbn [groups]. rewrite Hs.
  reflexivity.
Qed.

Lemma getMainChat_found (db : Db) (userId : ObjectId) (now : Date)
  (newId : ObjectId) (g : Group.t) :
  findOne (groupByNameQ mainChatName) db.(groups) = Some g ->
  exists d,
    getMainChat userId now newId db
    = (mkResponse 200 "" (Some d),
       match findOne (membershipQ userId g.(Group._id)) db.(members) with
       | Some _ => db
       | None =>
           setMembers
             (fun l => l ++ [{| GroupMember.user := userId;
                                GroupMember.group := g.(Group._id);
                                GroupMember.role := member;
                                GroupMember.joinedAt := now;
                                GroupMember.isActive := true |}]) db
       end).
Proof.
  intros Hg.
  assert (Hid : exists g', findOne (groupByIdQ g.(Group._id)) db.(groups)
                           = Some g').
  { apply find_ex. apply find_some in Hg. destruct Hg as [Hin _].
    exists g. split; [exact Hin | apply Nat.eqb_refl]. }
  destruct Hid as [g' Hg'].
  unfold getMainChat, tryCatch, bind, gets, ret. rewrite Hg.
  destruct (findOne (membershipQ userId (Group._id g)) (members db))
    as [r|] eqn:Em.
  - unfold getGroupData, getGroupWithMemberCount, bind, gets, ret.
    rewrite Hg'. eexists. reflexivity.
  - unfold GroupMember_create.
    rewrite (find_none_existsb _ _ Em).
    unfold getGroupData, getGroupWithMemberCount, bind, gets, ret.
    cbn [setMembers groups]. rewrite Hg'. eexists. reflexivity.
Qed.

(** X24. Whatever the database, [getMainChat] answers 200
    and afterwards a group named "Main Chat" exists in which the user has
    a membership row.  That row is active exactly when the user was an
    active member before or had no row at all: a row deactivated by
    [removeMember] is found by the existence check and left as it is.
    Repeating the call leaves the membership rows unchanged. *)
Theorem getMainChat_ensures_row (db : Db) (userId : ObjectId)
  (now : Date) (newId : ObjectId) (now' : Date) (newId' : ObjectId) :
  let db1 := snd (getMainChat userId now newId db) in
  exists mainChat,
    status (fst (getMainChat userId now newId db)) = 200
    /\ findOne (groupByNameQ mainChatName) db1.(groups) = Some mainChat
    /\ mainChat.(Group.name) = "Main Chat"
    /\ hasMembershipRow userId mainChat.(Group._id) db1
    /\ (isActiveMember userId mainChat.(Group._id) db1 <->
        isActiveMember userId mainChat.(Group._id) db
        \/ ~ hasMembershipRow userId mainChat.(Group._id) db)
    /\ snd (getMainChat userId now' newId' db1) = db1.
Proof.
  assert (Hfound : forall db0 g,
    findOne (groupByNameQ mainChatName) db0.(groups) = Some g ->
    let db1 := snd (getMainChat userId now newId db0) in
    status (fst (getMainChat userId now newId db0)) = 200
    /\ findOne (groupByNameQ mainChatName) db1.(groups) = Some g
    /\ g.(Group.name) = "Main Chat"
    /\ hasMembershipRow userId g.(Group._id) db1
    /\ (isActiveMember userId g.(Group._id) db1 <->
        isActiveMember userId g.(Group._id) db0
        \/ ~ hasMembershipRow userId g.(Group._id) db0)
    /\ snd (getMainChat userId now' newId' db1) = db1).
  { intros db0 g Hg db1.
    assert (Hname : g.(Group.name) = "Main Chat").
    { apply find_some in Hg. destruct Hg as [_ Hq].
      apply String.eqb_eq in Hq. exact Hq. }
    destruct (getMainChat_found db0 userId now newId g Hg) as [d Hd].
    subst db1. rewrite Hd. cbn [fst snd status].
    destruct (findOne (membershipQ userId (Group._id g)) (members db0))
      as [r|] eqn:Em.
    - (* a row exists: nothing is written *)
      assert (Hrow : hasMembershipRow userId g.(Group._id) db0).
      { apply hasMembershipRow_findOne. eauto. }
      repeat split; try assumption.
      + intros H. left. exact H.
      + intros [H|H]; [exact H | contradiction].
      + destruct (getMainChat_found db0 userId now' newId' g Hg) as [d' Hd'].
        rewrite Hd', Em. reflexivity.
    - (* no row: an active one is appended *)
      set (row := {| GroupMember.user := userId;
                     GroupMember.group := Group._id g;
                     GroupMember.role := member;
                     GroupMember.joinedAt := now;
                     GroupMember.isActive := true |}).
      set (db1 := setMembers (fun l => l ++ [row]) db0).
      assert (Hnorow : ~ hasMembershipRow userId g.(Group._id) db0).
      { intros H. apply hasMembershipRow_findOne in H.
        destruct H as [r Hr]. congruence. }
      assert (Hin : In row db1.(members)).
      { cbn. apply in_or_app. right. left. reflexivity. }
      assert (Hg1 : findOne (groupByNameQ mainChatName) db1.(groups) = Some g)
        by exact Hg.
      repeat split; try assumption.
      + exists row. repeat split; exact Hin.
      + intros _. right. exact Hnorow.
      + intros _. exists row. repeat split; exact Hin.
      + destruct (getMainChat_found db1 userId now' newId' g Hg1) as [d' Hd'].
        rewrite Hd'. cbn [snd].
        assert (Hs : findOne (membershipQ userId (Group._id g)) db1.(members)
                     = Some row).
        { cbn [db1 setMembers members]. apply find_app_none; [exact Em|].
          apply membershipQ_true. split; reflexivity. }
        rewrite Hs. reflexivity. }
  intros db1.
  destruct (findOne (groupByNameQ mainChatName) db.(groups)) as [g|] eqn:Eg.
  - exists g. apply (Hfound db g Eg).
  - exists (newMainChat userId newId).
    set (db0 := setGroups (fun l => l ++ [newMainChat userId newId]) db).
    assert (Eg0 : findOne (groupByNameQ mainChatName) db0.(groups)
                  = Some (newMainChat userId newId)).
    { cbn [db0 setGroups groups]. apply find_app_none; [exact Eg|reflexivity]. }
    subst db1. rewrite (getMainChat_create db userId now newId Eg).
    fold db0.
    destruct (Hfound db0 _ Eg0) as (H1 & H2 & H3 & H4 & H5 & H6).
    repeat split; try assumption.
    + apply H5.
    + intros H. apply H5. exact H.
Qed.

(** C8. [getMainChat] does not make a removed user a member again.
    [alice] creates the group "Main Chat" and is its admin, [bob] joins it
    through [getMainChat], and [alice] removes [bob].  When [bob] calls
    [getMainChat] again, the existence check, which does not look at
    [isActive], finds the deactivated row: nothing is written and [bob]
    still has no active membership.  The call answers 200 all the same and
    hands out the messages of the group, which [getGroupMessages] refuses
    to [bob] with 403. *)
Theorem getMainChat_removed_user_stays_inactive :
  let answer := getMainChat bob 500 99 mainChatRemovedDb in
  isActiveMember bob lobby mainChatJoinedDb
  /\ status (fst (removeMember lobby (toString bob) alice mainChatJoinedDb))
     = 200
  /\ hasInactiveRow bob lobby mainChatRemovedDb
  /\ status (fst answer) = 200
  /\ option_map (fun d => map Message.content d.(gd_messages))
       (data (fst answer))
     = Some [welcomeContent "Main Chat"]
  /\ snd answer = mainChatRemovedDb
  /\ ~ isActiveMember bob lobby (snd answer)
  /\ status (fst (getGroupMessages lobby bob None None 600 (snd answer)))
     = 403.
Proof.
  cbv zeta.
  split.
  { exists (GroupMember.mk bob lobby member 200 true).
    split; [vm_compute; tauto | repeat split]. }
  split; [vm_compute; reflexivity|]. split.
  { exists (GroupMember.mk bob lobby member 200 false).
    split; [vm_compute; tauto | repeat split]. }
  split; [vm_compute; reflexivity|]. split; [vm_compute; reflexivity|].
  split; [vm_compute; reflexivity|].
  split; [|vm_compute; reflexivity].
  intros (r & Hin & Hu & _ & Ha).
  vm_compute in Hin. destruct Hin as [<-|[<-|[]]]; discriminate.
Qed.

(** ** Deleting a group *)

Lemma filter_deleteMany {A : Type} (q : A -> bool) (l : list A) :
  filter q (deleteMany q l) = [].
Proof.
  unfold deleteMany. apply filter_nil. intros x Hin.
  apply filter_In in Hin. destruct Hin as [_ Hq].
  apply negb_true_iff, Hq.
Qed.

Lemma deleteGroup_cases (db : Db) (groupId userId : ObjectId) :
  (exists msg, deleteGroup groupId userId db = (fail 404 msg, db)
               /\ findOne (groupByIdQ groupId) db.(groups) = None)
  \/ (exists msg, deleteGroup groupId userId db = (fail 403 msg, db))
  \/ (exists msg g, deleteGroup groupId userId db = (fail 400 msg, db)
                    /\ findOne (groupByIdQ groupId) db.(groups) = Some g
                    /\ g.(Group.name) = "Main Chat")
  \/ (exists g,
        findOne (groupByIdQ groupId) db.(groups) = Some g
        /\ g.(Group.name) <> "Main Chat"
        /\ deleteGroup groupId userId db
           = (mkResponse 200 "Group deleted successfully" (Some tt),
              {| users := db.(users);
                 groups := findOneAndDelete (groupByIdQ groupId) db.(groups);
                 members :=
                   deleteMany (fun r => Nat.eqb r.(GroupMember.group) groupId)
                              db.(members);
                 messages :=
                   deleteMany (messageOfGroupQ groupId) db.(messages) |})).
Proof.
  unfold deleteGroup, tryCatch, bind, gets, ret, modify.
  destruct (findOne (groupByIdQ groupId) (groups db)) as [g|] eqn:Eg.
  2: { left. eexists. split; reflexivity. }
  destruct (findOne (adminMembershipQ userId groupId) (members db))
    as [r|] eqn:Ea.
  2: { right. left. eexists. reflexivity. }
  destruct (String.eqb_spec (Group.name g) mainChatName) as [En|En].
  - right. right. left. eexists. exists g. repeat split. exact En.
  - right. right. right. exists g. repeat split. exact En.
Qed.

(** C9 (as amended). [deleteGroup] never deletes a group named
    "Main Chat": it answers 403 or 400 and the database is unchanged.
    When it answers 200, no message and no membership row of that group
    id remains, and afterwards [getGroupMessages] and [getGroupMembers]
    for that id return no data to anybody: they are refused, with 403 "not
    a member" ([getGroupMessages] with 400 when the paging parameters are
    out of range). *)
Theorem deleteGroup_cascade (db : Db) (groupId userId : ObjectId) :
  (forall g, findOne (groupByIdQ groupId) db.(groups) = Some g ->
             g.(Group.name) = "Main Chat" ->
             snd (deleteGroup groupId userId db) = db
             /\ (status (fst (deleteGroup groupId userId db)) = 403
                 \/ status (fst (deleteGroup groupId userId db)) = 400))
  /\ (status (fst (deleteGroup groupId userId db)) = 200 ->
      let db' := snd (deleteGroup groupId userId db) in
      storedMessages groupId db' = []
      /\ filter (fun r => Nat.eqb r.(GroupMember.group) groupId) db'.(members)
         = []
      /\ (forall caller,
            fst (getGroupMembers groupId caller db')
            = fail 403 "You are not a member of this group")
      /\ (forall caller qpage qlimit now,
            data (fst (getGroupMessages groupId caller qpage qlimit now db'))
            = None
            /\ (status
                  (fst (getGroupMessages groupId caller qpage qlimit now db'))
                = 403
                \/ status
                     (fst (getGroupMessages groupId caller qpage qlimit now
                             db'))
                   = 400))).
Proof.
  destruct (deleteGroup_cases db groupId userId)
    as [(msg & -> & Hg)|[(msg & ->)|[(msg & g & -> & Hg & Hn)
                                    |(g & Hg & Hn & ->)]]];
    cbn [fst snd status fail].
  - split; [intros g' Hg'; congruence | discriminate].
  - split; [intros g' _ _; auto | discriminate].
  - split; [intros g' _ _; auto | discriminate].
  - split; [intros g' Hg' Hn'; congruence|].
    intros _.
    set (db' := {| users := users db;
                   groups := findOneAndDelete (groupByIdQ groupId) (groups db);
                   members := deleteMany
                                (fun r => Nat.eqb (GroupMember.group r) groupId)
                                (members db);
                   messages := deleteMany (messageOfGroupQ groupId)
                                 (messages db) |}).
    assert (Hrows : filter (fun r => Nat.eqb (GroupMember.group r) groupId)
                      db'.(members) = [])
      by apply filter_deleteMany.
    assert (Hnone : forall caller,
              findOne (activeMembershipQ caller groupId) db'.(members) = None).
    { intros caller.
      destruct (findOne (activeMembershipQ caller groupId) (members db'))
        as [r|] eqn:E; [|reflexivity].
      apply find_some in E. destruct E as [Hin Hq].
      apply activeMembershipQ_true in Hq. destruct Hq as (_ & Hgr & _).
      assert (Hf : In r (filter
                          (fun r => Nat.eqb (GroupMember.group r) groupId)
                          db'.(members))).
      { apply filter_In. split; [exact Hin | apply Nat.eqb_eq, Hgr]. }
      rewrite Hrows in Hf. destruct Hf. }
    split; [apply filter_deleteMany|].
    split; [exact Hrows|].
    split.
    + intros caller.
      unfold getGroupMembers, tryCatch, bind, gets, ret.
      rewrite Hnone. reflexivity.
    + intros caller qpage qlimit now.
      unfold getGroupMessages, tryCatch.
      destruct ((parseIntOr qpage 1 <? 1) || (parseIntOr qlimit 50 <? 1)
                || (100 <? parseIntOr qlimit 50))%bool.
      * split; [reflexivity | right; reflexivity].
      * unfold bind, validateGroupMembership. rewrite Hnone.
        split; [reflexivity | left; reflexivity].
Qed.

Lemma deleteGroup_cascade_witness :
  (snd (deleteGroup lobby alice lobbyDb) = lobbyDb
   /\ (status (fst (deleteGroup lobby alice lobbyDb)) = 403
       \/ status (fst (deleteGroup lobby alice lobbyDb)) = 400))
  /\ storedMessages general (snd (deleteGroup general alice chatDb)) = []
  /\ (forall caller,
        fst (getGroupMembers general caller
               (snd (deleteGroup general alice chatDb)))
        = fail 403 "You are not a member of this group").
Proof.
  split.
  - apply (proj1 (deleteGroup_cascade lobbyDb lobby alice)
             (newMainChat alice lobby)); reflexivity.
  - pose proof (proj2 (deleteGroup_cascade chatDb general alice) eq_refl)
      as (H1 & _ & H3 & _).
    split; [exact H1 | exact H3].
Defined.

(** C9, counterexample. After a successful [deleteGroup] the two listings
    answer 403, which is neither an empty listing nor 404. *)
Lemma deleteGroup_then_listing_forbidden :
  let db' := snd (deleteGroup general alice chatDb) in
  let membersAnswer := fst (getGroupMembers general alice db') in
  let messagesAnswer := fst (getGroupMessages general alice None None 9000 db') in
  status (fst (deleteGroup general alice chatDb)) = 200
  /\ status membersAnswer = 403
  /\ status messagesAnswer = 403
  /\ ~ (status membersAnswer = 404
        \/ (status membersAnswer = 200 /\ data membersAnswer = Some []))
  /\ ~ (status messagesAnswer = 404
        \/ (status messagesAnswer = 200
            /\ exists p, data messagesAnswer = Some ([], p))).
Proof.
  cbv zeta. repeat split.
  - intros [H|[H _]]; discriminate.
  - intros [H|[H _]]; discriminate.
Qed.

(** ** Sending to a group that is gone *)

(** After a [deleteGroup] answered 200 nobody has an active membership
    row of the group. *)
Lemma deleteGroup_leaves_no_member (db : Db) (groupId adminId : ObjectId)
  (caller : ObjectId) :
  status (fst (deleteGroup groupId adminId db)) = 200 ->
  ~ isActiveMember caller groupId (snd (deleteGroup groupId adminId db)).
Proof.
  intros H200 (r & Hin & _ & Hg & _). revert H200 Hin.
  destruct (deleteGroup_cases db groupId adminId)
    as [(msg & -> & _)|[(msg & ->)|[(msg & g & -> & _)|(g & _ & _ & ->)]]];
    cbn [fst snd status fail members]; try discriminate.
  intros _ Hin. unfold deleteMany in Hin. apply filter_In in Hin.
  destruct Hin as [_ Hq]. rewrite Hg, Nat.eqb_refl in Hq. discriminate.
Qed.

(** C4 (as amended). [sendMessage] checks content and type first:
    whatever the membership rows and groups are, an invalid content or
    type is answered 400 and nothing is stored.  With valid content and
    type, a caller without an active membership row of the group is
    answered 403, whether the group exists or not.  404 is the answer for
    a missing group only to a caller who still has an active membership
    row of it, and [deleteGroup] leaves no such row: once it has answered
    200, every valid [sendMessage] to the group, by anybody, is answered
    403.  The database is unchanged in all these cases. *)
Theorem sendMessage_validation_order (db : Db) (groupId userId : ObjectId)
  (content messageType : option string) (now : Date) (newId : ObjectId) :
  (~ (validContent content /\ validType messageType) ->
   exists msg,
     sendMessage groupId userId content messageType now newId db
     = (fail 400 msg, db))
  /\ (validContent content -> validType messageType ->
      ~ isActiveMember userId groupId db ->
      sendMessage groupId userId content messageType now newId db
      = (fail 403 "You are not a member of this group", db))
  /\ (validContent content -> validType messageType ->
      isActiveMember userId groupId db -> ~ groupExists groupId db ->
      sendMessage groupId userId content messageType now newId db
      = (fail 404 "Group not found", db))
  /\ (validContent content -> validType messageType ->
      forall adminId,
        status (fst (deleteGroup groupId adminId db)) = 200 ->
        let db' := snd (deleteGroup groupId adminId db) in
        sendMessage groupId userId content messageType now newId db'
        = (fail 403 "You are not a member of this group", db')).
Proof.
  assert (H403 : forall d,
            validContent content -> validType messageType ->
            ~ isActiveMember userId groupId d ->
            sendMessage groupId userId content messageType now newId d
            = (fail 403 "You are not a member of this group", d)).
  { intros d Hc Ht Hm.
    apply validateMessageContent_valid in Hc. destruct Hc as (c & -> & Hc).
    apply validateMessageType_valid in Ht.
    apply not_isActiveMember_findOne in Hm.
    unfold sendMessage, tryCatch, bind, lift, validateGroupMembership.
    rewrite Hc, Ht, Hm. reflexivity. }
  split; [|split; [|split]].
  - intros Hinv.
    destruct (validContent_dec content) as [Hc|Hc].
    + assert (Ht : ~ validType messageType) by tauto.
      apply validateMessageContent_valid in Hc. destruct Hc as (c & -> & Hc).
      apply validateMessageType_invalid in Ht.
      exists "Invalid message type".
      unfold sendMessage, tryCatch, bind, lift. rewrite Hc, Ht. reflexivity.
    + apply validateMessageContent_invalid in Hc.
      destruct Hc as [Hc|Hc]; eexists;
        unfold sendMessage, tryCatch, bind, lift; rewrite Hc; reflexivity.
  - apply H403.
  - intros Hc Ht Hm Hg.
    apply validateMessageContent_valid in Hc. destruct Hc as (c & -> & Hc).
    apply validateMessageType_valid in Ht.
    apply isActiveMember_findOne in Hm. destruct Hm as [r Hr].
    apply not_groupExists_findOne in Hg.
    unfold sendMessage, tryCatch, bind, lift, gets, ret,
      validateGroupMembership.
    rewrite Hc, Ht, Hr. cbv beta iota. rewrite Hg. reflexivity.
  - intros Hc Ht adminId H200 db'. subst db'.
    apply (H403 _ Hc Ht).
    apply deleteGroup_leaves_no_member, H200.
Qed.

Lemma sendMessage_validation_order_witness :
  (exists msg,
     sendMessage general alice (Some longContent) None 9000 30 chatDb
     = (fail 400 msg, chatDb))
  /\ sendMessage general carol (Some "hello") None 9000 30 chatDb
     = (fail 403 "You are not a member of this group", chatDb)
  /\ sendMessage general alice (Some "hello") (Some "image") 9000 30 orphanDb
     = (fail 404 "Group not found", orphanDb)
  /\ sendMessage general bob (Some "hello") None 9000 30
       (snd (deleteGroup general alice chatDb))
     = (fail 403 "You are not a member of this group",
        snd (deleteGroup general alice chatDb)).
Proof.
  assert (Hc : validContent (Some "hello")).
  { exists "hello". split; [reflexivity|].
    split; [vm_compute; discriminate | apply Nat.leb_le; reflexivity]. }
  assert (Ht : forall t, In t validTypes -> validType (Some t))
    by (intros t H; exact H).
  split; [|split; [|split]].
  - apply (proj1 (sendMessage_validation_order chatDb general alice
                    (Some longContent) None 9000 30)).
    intros [(c & E & _ & Hlen) _]. injection E as <-.
    apply Nat.leb_le in Hlen. vm_compute in Hlen. discriminate.
  - apply (proj1 (proj2 (sendMessage_validation_order chatDb general carol
                           (Some "hello") None 9000 30))).
    + exact Hc.
    + unfold validType, validTypes. simpl. tauto.
    + intros (r & Hin & Hu & _). simpl in Hin.
      destruct Hin as [<-|[<-|[]]]; discriminate.
  - apply (proj1 (proj2 (proj2 (sendMessage_validation_order orphanDb general
                                  alice (Some "hello") (Some "image")
                                  9000 30)))).
    + exact Hc.
    + unfold validType, validTypes. simpl. tauto.
    + exists (GroupMember.mk alice general admin 100 true). simpl. tauto.
    + intros (g & [] & _).
  - apply (proj2 (proj2 (proj2 (sendMessage_validation_order chatDb general
                                  bob (Some "hello") None 9000 30)))
             Hc).
    + unfold validType, validTypes. simpl. tauto.
    + reflexivity.
Defined.

(** C4, counterexample. A missing group is not answered 404: after
    [deleteGroup] the group document is gone, and a valid [sendMessage] to
    its id is answered 403, to its former admin as to anybody else; so
    is a valid message to an id that never was a group. *)
Lemma sendMessage_missing_group_forbidden :
  let db' := snd (deleteGroup general alice chatDb) in
  status (fst (deleteGroup general alice chatDb)) = 200
  /\ findOne (groupByIdQ general) db'.(groups) = None
  /\ sendMessage general alice (Some "hello") None 9000 30 db'
     = (fail 403 "You are not a member of this group", db')
  /\ findOne (groupByIdQ 77) chatDb.(groups) = None
  /\ sendMessage 77 carol (Some "hello") None 9000 30 chatDb
     = (fail 403 "You are not a member of this group", chatDb).
Proof. cbv zeta. repeat split; vm_compute; reflexivity. Qed.

(** The example of the specification: 1001 characters are refused with
    400 and no document is stored. *)
Example sendMessage_1001_characters :
  sendMessage general alice (Some longContent) None 9000 30 chatDb
  = (fail 400 "Message cannot exceed 1000 characters", chatDb).
Proof. vm_compute. reflexivity. Qed.

(** ** Uniqueness of membership rows *)

Lemma findOneAndUpdate_Forall2 {A : Type} (q : A -> bool) (u : A -> A)
  (l : list A) :
  Forall2 (fun x y => y = x \/ (q x = true /\ y = u x))
          l (findOneAndUpdate q u l).
Proof.
  induction l as [|x l IH]; simpl.
  - constructor.
  - destruct (q x) eqn:E.
    + constructor; [right; auto|].
      clear. induction l; constructor; auto.
    + constructor; [left; reflexivity | exact IH].
Qed.

Lemma GroupMember_create_duplicate (db : Db) (u g : ObjectId) (r : Role)
  (now : Date) :
  hasMembershipRow u g db ->
  exists e, GroupMember_create u g r now db = (Throw e, db).
Proof.
  intros H. apply hasMembershipRow_findOne in H. destruct H as [row Hrow].
  unfold GroupMember_create.
  rewrite (find_some_existsb _ _ _ Hrow). eexists. reflexivity.
Qed.

(** A successful insert keeps the rows distinct by (user, group). *)
Lemma GroupMember_create_unique (db : Db) (u g : ObjectId) (r : Role)
  (now : Date) :
  uniqueMembership db ->
  uniqueMembership (snd (GroupMember_create u g r now db)).
Proof.
  intros Hu. unfold GroupMember_create.
  destruct (existsb (membershipQ u g) (members db)) eqn:E; [exact Hu|].
  unfold uniqueMembership. cbn [snd setMembers members].
  rewrite map_app. cbn [map GroupMember.user GroupMember.group].
  eapply Permutation_NoDup; [apply Permutation_cons_append|].
  constructor; [|exact Hu].
  intros Hin. apply in_map_iff in Hin. destruct Hin as (row & Hk & Hin).
  injection Hk as Hk1 Hk2.
  assert (Ht : existsb (membershipQ u g) (members db) = true).
  { apply existsb_exists. exists row. split; [exact Hin|].
    apply membershipQ_true. auto. }
  congruence.
Qed.

(** With rows distinct by (user, group), the update of [removeMember]
    touches the one row of the member: every row is mapped by
    [removedIn]. *)
Lemma findOneAndUpdate_removedIn (u g : ObjectId) (l : list GroupMember.t) :
  NoDup (map (fun r => (r.(GroupMember.user), r.(GroupMember.group))) l) ->
  findOneAndUpdate (membershipQ u g) deactivate l = map (removedIn u g) l.
Proof.
  induction l as [|y l IH]; intros Hnd; [reflexivity|].
  apply NoDup_cons_iff in Hnd. destruct Hnd as [Hfresh Hnd].
  cbn [findOneAndUpdate map]. unfold removedIn at 1.
  destruct (membershipQ u g y) eqn:Ey.
  - f_equal. transitivity (map (fun r : GroupMember.t => r) l);
      [symmetry; apply map_id|].
    apply map_ext_in. intros r Hr. unfold removedIn.
    destruct (membershipQ u g r) eqn:Er; [|reflexivity].
    exfalso. apply Hfresh.
    apply membershipQ_true in Ey. apply membershipQ_true in Er.
    destruct Ey as [-> ->]. destruct Er as [<- <-].
    apply (in_map (fun r => (GroupMember.user r, GroupMember.group r))), Hr.
  - f_equal. apply IH, Hnd.
Qed.

(** After the rows are mapped by [removedIn], the member has no active
    row, and has an inactive one if there was a row at all. *)
Lemma removedIn_inactive (u g : ObjectId) (db : Db) :
  let db' := setMembers (map (removedIn u g)) db in
  ~ isActiveMember u g db'
  /\ (hasMembershipRow u g db -> hasInactiveRow u g db').
Proof.
  cbv zeta. split.
  - intros (r & Hin & Hru & Hrg & Hra). cbn [setMembers members] in Hin.
    apply in_map_iff in Hin. destruct Hin as (r0 & <- & _).
    unfold removedIn in *.
    destruct (membershipQ u g r0) eqn:E0; [discriminate Hra|].
    assert (membershipQ u g r0 = true) by (apply membershipQ_true; auto).
    congruence.
  - intros (r & Hin & Hru & Hrg).
    exists (deactivate r). cbn [setMembers members]. split.
    + apply in_map_iff. exists r. split; [|exact Hin].
      unfold removedIn.
      replace (membershipQ u g r) with true; [reflexivity|].
      symmetry. apply membershipQ_true. auto.
    + cbn [deactivate GroupMember.user GroupMember.group GroupMember.isActive].
      auto.
Qed.

(** With a membership row of the user, active or not, [acceptInvitation]
    writes nothing: the insert is refused and the handler answers 500 when
    the invitation is pending, 404 when there is none. *)
Lemma acceptInvitation_with_row (db : Db) (groupId userId : ObjectId)
  (now : Date) :
  hasMembershipRow userId groupId db ->
  snd (acceptInvitation groupId userId now db) = db
  /\ (hasPendingInvitation userId groupId db ->
      fst (acceptInvitation groupId userId now db)
      = fail 500 "Error accepting invitation")
  /\ (~ hasPendingInvitation userId groupId db ->
      status (fst (acceptInvitation groupId userId now db)) = 404).
Proof.
  intros Hrow.
  destruct (GroupMember_create_duplicate db userId groupId member now Hrow)
    as [e He].
  unfold acceptInvitation, tryCatch, bind, gets, ret.
  destruct (findOne (groupByIdQ groupId) (groups db)) as [g|] eqn:Eg.
  + destruct (find (pendingFor userId) (Group.invitedUsers g))
      as [i|] eqn:Ei.
    * rewrite He. cbn [fst snd]. split; [reflexivity|].
      split; [reflexivity|].
      intros Hn. exfalso. apply Hn.
      apply find_some in Ei. destruct Ei as [Hi Hq].
      unfold pendingFor in Hq. apply andb_true_iff in Hq.
      destruct Hq as [Hq1 Hq2]. apply Nat.eqb_eq in Hq1.
      exists g, i. repeat split; try assumption.
      destruct (Invite.status i); simpl in Hq2; congruence.
    * cbn [fst snd]. split; [reflexivity|]. split; [|reflexivity].
      intros (g' & i & Hg' & Hi & Hiu & His).
      assert (g' = g) by congruence. subst g'.
      pose proof (find_none _ _ Ei i Hi) as Hq.
      unfold pendingFor in Hq. rewrite Hiu, His, Nat.eqb_refl in Hq.
      discriminate.
  + cbn [fst snd]. split; [reflexivity|]. split; [|reflexivity].
    intros (g' & i & Hg' & _). congruence.
Qed.

(** C10.  In a store whose membership rows are distinct by (user,
    group), for the user that the parameter of [removeMember] spells:

    - the index: an insert for the pair is refused exactly when a row of
      the pair is stored, whatever its [isActive] flag, and after any
      insert the rows are still distinct;
    - [removeMember], when it answers 200, writes the membership rows
      and nothing else: no row is deleted or added, the row of the
      pair has its [isActive] flag cleared and is otherwise as it was,
      every other row is untouched; a member is left with an inactive row
      and without an active one.  With any other answer nothing is
      written;
    - so for a user with an inactive row the insert made by
      [acceptInvitation] fails: the handler answers 500 when the
      invitation is pending (404 when there is none) and the database,
      with the single inactive row, is unchanged; in particular an
      invitation accepted after the removal is answered 500. *)
Theorem inactive_row_blocks_acceptInvitation (db : Db)
  (groupId adminId user : ObjectId) (userId : string) (now : Date) :
  uniqueMembership db ->
  castObjectId userId = Return user ->
  let removal := removeMember groupId userId adminId db in
  let db1 := snd removal in
  (forall r now',
     ((exists e, GroupMember_create user groupId r now' db = (Throw e, db))
      <-> hasMembershipRow user groupId db)
     /\ uniqueMembership (snd (GroupMember_create user groupId r now' db)))
  /\ (status (fst removal) = 200 ->
      db1 = setMembers (map (removedIn user groupId)) db
      /\ ~ isActiveMember user groupId db1
      /\ (hasMembershipRow user groupId db ->
          hasInactiveRow user groupId db1))
  /\ (status (fst removal) <> 200 -> db1 = db)
  /\ (hasInactiveRow user groupId db ->
      snd (acceptInvitation groupId user now db) = db
      /\ (hasPendingInvitation user groupId db ->
          fst (acceptInvitation groupId user now db)
          = fail 500 "Error accepting invitation")
      /\ (~ hasPendingInvitation user groupId db ->
          status (fst (acceptInvitation groupId user now db)) = 404))
  /\ (status (fst removal) = 200 ->
      hasMembershipRow user groupId db ->
      hasPendingInvitation user groupId db ->
      acceptInvitation groupId user now db1
      = (fail 500 "Error accepting invitation", db1)).
Proof.
  intros Hu Hcast removal db1.
  assert (H200 : status (fst removal) = 200 ->
                 db1 = setMembers (map (removedIn user groupId)) db).
  { subst db1 removal. intros H.
    destruct (removeMember_cases db groupId adminId userId)
      as [[_ Hn]|(user' & Hcast' & E)]; [contradiction|].
    assert (user' = user) by congruence. subst user'.
    rewrite E. cbn [snd]. unfold setMembers.
    rewrite (findOneAndUpdate_removedIn user groupId _ Hu). reflexivity. }
  split; [|split; [|split; [|split]]].
  - intros r now'. split.
    + split.
      * intros [e He].
        destruct (findOne (membershipQ user groupId) (members db))
          as [row|] eqn:Erow.
        -- apply hasMembershipRow_findOne. exists row. exact Erow.
        -- exfalso. unfold GroupMember_create in He.
           rewrite (find_none_existsb _ _ Erow) in He. discriminate He.
      * intros Hrow. apply GroupMember_create_duplicate, Hrow.
    + apply GroupMember_create_unique, Hu.
  - intros H. rewrite (H200 H).
    split; [reflexivity|]. apply removedIn_inactive.
  - subst db1 removal. intros H.
    destruct (removeMember_cases db groupId adminId userId)
      as [[E _]|(user' & _ & E)]; [exact E|].
    exfalso. apply H. rewrite E. reflexivity.
  - intros (row & Hin & Hru & Hrg & _).
    apply acceptInvitation_with_row. exists row. auto.
  - intros H Hrow Hpending.
    pose proof (proj2 (removedIn_inactive user groupId db) Hrow)
      as (row & Hin & Hru & Hrg & _).
    rewrite (H200 H).
    set (d := setMembers (map (removedIn user groupId)) db) in *.
    destruct (acceptInvitation_with_row d groupId user now) as (E1 & E2 & _).
    { exists row. auto. }
    rewrite (surjective_pairing (acceptInvitation groupId user now d)).
    rewrite E1, E2; [reflexivity|]. exact Hpending.
Qed.

Lemma inactive_row_blocks_acceptInvitation_witness :
  let removal := removeMember general (toString carol) alice assignedDb in
  isActiveMember carol general assignedDb
  /\ hasPendingInvitation carol general assignedDb
  /\ status (fst removal) = 200
  /\ hasInactiveRow carol general (snd removal)
  /\ ~ isActiveMember carol general (snd removal)
  /\ acceptInvitation general carol 900 (snd removal)
     = (fail 500 "Error accepting invitation", snd removal).
Proof.
  assert (Hu : uniqueMembership assignedDb).
  { unfold uniqueMembership. simpl.
    repeat constructor; simpl; intuition discriminate. }
  assert (Hrow : isActiveMember carol general assignedDb).
  { exists (GroupMember.mk carol general member 650 true). simpl. tauto. }
  assert (Hrow' : hasMembershipRow carol general assignedDb).
  { destruct Hrow as (r & H1 & H2 & H3 & _). exists r. auto. }
  assert (Hinv : hasPendingInvitation carol general assignedDb).
  { eexists. eexists. split; [reflexivity|]. simpl. auto. }
  destruct (inactive_row_blocks_acceptInvitation assignedDb general alice
              carol (toString carol) 900 Hu eq_refl)
    as (_ & H2 & _ & _ & H5).
  destruct (H2 eq_refl) as (_ & Hinactive & Hhas).
  cbv zeta.
  split; [exact Hrow|]. split; [exact Hinv|]. split; [reflexivity|].
  split; [exact (Hhas Hrow')|]. split; [exact Hinactive|].
  exact (H5 eq_refl Hrow' Hinv).
Defined.

(* ================================================================= *)
(** * Further properties *)

(** ** Trimming *)

Lemma list_of_trimStart (s : string) :
  list_ascii_of_string (trimStart s) = dropWhite (list_ascii_of_string s).
Proof.
  induction s as [|c s IH]; simpl; [reflexivity|].
  destruct (isWhiteSpace c); [exact IH | reflexivity].
Qed.

Lemma list_of_reverse (s : string) :
  list_ascii_of_string (reverse s) = rev (list_ascii_of_string s).
Proof. unfold reverse. apply list_ascii_of_string_of_list_ascii. Qed.

Lemma list_of_trim (s : string) :
  list_ascii_of_string (trim s)
  = rev (dropWhite (rev (dropWhite (list_ascii_of_string s)))).
Proof.
  unfold trim, trimEnd.
  rewrite list_of_reverse, list_of_trimStart, list_of_reverse,
    list_of_trimStart.
  reflexivity.
Qed.

Lemma length_list_of_string (s : string) :
  List.length (list_ascii_of_string s) = String.length s.
Proof. induction s; simpl; congruence. Qed.

Lemma string_eq_of_list (s t : string) :
  list_ascii_of_string s = list_ascii_of_string t -> s = t.
Proof.
  intros H. rewrite <- (string_of_list_ascii_of_string s),
    <- (string_of_list_ascii_of_string t), H. reflexivity.
Qed.

Lemma dropWhite_split (l : list ascii) :
  exists w, l = w ++ dropWhite l /\ Forall (fun c => isWhiteSpace c = true) w.
Proof.
  induction l as [|c l (w & Hw & Hall)]; simpl.
  - exists []. split; [reflexivity | constructor].
  - destruct (isWhiteSpace c) eqn:E.
    + exists (c :: w). split; [simpl; congruence | constructor; assumption].
    + exists []. split; [reflexivity | constructor].
Qed.

Lemma dropWhite_length (l : list ascii) :
  (List.length (dropWhite l) <= List.length l)%nat.
Proof.
  destruct (dropWhite_split l) as (w & Hw & _).
  rewrite Hw at 2. rewrite length_app. lia.
Qed.

Lemma dropWhite_fixed (l : list ascii) :
  match l with [] => True | c :: _ => isWhiteSpace c = false end ->
  dropWhite l = l.
Proof. destruct l as [|c l]; simpl; [reflexivity|]. intros ->. reflexivity. Qed.

Lemma dropWhite_head (l : list ascii) :
  match dropWhite l with [] => True | c :: _ => isWhiteSpace c = false end.
Proof.
  induction l as [|c l IH]; simpl; [exact I|].
  destruct (isWhiteSpace c) eqn:E; [exact IH | exact E].
Qed.

(** Dropping trailing white space keeps the head of the list. *)
Lemma dropEnd_head (l : list ascii) :
  match l with [] => True | c :: _ => isWhiteSpace c = false end ->
  match rev (dropWhite (rev l)) with
  | [] => True
  | c :: _ => isWhiteSpace c = false
  end.
Proof.
  intros Hl.
  destruct (dropWhite_split (rev l)) as (w & Hw & _).
  apply (f_equal (@rev ascii)) in Hw.
  rewrite rev_involutive, rev_app_distr in Hw.
  destruct (rev (dropWhite (rev l))) as [|c p]; [exact I|].
  rewrite Hw in Hl. exact Hl.
Qed.

Lemma trim_noLeadingWhite (s : string) : noLeadingWhite (trim s).
Proof.
  pose proof (dropEnd_head (dropWhite (list_ascii_of_string s))
                (dropWhite_head _)) as H.
  rewrite <- list_of_trim in H.
  destruct (trim s); simpl in *; exact H.
Qed.

Lemma trim_noTrailingWhite (s : string) : noTrailingWhite (trim s).
Proof.
  unfold noTrailingWhite.
  pose proof (dropWhite_head
                (rev (dropWhite (list_ascii_of_string s)))) as H.
  assert (E : list_ascii_of_string (reverse (trim s))
              = dropWhite (rev (dropWhite (list_ascii_of_string s)))).
  { rewrite list_of_reverse, list_of_trim, rev_involutive. reflexivity. }
  rewrite <- E in H.
  destruct (reverse (trim s)); simpl in *; exact H.
Qed.

Lemma trim_idempotent (s : string) : trim (trim s) = trim s.
Proof.
  apply string_eq_of_list. rewrite (list_of_trim (trim s)), list_of_trim.
  set (a := dropWhite (list_ascii_of_string s)).
  rewrite (dropWhite_fixed (rev (dropWhite (rev a)))).
  - rewrite rev_involutive.
    rewrite (dropWhite_fixed (dropWhite (rev a))); [reflexivity|].
    apply dropWhite_head.
  - apply dropEnd_head, dropWhite_head.
Qed.

Lemma length_trim_le (s : string) :
  (String.length (trim s) <= String.length s)%nat.
Proof.
  rewrite <- !length_list_of_string, list_of_trim, length_rev.
  pose proof (dropWhite_length (rev (dropWhite (list_ascii_of_string s)))).
  pose proof (dropWhite_length (list_ascii_of_string s)).
  rewrite length_rev in *. lia.
Qed.

(** X1. What [validateMessageContent] returns is the trimmed input; it is
    between 1 and 1000 characters long, neither starts nor ends with white
    space, and trimming it again (as the schema setter does) changes
    nothing. *)
Theorem validateMessageContent_result (content : option string)
  (v : string) :
  validateMessageContent content = Return v ->
  (exists c, content = Some c /\ v = trim c)
  /\ (1 <= String.length v <= 1000)%nat
  /\ noLeadingWhite v /\ noTrailingWhite v
  /\ trim v = v.
Proof.
  unfold validateMessageContent.
  destruct content as [c|]; [|discriminate].
  destruct (Nat.eqb (String.length c) 0) eqn:E0; [discriminate|].
  destruct (Nat.eqb (String.length (trim c)) 0) eqn:E1; [discriminate|].
  cbn [orb].
  destruct (Nat.ltb_spec 1000 (String.length c)) as [Hgt|Hle]; [discriminate|].
  intros [= <-].
  apply Nat.eqb_neq in E1. pose proof (length_trim_le c) as Hlen.
  split; [exists c; split; reflexivity|].
  split; [lia|].
  split; [apply trim_noLeadingWhite|].
  split; [apply trim_noTrailingWhite | apply trim_idempotent].
Qed.

Lemma validateMessageContent_result_witness :
  (1 <= String.length "hello" <= 1000)%nat /\ trim "hello" = "hello".
Proof.
  destruct (validateMessageContent_result (Some "  hello ") "hello" eq_refl)
    as (_ & H1 & _ & _ & H2).
  split; [exact H1 | exact H2].
Defined.

(** ** ObjectIds as strings *)

Lemma hexValue_hexDigit (d : nat) :
  (d < 16)%nat -> hexValue (hexDigit d) = Some d.
Proof.
  intros Hd.
  do 16 (destruct d as [|d]; [reflexivity|]).
  lia.
Qed.

Lemma parseHex_hexDigits (width n : nat) (acc : string) (a : nat) :
  parseHex (hexDigits width n acc) a
  = parseHex acc (a * 16 ^ width + n mod 16 ^ width)%nat.
Proof.
  revert n acc a. induction width as [|w IH]; intros n acc a.
  - cbn [hexDigits Nat.pow]. rewrite Nat.mod_1_r, Nat.mul_1_r, Nat.add_0_r.
    reflexivity.
  - cbn [hexDigits]. rewrite IH. cbn [parseHex].
    rewrite hexValue_hexDigit by (apply Nat.mod_upper_bound; discriminate).
    f_equal. rewrite Nat.pow_succ_r'.
    rewrite (Nat.Div0.mod_mul_r n 16 (16 ^ w)).
    set (p := (16 ^ w)%nat). nia.
Qed.

Lemma length_hexDigits (width n : nat) (acc : string) :
  String.length (hexDigits width n acc) = (width + String.length acc)%nat.
Proof.
  revert n acc. induction width as [|w IH]; intros n acc; [reflexivity|].
  cbn [hexDigits]. rewrite IH. cbn [String.length]. lia.
Qed.

(** An id printed by [toString] is cast back to itself. *)
Lemma castObjectId_toString (id : ObjectId) :
  (id < 16 ^ 24)%nat -> castObjectId (toString id) = Return id.
Proof.
  intros Hid. unfold castObjectId, toString.
  rewrite length_hexDigits. cbn [String.length Nat.add Nat.eqb].
  rewrite parseHex_hexDigits. cbn [parseHex].
  rewrite Nat.mul_0_l, Nat.add_0_l, Nat.mod_small by exact Hid.
  reflexivity.
Qed.

(** ** The cast of an email address *)

Lemma isWhiteSpace_toLowerCaseChar (c : ascii) :
  isWhiteSpace (toLowerCaseChar c) = isWhiteSpace c.
Proof. destruct c as [[] [] [] [] [] [] [] []]; reflexivity. Qed.

Lemma toLowerCaseChar_twice (c : ascii) :
  toLowerCaseChar (toLowerCaseChar c) = toLowerCaseChar c.
Proof. destruct c as [[] [] [] [] [] [] [] []]; reflexivity. Qed.

Lemma list_of_toLowerCase (s : string) :
  list_ascii_of_string (toLowerCase s)
  = map toLowerCaseChar (list_ascii_of_string s).
Proof. induction s as [|c s IH]; simpl; [reflexivity | rewrite IH; reflexivity]. Qed.

Lemma dropWhite_toLowerCase (l : list ascii) :
  dropWhite (map toLowerCaseChar l) = map toLowerCaseChar (dropWhite l).
Proof.
  induction l as [|c l IH]; [reflexivity|].
  cbn [map dropWhite]. rewrite isWhiteSpace_toLowerCaseChar.
  destruct (isWhiteSpace c); [exact IH | reflexivity].
Qed.

(** The two setters of [email] can run in either order, and a cast
    address is cast to itself: an account is found by the address it is
    stored under. *)
Lemma castEmail_setters (email : string) :
  castEmail email = trim (toLowerCase email)
  /\ castEmail (castEmail email) = castEmail email.
Proof.
  assert (Hcomm : forall s, toLowerCase (trim s) = trim (toLowerCase s)).
  { intros s. apply string_eq_of_list.
    rewrite list_of_toLowerCase, !list_of_trim, list_of_toLowerCase.
    rewrite dropWhite_toLowerCase, <- map_rev, dropWhite_toLowerCase,
      <- map_rev.
    reflexivity. }
  split; [apply Hcomm|].
  unfold castEmail. rewrite <- Hcomm, trim_idempotent.
  apply string_eq_of_list. rewrite !list_of_toLowerCase, map_map.
  apply map_ext. intros c. apply toLowerCaseChar_twice.
Qed.

(** ** Pages *)

Lemma ceilDiv_nonneg (a b : Z) : 0 <= a -> 0 < b -> 0 <= ceilDiv a b.
Proof.
  intros Ha Hb. pose proof (ceilDiv_spec a b Hb). nia.
Qed.

Lemma In_firstn {A : Type} (n : nat) (l : list A) (x : A) :
  In x (firstn n l) -> In x l.
Proof.
  intros H. rewrite <- (firstn_skipn n l). apply in_or_app. left. exact H.
Qed.

Lemma In_skipn {A : Type} (n : nat) (l : list A) (x : A) :
  In x (skipn n l) -> In x l.
Proof.
  intros H. rewrite <- (firstn_skipn n l). apply in_or_app. right. exact H.
Qed.

(** X2. For [page >= 1] and [lim >= 1] a page holds
    [min lim (n - (page - 1) * lim)] messages (none when that is negative),
    all of them stored messages of the group; [hasNext] is true exactly
    when older messages remain after the page, and a page beyond
    [totalPages] is empty. *)
Theorem getMessagesWithPagination_page_size (db : Db) (groupId : ObjectId)
  (page lim : Z) :
  1 <= page -> 1 <= lim ->
  let n := Z.of_nat (List.length (storedMessages groupId db)) in
  let r := getMessagesWithPagination groupId page lim db in
  Z.of_nat (List.length (fst r))
  = Z.max 0 (Z.min lim (n - (page - 1) * lim))
  /\ (hasNext (snd r) = true <-> page * lim < n)
  /\ (totalPages (snd r) < page -> fst r = [])
  /\ (forall m, In m (fst r) ->
        In m db.(messages) /\ m.(Message.group) = groupId).
Proof.
  intros Hp Hl n r.
  assert (Hlen : Z.of_nat (List.length (fst r))
                 = Z.max 0 (Z.min lim (n - (page - 1) * lim))).
  { subst r. unfold getMessagesWithPagination, limit, skip. cbn [fst].
    rewrite length_rev, length_firstn, length_skipn.
    rewrite (Permutation_length (sort_perm newestFirst _)).
    fold (storedMessages groupId db).
    assert (0 <= (page - 1) * lim) by nia.
    subst n. set (k := (page - 1) * lim) in *. lia. }
  pose proof (ceilDiv_spec n lim ltac:(lia)) as Hc.
  split; [exact Hlen|]. split; [|split].
  - subst r. unfold getMessagesWithPagination. cbn [snd hasNext].
    fold (storedMessages groupId db).
    unfold countDocuments. fold (storedMessages groupId db). fold n.
    rewrite Z.ltb_lt. split; intros H; nia.
  - subst r. unfold getMessagesWithPagination at 1. cbn [snd totalPages].
    unfold countDocuments. fold (storedMessages groupId db). fold n.
    intros Hlt.
    assert (Hz : Z.of_nat (List.length
                   (fst (getMessagesWithPagination groupId page lim db))) = 0).
    { rewrite Hlen. nia. }
    destruct (fst (getMessagesWithPagination groupId page lim db));
      [reflexivity | simpl in Hz; lia].
  - intros m Hin. subst r.
    unfold getMessagesWithPagination, limit, skip in Hin. cbn [fst] in Hin.
    apply in_rev, In_firstn, In_skipn in Hin.
    apply (Permutation_in _ (sort_perm newestFirst _)) in Hin.
    apply filter_In in Hin. destruct Hin as [Hin Hq].
    split; [exact Hin | apply Nat.eqb_eq, Hq].
Qed.

Lemma getMessagesWithPagination_page_size_witness :
  Z.of_nat (List.length (fst (getMessagesWithPagination general 2 2 chatDb)))
  = 1
  /\ hasNext (snd (getMessagesWithPagination general 2 2 chatDb)) = false
  /\ fst (getMessagesWithPagination general 3 2 chatDb) = [].
Proof.
  destruct (getMessagesWithPagination_page_size chatDb general 2 2
              ltac:(lia) ltac:(lia)) as (H1 & H2 & _ & _).
  destruct (getMessagesWithPagination_page_size chatDb general 3 2
              ltac:(lia) ltac:(lia)) as (_ & _ & H3 & _).
  split; [exact H1|]. split.
  - destruct (hasNext (snd (getMessagesWithPagination general 2 2 chatDb)));
      [|reflexivity].
    exfalso. pose proof (proj1 H2 eq_refl) as H. vm_compute in H.
    discriminate.
  - apply H3. vm_compute. reflexivity.
Defined.

Lemma chunks_concat {A : Type} (L : nat) (k : nat) (l : list A) :
  (List.length l <= k * L)%nat ->
  List.concat (map (fun i => firstn L (skipn (i * L) l)) (seq 0 k)) = l.
Proof.
  revert l. induction k as [|k IH]; intros l Hlen.
  - destruct l; [reflexivity | simpl in Hlen; lia].
  - cbn [seq map List.concat]. rewrite <- seq_shift, map_map.
    cbn [Nat.mul skipn].
    rewrite (map_ext _ (fun i => firstn L (skipn (i * L) (skipn L l)))).
    + rewrite IH; [apply firstn_skipn|].
      rewrite length_skipn. lia.
    + intros i. rewrite skipn_skipn. f_equal. f_equal. lia.
Qed.

Lemma rev_concat {A : Type} (ls : list (list A)) :
  rev (List.concat ls) = List.concat (map (@rev A) (rev ls)).
Proof.
  induction ls as [|x ls IH]; simpl; [reflexivity|].
  rewrite rev_app_distr, IH, map_app, concat_app. simpl.
  rewrite app_nil_r. reflexivity.
Qed.

(** X3. The pages of a group, taken from the last page down to page 1 and
    put one after the other, are the whole history of the group in
    chronological order: every stored message appears once, none is
    missing. *)
Theorem pages_reconstruct_history (db : Db) (groupId : ObjectId) (lim : Z) :
  1 <= lim ->
  let stored := storedMessages groupId db in
  let pages := Z.to_nat (ceilDiv (Z.of_nat (List.length stored)) lim) in
  let history :=
    List.concat (map (fun k =>
                   fst (getMessagesWithPagination groupId (Z.of_nat k) lim db))
                (rev (seq 1 pages))) in
  history = rev (sort newestFirst stored)
  /\ chronological history
  /\ Permutation history stored.
Proof.
  intros Hl stored pages history.
  assert (H : history = rev (sort newestFirst stored)).
  { rewrite <- (rev_involutive history). f_equal.
    subst history. rewrite rev_concat, <- map_rev, rev_involutive, map_map.
    rewrite <- seq_shift, map_map.
    rewrite (map_ext _ (fun i => firstn (Z.to_nat lim)
                                   (skipn (i * Z.to_nat lim)
                                      (sort newestFirst stored)))).
    - apply chunks_concat.
      rewrite (Permutation_length (sort_perm newestFirst stored)).
      subst pages.
      pose proof (ceilDiv_spec (Z.of_nat (List.length stored)) lim
                    ltac:(lia)) as Hc.
      pose proof (ceilDiv_nonneg (Z.of_nat (List.length stored)) lim
                    ltac:(lia) ltac:(lia)) as Hn.
      apply Nat2Z.inj_le. rewrite Nat2Z.inj_mul, !Z2Nat.id by lia. lia.
    - intros i. unfold getMessagesWithPagination, limit, skip. cbn [fst].
      rewrite rev_involutive. fold stored. f_equal. f_equal.
      replace (Z.of_nat (S i) - 1) with (Z.of_nat i) by lia.
      rewrite Z2Nat.inj_mul by lia. rewrite Nat2Z.id. reflexivity. }
  split; [exact H|]. rewrite H. split.
  - unfold chronological.
    apply (StronglySorted_rev
             (fun a b => Message.createdAt b <= Message.createdAt a)).
    apply sort_newestFirst_order.
  - eapply perm_trans; [apply Permutation_sym, Permutation_rev|].
    apply sort_perm.
Qed.

Lemma pages_reconstruct_history_witness :
  map Message._id
    (List.concat (map (fun k =>
                    fst (getMessagesWithPagination general (Z.of_nat k) 2
                           chatDb))
                 (rev (seq 1 2))))
  = [21%nat; 22%nat; 23%nat].
Proof.
  destruct (pages_reconstruct_history chatDb general 2 ltac:(lia))
    as (H & _ & _).
  cbv zeta in H.
  exact (eq_trans (f_equal (map Message._id) H) eq_refl).
Defined.

(** ** Read marks and unread counts *)

Lemma hasReceipt_pushReceipt (u : ObjectId) (t : Date) (m : Message.t) :
  hasReceipt u (pushReceipt u t m).
Proof.
  unfold hasReceipt, pushReceipt, addToSet. cbn [Message.readBy].
  eexists. split; [apply in_or_app; right; left; reflexivity|].
  reflexivity.
Qed.

Lemma hasReceipt_pushReceipt_other (u u' : ObjectId) (t : Date)
  (m : Message.t) :
  u' <> u -> (hasReceipt u (pushReceipt u' t m) <-> hasReceipt u m).
Proof.
  intros Hne. unfold hasReceipt, pushReceipt, addToSet.
  cbn [Message.readBy].
  split.
  - intros (r & Hin & Hu). apply in_app_or in Hin.
    destruct Hin as [Hin|[<-|[]]]; [eauto|].
    simpl in Hu. contradiction.
  - intros (r & Hin & Hu). exists r. split; [|exact Hu].
    apply in_or_app. left. exact Hin.
Qed.

Lemma unreadQ_false_of_receipt (g u : ObjectId) (m : Message.t) :
  hasReceipt u m -> unreadQ g u m = false.
Proof.
  intros H. destruct (unreadQ g u m) eqn:E; [|reflexivity].
  apply unreadQ_spec in E. destruct E as (_ & _ & Hn). contradiction.
Qed.

Lemma unreadQ_pushReceipt_other (g u u' : ObjectId) (t : Date)
  (m : Message.t) :
  u' <> u -> unreadQ g u (pushReceipt u' t m) = unreadQ g u m.
Proof.
  intros Hne.
  pose proof (unreadQ_spec g u (pushReceipt u' t m)) as H1.
  pose proof (unreadQ_spec g u m) as H2.
  pose proof (hasReceipt_pushReceipt_other u u' t m Hne) as H3.
  unfold unreadFor in *. cbn [pushReceipt Message.group Message.sender] in H1.
  destruct (unreadQ g u (pushReceipt u' t m)), (unreadQ g u m);
    try reflexivity; exfalso.
  - assert (true = true) as H by reflexivity. apply H1 in H.
    assert (false = true) as Hf by (apply H2; tauto). discriminate.
  - assert (true = true) as H by reflexivity. apply H2 in H.
    assert (false = true) as Hf by (apply H1; tauto). discriminate.
Qed.

Lemma count_findOneAndUpdate {A : Type} (p q : A -> bool) (f : A -> A)
  (l : list A) :
  Z.of_nat (List.length (filter p (findOneAndUpdate q f l)))
  = Z.of_nat (List.length (filter p l))
    + match find q l with
      | Some x => Z.b2z (p (f x)) - Z.b2z (p x)
      | None => 0
      end.
Proof.
  induction l as [|y l IH]; [reflexivity|].
  cbn [findOneAndUpdate find filter].
  destruct (q y); cbn [filter].
  - destruct (p (f y)), (p y); cbn [List.length Z.b2z];
      rewrite ?Nat2Z.inj_succ; lia.
  - destruct (p y); cbn [List.length]; rewrite ?Nat2Z.inj_succ; lia.
Qed.

(** X4. One read mark changes the unread count of the marking user by
    exactly one when the message it finds was unread for that user in that
    group, and not at all otherwise (no such message, an own message, a
    message of another group, a message already read); the counts of all
    other users stay as they are. *)
Theorem markMessageAsRead_unread_count (db : Db)
  (groupId userId messageId : ObjectId) (now : Date) :
  let db' := markMessageAsRead messageId userId now db in
  countDocuments (unreadQ groupId userId) db'.(messages)
  = countDocuments (unreadQ groupId userId) db.(messages)
    - match findOne (messageByIdQ messageId) db.(messages) with
      | Some m => Z.b2z (unreadQ groupId userId m)
      | None => 0
      end
  /\ (forall other g,
        other <> userId ->
        countDocuments (unreadQ g other) db'.(messages)
        = countDocuments (unreadQ g other) db.(messages)).
Proof.
  cbv zeta. unfold markMessageAsRead, countDocuments, findOne.
  cbn [messages]. split.
  - rewrite count_findOneAndUpdate.
    destruct (find (messageByIdQ messageId) (messages db)) as [m|]; [|lia].
    rewrite (unreadQ_false_of_receipt _ _ _
               (hasReceipt_pushReceipt userId now m)).
    simpl. lia.
  - intros other g Hne. rewrite count_findOneAndUpdate.
    destruct (find (messageByIdQ messageId) (messages db)) as [m|]; [|lia].
    rewrite unreadQ_pushReceipt_other by congruence. lia.
Qed.

Lemma findOneAndUpdate_unique (id : ObjectId) (f : Message.t -> Message.t)
  (l : list Message.t) :
  NoDup (map Message._id l) ->
  findOneAndUpdate (messageByIdQ id) f l
  = map (fun m => if Nat.eqb m.(Message._id) id then f m else m) l.
Proof.
  induction l as [|m l IH]; simpl; intros Hnd; [reflexivity|].
  inversion Hnd as [|? ? Hnin Hnd']; subst.
  unfold messageByIdQ at 1.
  destruct (Nat.eqb_spec (Message._id m) id) as [E|E].
  - f_equal. transitivity (map (fun x : Message.t => x) l);
      [symmetry; apply map_id|].
    apply map_ext_in.
    intros x Hx. destruct (Nat.eqb_spec (Message._id x) id) as [E'|_];
      [|reflexivity].
    exfalso. apply Hnin. rewrite E, <- E'. apply in_map, Hx.
  - f_equal. apply IH, Hnd'.
Qed.

Lemma readIf_id (u : ObjectId) (t : Date) (id : ObjectId) (m : Message.t) :
  Message._id (readIf u t id m) = Message._id m.
Proof. unfold readIf. destruct (Nat.eqb _ _); reflexivity. Qed.

Lemma fold_marks_messages (u : ObjectId) (t : Date) (ids : list ObjectId)
  (db : Db) :
  uniqueMessageIds db ->
  fold_left (fun d id => markMessageAsRead id u t d) ids db
  = setMessages (map (readAll u t ids)) db.
Proof.
  revert db. induction ids as [|id ids IH]; intros db Hnd.
  - destruct db. unfold setMessages, readAll. simpl. rewrite map_id.
    reflexivity.
  - cbn [fold_left].
    assert (Hstep : markMessageAsRead id u t db
                    = setMessages (map (readIf u t id)) db).
    { unfold markMessageAsRead, setMessages.
      rewrite (findOneAndUpdate_unique id (pushReceipt u t) _ Hnd).
      reflexivity. }
    rewrite Hstep, IH.
    + unfold setMessages. cbn [users groups members messages].
      rewrite map_map. reflexivity.
    + unfold uniqueMessageIds, setMessages. cbn [messages].
      rewrite map_map.
      rewrite (map_ext _ Message._id); [exact Hnd|].
      intros m. apply readIf_id.
Qed.

Lemma readAll_id (u : ObjectId) (t : Date) (ids : list ObjectId)
  (m : Message.t) :
  Message._id (readAll u t ids m) = Message._id m.
Proof.
  revert m. induction ids as [|id ids IH]; intros m; [reflexivity|].
  unfold readAll in *. cbn [fold_left]. rewrite IH. apply readIf_id.
Qed.

Lemma unreadQ_readAll (g u : ObjectId) (t : Date) (ids : list ObjectId)
  (m : Message.t) :
  unreadQ g u (readAll u t ids m)
  = (unreadQ g u m && negb (existsb (Nat.eqb m.(Message._id)) ids))%bool.
Proof.
  revert m. induction ids as [|id ids IH]; intros m.
  - simpl. rewrite andb_true_r. reflexivity.
  - unfold readAll in *. cbn [fold_left existsb]. rewrite IH, readIf_id.
    unfold readIf.
    destruct (Nat.eqb (Message._id m) id) eqn:E; cbn [orb negb].
    + rewrite (unreadQ_false_of_receipt _ _ _
                 (hasReceipt_pushReceipt u t m)).
      rewrite andb_false_r. reflexivity.
    + reflexivity.
Qed.


Lemma filter_map_ext {A : Type} (p q : A -> bool) (f : A -> A)
  (l : list A) :
  (forall x, p (f x) = q x) ->
  List.length (filter p (map f l)) = List.length (filter q l).
Proof.
  intros H. induction l as [|x l IH]; simpl; [reflexivity|].
  rewrite H. destruct (q x); simpl; congruence.
Qed.

Lemma receiptsAdded_zero (u : ObjectId) (t : Date) (m : Message.t) :
  receiptsAdded u t 0 m = m.
Proof.
  destruct m. unfold receiptsAdded, withReadBy.
  cbn [repeat Message.readBy Message._id Message.content Message.sender
       Message.group Message.messageType Message.createdAt].
  rewrite app_nil_r. reflexivity.
Qed.

Lemma receiptsAdded_pushReceipt (u : ObjectId) (t : Date) (n : nat)
  (m : Message.t) :
  receiptsAdded u t n (pushReceipt u t m) = receiptsAdded u t (S n) m.
Proof.
  unfold receiptsAdded, withReadBy, pushReceipt, addToSet.
  cbn [repeat Message.readBy Message._id Message.content Message.sender
       Message.group Message.messageType Message.createdAt].
  rewrite <- app_assoc. reflexivity.
Qed.

(** Read marks for each of [ids] give a message one receipt for every
    time its id is listed. *)
Lemma readAll_receiptsAdded (u : ObjectId) (t : Date) (ids : list ObjectId)
  (m : Message.t) :
  readAll u t ids m = receiptsAdded u t (timesListed ids m) m.
Proof.
  revert m. induction ids as [|id ids IH]; intros m.
  - symmetry. apply receiptsAdded_zero.
  - unfold readAll in *. cbn [fold_left]. rewrite IH.
    unfold timesListed. rewrite readIf_id. cbn [count_occ]. unfold readIf.
    destruct (Nat.eq_dec id (Message._id m)) as [E|E].
    + replace (Nat.eqb (Message._id m) id) with true
        by (symmetry; apply Nat.eqb_eq; congruence).
      apply receiptsAdded_pushReceipt.
    + replace (Nat.eqb (Message._id m) id) with false
        by (symmetry; apply Nat.eqb_neq; congruence).
      reflexivity.
Qed.



(** The ids of the messages on a page are distinct when the stored ids
    are. *)
Lemma messageIds_filter_unique (groupId : ObjectId) (l : list Message.t) :
  NoDup (map Message._id l) ->
  NoDup (map Message._id (filter (messageOfGroupQ groupId) l)).
Proof.
  induction l as [|m l IH]; intros Hnd; [constructor|].
  cbn [map] in Hnd. apply NoDup_cons_iff in Hnd. destruct Hnd as [Hm Hl].
  cbn [filter]. destruct (messageOfGroupQ groupId m); [|exact (IH Hl)].
  cbn [map]. apply NoDup_cons_iff. split; [|exact (IH Hl)].
  intros Hin. apply Hm. apply in_map_iff in Hin.
  destruct Hin as (m' & Hid & Hin). apply filter_In in Hin.
  rewrite <- Hid. apply in_map, Hin.
Qed.

Lemma page_ids_unique (db : Db) (groupId : ObjectId) (page lim : Z) :
  uniqueMessageIds db ->
  NoDup (map Message._id
           (fst (getMessagesWithPagination groupId page lim db))).
Proof.
  intros Hu. unfold getMessagesWithPagination, limit, skip. cbn [fst].
  rewrite map_rev. apply NoDup_rev.
  set (sorted := sort newestFirst
                   (filter (messageOfGroupQ groupId) (messages db))).
  assert (Hs : NoDup (map Message._id sorted)).
  { apply (Permutation_NoDup
             (l := map Message._id
                     (filter (messageOfGroupQ groupId) (messages db)))).
    - apply Permutation_map, Permutation_sym, sort_perm.
    - apply messageIds_filter_unique, Hu. }
  rewrite <- firstn_map, <- skipn_map.
  set (ids := map Message._id sorted) in *.
  set (k := Z.to_nat ((page - 1) * lim)).
  assert (Hk : NoDup (skipn k ids)).
  { rewrite <- (firstn_skipn k ids) in Hs.
    exact (NoDup_app_remove_l _ _ Hs). }
  rewrite <- (firstn_skipn (Z.to_nat lim) (skipn k ids)) in Hk.
  exact (NoDup_app_remove_r _ _ Hk).
Qed.

Lemma page_messages_stored (db : Db) (groupId : ObjectId) (page lim : Z)
  (m : Message.t) :
  In m (fst (getMessagesWithPagination groupId page lim db)) ->
  In m db.(messages).
Proof.
  unfold getMessagesWithPagination, limit, skip. cbn [fst].
  intros Hin. apply in_rev in Hin.
  apply In_firstn, In_skipn in Hin.
  apply (Permutation_in _ (sort_perm newestFirst _)) in Hin.
  apply filter_In in Hin. apply Hin.
Qed.

(** With distinct ids, a message is listed once or not at all. *)
Lemma receiptsAdded_once (u : ObjectId) (t : Date) (ids : list ObjectId)
  (m : Message.t) :
  NoDup ids ->
  receiptsAdded u t (timesListed ids m) m
  = if existsb (Nat.eqb m.(Message._id)) ids then pushReceipt u t m else m.
Proof.
  intros Hnd. unfold timesListed.
  pose proof (proj1 (NoDup_count_occ Nat.eq_dec ids) Hnd (Message._id m))
    as Hle.
  destruct (existsb (Nat.eqb (Message._id m)) ids) eqn:E.
  - apply existsb_exists in E. destruct E as (id & Hin & Hid).
    apply Nat.eqb_eq in Hid. subst id.
    apply (count_occ_In Nat.eq_dec) in Hin.
    replace (count_occ Nat.eq_dec ids (Message._id m)) with 1%nat by lia.
    rewrite <- receiptsAdded_pushReceipt. apply receiptsAdded_zero.
  - replace (count_occ Nat.eq_dec ids (Message._id m)) with 0%nat.
    + apply receiptsAdded_zero.
    + symmetry. apply count_occ_not_In. intros Hin.
      assert (Ht : existsb (Nat.eqb (Message._id m)) ids = true).
      { apply existsb_exists. exists (Message._id m).
        split; [exact Hin | apply Nat.eqb_refl]. }
      congruence.
Qed.

(** X6. A successful [getGroupMessages] marks what it returns: with
    unique message ids, every returned message gets exactly one more
    receipt of the caller, added at the end of its [readBy] whatever
    receipts it has already, and no other message changes; the
    caller's unread count for the group becomes the number of previously
    unread messages outside the page.  When the whole history fits on
    page 1, the unread count asked next is 0. *)
Theorem getGroupMessages_marks_page_read (db : Db)
  (groupId userId : ObjectId) (page lim : Z) (now : Date) :
  1 <= page -> 1 <= lim <= 100 ->
  isActiveMember userId groupId db -> groupExists groupId db ->
  uniqueMessageIds db ->
  let answer := getGroupMessages groupId userId (Some page) (Some lim) now db in
  let db' := snd answer in
  exists msgs p,
    data (fst answer) = Some (msgs, p)
    /\ db' = setMessages
               (map (fun m =>
                       if existsb (Nat.eqb m.(Message._id))
                                  (map Message._id msgs)
                       then pushReceipt userId now m
                       else m))
               db
    /\ (forall m, In m msgs ->
          In m db.(messages)
          /\ In (pushReceipt userId now m) db'.(messages))
    /\ countDocuments (unreadQ groupId userId) db'.(messages)
       = countDocuments
           (fun m => unreadQ groupId userId m
                     && negb (existsb (Nat.eqb m.(Message._id))
                                      (map Message._id msgs)))
           db.(messages)
    /\ (page = 1 ->
        Z.of_nat (List.length (storedMessages groupId db)) <= lim ->
        fst (getUnreadMessageCount groupId userId db')
        = mkResponse 200 "" (Some 0)).
Proof.
  intros Hp Hl Hm Hg Hu answer db'.
  subst db' answer. rewrite getGroupMessages_ok by assumption.
  cbn [fst snd data].
  set (r := getMessagesWithPagination groupId page lim db).
  exists (fst r), (snd r).
  set (ids := map Message._id (fst r)).
  assert (Hfold : fold_left
                    (fun d m => markMessageAsRead (Message._id m) userId now d)
                    (fst r) db
                  = setMessages (map (readAll userId now ids)) db).
  { rewrite <- (fold_marks_messages userId now _ db Hu). subst ids.
    generalize db. induction (fst r) as [|m l IH]; intros d; [reflexivity|].
    simpl. apply IH. }
  assert (Hids : NoDup ids) by (apply page_ids_unique, Hu).
  assert (Hdb : fold_left
                  (fun d m => markMessageAsRead (Message._id m) userId now d)
                  (fst r) db
                = setMessages
                    (map (fun m =>
                            if existsb (Nat.eqb m.(Message._id)) ids
                            then pushReceipt userId now m
                            else m))
                    db).
  { rewrite Hfold. unfold setMessages. f_equal. apply map_ext. intros m.
    rewrite readAll_receiptsAdded. apply receiptsAdded_once, Hids. }
  assert (Hcount :
    countDocuments (unreadQ groupId userId)
      (messages (fold_left
                   (fun d m => markMessageAsRead (Message._id m) userId now d)
                   (fst r) db))
    = countDocuments
        (fun m => unreadQ groupId userId m
                  && negb (existsb (Nat.eqb (Message._id m)) ids))
        (messages db)).
  { rewrite Hfold. unfold countDocuments, setMessages. cbn [messages].
    f_equal. apply filter_map_ext. intros m. apply unreadQ_readAll. }
  split; [destruct r; reflexivity|]. split; [exact Hdb|].
  split; [|split; [exact Hcount|]].
  - intros m Hin.
    pose proof (page_messages_stored db groupId page lim m Hin) as Hst.
    split; [exact Hst|].
    rewrite Hdb. cbn [setMessages messages]. apply in_map_iff.
    exists m. split; [|exact Hst].
    replace (existsb (Nat.eqb (Message._id m)) ids) with true; [reflexivity|].
    symmetry. apply existsb_exists. exists (Message._id m).
    split; [apply in_map, Hin | apply Nat.eqb_refl].
  - intros -> Hfit.
    assert (Hm' : isActiveMember userId groupId
                    (fold_left
                       (fun d m =>
                          markMessageAsRead (Message._id m) userId now d)
                       (fst r) db)).
    { rewrite Hfold. exact Hm. }
    apply isActiveMember_findOne in Hm'. destruct Hm' as [row Hrow].
    unfold getUnreadMessageCount, tryCatch, bind, gets, ret,
      validateGroupMembership.
    rewrite Hrow. cbn [fst]. rewrite Hcount.
    unfold countDocuments. rewrite filter_nil; [reflexivity|].
    intros m Hin.
    destruct (unreadQ groupId userId m) eqn:Eq; [|reflexivity].
    cbn [andb]. apply negb_false_iff. apply existsb_exists.
    exists (Message._id m). split; [|apply Nat.eqb_refl].
    apply in_map.
    assert (Hgm : Message.group m = groupId).
    { apply unreadQ_spec in Eq. apply Eq. }
    subst r. unfold getMessagesWithPagination, limit, skip. cbn [fst].
    apply -> in_rev. replace (Z.to_nat ((1 - 1) * lim)) with 0%nat by lia.
    cbn [skipn]. rewrite firstn_all2.
    + apply (Permutation_in _ (Permutation_sym (sort_perm newestFirst _))).
      apply filter_In. split; [exact Hin | apply Nat.eqb_eq, Hgm].
    + rewrite (Permutation_length (sort_perm newestFirst _)).
      unfold storedMessages in Hfit. lia.
Qed.

Lemma getGroupMessages_marks_page_read_witness :
  let first := getGroupMessages general bob (Some 1) (Some 50) 9000 chatDb in
  let second :=
    getGroupMessages general bob (Some 1) (Some 50) 9000 (snd first) in
  fst (getUnreadMessageCount general bob (snd first))
  = mkResponse 200 "" (Some 0)
  /\ map (fun m => List.length (receiptsOf bob m)) (messages (snd second))
     = [2%nat; 2%nat; 2%nat].
Proof.
  assert (Hm : isActiveMember bob general chatDb).
  { exists (GroupMember.mk bob general member 200 true). simpl. tauto. }
  assert (Hg : groupExists general chatDb).
  { exists generalGroup. simpl. tauto. }
  assert (Hu : uniqueMessageIds chatDb).
  { unfold uniqueMessageIds. simpl.
    repeat constructor; simpl; intuition discriminate. }
  destruct (getGroupMessages_marks_page_read chatDb general bob 1 50 9000
              ltac:(lia) ltac:(lia) Hm Hg Hu)
    as (msgs & p & _ & _ & _ & _ & H).
  cbv zeta. split; [|reflexivity].
  apply H; [reflexivity | simpl; lia].
Defined.

(** ** Sending, editing and deleting *)

Lemma findOneAndUpdate_app_none {A : Type} (q : A -> bool) (f : A -> A)
  (l l' : list A) :
  find q l = None ->
  findOneAndUpdate q f (l ++ l') = l ++ findOneAndUpdate q f l'.
Proof.
  induction l as [|x l IH]; simpl; intros H; [reflexivity|].
  destruct (q x); [discriminate|]. f_equal. apply IH, H.
Qed.

(** X7. A valid [sendMessage] of an active member to an existing group,
    with a message id that is not in use, answers 201 and appends exactly
    one message: trimmed content, the caller as sender, the given type
    (['text'] by default) and one receipt, the sender's.  The unread count
    of the sender for the group is unchanged and that of every other user
    goes up by one. *)
Theorem sendMessage_stores_message (db : Db) (groupId userId : ObjectId)
  (c : string) (messageType : option string) (now : Date)
  (newId : ObjectId) :
  validContent (Some c) -> validType messageType ->
  isActiveMember userId groupId db -> groupExists groupId db ->
  findOne (messageByIdQ newId) db.(messages) = None ->
  let m := {| Message._id := newId;
              Message.content := trim c;
              Message.sender := userId;
              Message.group := groupId;
              Message.messageType :=
                match messageType with Some t => t | None => "text" end;
              Message.readBy := [{| Receipt.user := userId;
                                    Receipt.readAt := now |}];
              Message.createdAt := now |} in
  sendMessage groupId userId (Some c) messageType now newId db
  = (mkResponse 201 "Message sent successfully" (Some m),
     setMessages (fun l => l ++ [m]) db)
  /\ countDocuments (unreadQ groupId userId) (db.(messages) ++ [m])
     = countDocuments (unreadQ groupId userId) db.(messages)
  /\ (forall other,
        other <> userId ->
        countDocuments (unreadQ groupId other) (db.(messages) ++ [m])
        = countDocuments (unreadQ groupId other) db.(messages) + 1).
Proof.
  intros Hc Ht Hm Hg Hfresh m.
  split; [|split].
  - pose proof Hc as Hc'.
    apply validateMessageContent_valid in Hc'.
    destruct Hc' as (c' & [= <-] & Hvc).
    destruct Hc as (c' & [= <-] & Hne & Hlen).
    pose proof Ht as Ht'. apply validateMessageType_valid in Ht'.
    apply isActiveMember_findOne in Hm. destruct Hm as [r Hr].
    apply groupExists_findOne in Hg. destruct Hg as [grp Hgrp].
    assert (Hz : Nat.eqb (String.length (trim (trim c))) 0 = false).
    { rewrite trim_idempotent. apply Nat.eqb_neq. intros Hz.
      apply Hne. destruct (trim c); [reflexivity | discriminate]. }
    assert (Hl : (1000 <? String.length (trim (trim c)))%nat = false).
    { rewrite trim_idempotent. apply Nat.ltb_ge.
      pose proof (length_trim_le c). lia. }
    assert (Hty : existsb
                    (String.eqb
                       match messageType with Some t => t | None => "text" end)
                    validTypes = true).
    { apply existsb_exists. eexists. split; [exact Ht|].
      apply String.eqb_refl. }
    unfold sendMessage, tryCatch, bind, lift, gets, ret, modify,
      validateGroupMembership.
    rewrite Hvc, Ht', Hr. cbv beta iota. rewrite Hgrp. cbv beta iota.
    unfold Message_create. rewrite Hz, Hl, Hty. cbn [negb].
    rewrite trim_idempotent.
    set (m0 := {| Message._id := newId;
                  Message.content := trim c;
                  Message.sender := userId;
                  Message.group := groupId;
                  Message.messageType :=
                    match messageType with Some t => t | None => "text" end;
                  Message.readBy := [];
                  Message.createdAt := now |}).
    cbn [setMessages messages]. change (Message._id m0) with newId.
    assert (Hfind : findOne (messageByIdQ newId) (messages db ++ [m0])
                    = Some m0).
    { apply find_app_none; [exact Hfresh|].
      unfold messageByIdQ. apply Nat.eqb_refl. }
    rewrite Hfind. cbn [option_map].
    unfold markMessageAsRead, setMessages. cbn [users groups members messages].
    rewrite (findOneAndUpdate_app_none _ _ _ _ Hfresh).
    cbn [findOneAndUpdate]. unfold messageByIdQ at 1.
    change (Message._id m0) with newId. rewrite Nat.eqb_refl. reflexivity.
  - subst m. unfold countDocuments. rewrite filter_app, length_app.
    cbn [filter]. unfold unreadQ at 2.
    cbn [Message.sender Message.group Message.readBy forallb Receipt.user].
    rewrite !Nat.eqb_refl. cbn [negb andb List.length]. lia.
  - intros other Hne. subst m. unfold countDocuments.
    rewrite filter_app, length_app.
    cbn [filter]. unfold unreadQ at 2.
    cbn [Message.sender Message.group Message.readBy forallb Receipt.user].
    rewrite Nat.eqb_refl.
    replace (Nat.eqb userId other) with false
      by (symmetry; apply Nat.eqb_neq; congruence).
    cbn [negb andb List.length]. lia.
Qed.

Lemma sendMessage_stores_message_witness :
  status (fst (sendMessage general bob (Some "  hi there ") None 9000 30
                 chatDb)) = 201
  /\ map Message.content
       (messages (snd (sendMessage general bob (Some "  hi there ") None 9000
                         30 chatDb)))
     = ["one"; "two"; "three"; "hi there"].
Proof.
  assert (H : validContent (Some "  hi there ")).
  { exists "  hi there ". split; [reflexivity|].
    split; [vm_compute; discriminate | apply Nat.leb_le; reflexivity]. }
  destruct (sendMessage_stores_message chatDb general bob "  hi there " None
              9000 30 H) as (E & _ & _).
  - unfold validType, validTypes. simpl. tauto.
  - exists (GroupMember.mk bob general member 200 true). simpl. tauto.
  - exists generalGroup. simpl. tauto.
  - reflexivity.
  - rewrite E. split; reflexivity.
Defined.

Lemma activeAdminMembershipQ_true (u g : ObjectId) (r : GroupMember.t) :
  activeAdminMembershipQ u g r = true <->
  r.(GroupMember.user) = u /\ r.(GroupMember.group) = g
  /\ r.(GroupMember.role) = admin /\ r.(GroupMember.isActive) = true.
Proof.
  unfold activeAdminMembershipQ.
  rewrite !andb_true_iff, !Nat.eqb_eq, role_eqb_admin, eqb_true_iff. tauto.
Qed.

Lemma isActiveAdmin_findOne (u g : ObjectId) (db : Db) :
  isActiveAdmin u g db <->
  exists r, findOne (activeAdminMembershipQ u g) db.(members) = Some r.
Proof.
  split.
  - intros (r & Hin & Hr). apply find_ex. exists r. split; [exact Hin|].
    apply activeAdminMembershipQ_true, Hr.
  - intros (r & Hf). apply find_some in Hf. destruct Hf as [Hin Hq].
    exists r. split; [exact Hin|]. apply activeAdminMembershipQ_true, Hq.
Qed.

Lemma length_findOneAndDelete {A : Type} (q : A -> bool) (l : list A)
  (x : A) :
  find q l = Some x ->
  S (List.length (findOneAndDelete q l)) = List.length l.
Proof.
  induction l as [|y l IH]; simpl; intros H; [discriminate|].
  destruct (q y); [reflexivity|]. simpl. f_equal. apply IH, H.
Qed.

Lemma find_findOneAndUpdate {A : Type} (q : A -> bool) (f : A -> A)
  (l : list A) (x : A) :
  find q l = Some x -> q (f x) = true ->
  find q (findOneAndUpdate q f l) = Some (f x).
Proof.
  induction l as [|y l IH]; simpl; intros H Hq; [discriminate|].
  destruct (q y) eqn:E.
  - injection H as <-. simpl. rewrite Hq. reflexivity.
  - simpl. rewrite E. apply IH; assumption.
Qed.

(** X8. [deleteMessage] answers 404 when no message has the id.
    Otherwise the sender may delete the message, member of the group or
    not, and so may an active admin of the message's group: the answer is
    200 and exactly that message is gone.  Anybody else, a removed admin
    included, is answered 403 and nothing changes. *)
Theorem deleteMessage_authorization (db : Db) (messageId userId : ObjectId) :
  (findOne (messageByIdQ messageId) db.(messages) = None ->
   deleteMessage messageId userId db = (fail 404 "Message not found", db))
  /\ (forall m,
        findOne (messageByIdQ messageId) db.(messages) = Some m ->
        ((m.(Message.sender) = userId
          \/ isActiveAdmin userId m.(Message.group) db) ->
         deleteMessage messageId userId db
         = (mkResponse 200 "Message deleted successfully" (Some tt),
            setMessages (findOneAndDelete (messageByIdQ messageId)) db)
         /\ S (List.length
                 (findOneAndDelete (messageByIdQ messageId) db.(messages)))
            = List.length db.(messages))
        /\ (m.(Message.sender) <> userId ->
            ~ isActiveAdmin userId m.(Message.group) db ->
            deleteMessage messageId userId db
            = (fail 403
                 "Only message sender or group admin can delete messages",
               db))).
Proof.
  unfold deleteMessage, tryCatch, bind, gets, ret, modify.
  split.
  - intros ->. reflexivity.
  - intros m Hm. rewrite Hm. cbv beta iota. split.
    + intros Hauth. split; [|apply (length_findOneAndDelete _ _ m Hm)].
      destruct (Nat.eqb_spec (Message.sender m) userId) as [E|E];
        cbn [negb]; [reflexivity|].
      destruct Hauth as [Hs|Ha]; [contradiction|].
      apply isActiveAdmin_findOne in Ha. destruct Ha as [r Hr].
      rewrite Hr. reflexivity.
    + intros Hs Ha.
      destruct (Nat.eqb_spec (Message.sender m) userId) as [E|E];
        [contradiction|]. cbn [negb].
      destruct (findOne (activeAdminMembershipQ userId (Message.group m))
                  (members db)) as [r|] eqn:Er; [|reflexivity].
      exfalso. apply Ha, isActiveAdmin_findOne. eauto.
Qed.

Lemma deleteMessage_authorization_witness :
  status (fst (deleteMessage 21 bob chatDb)) = 403
  /\ map Message._id (messages (snd (deleteMessage 21 alice chatDb)))
     = [22%nat; 23%nat]
  /\ status (fst (deleteMessage 99 alice chatDb)) = 404.
Proof.
  destruct (deleteMessage_authorization chatDb 21 bob) as (_ & Hb).
  destruct (deleteMessage_authorization chatDb 21 alice) as (_ & Ha).
  destruct (deleteMessage_authorization chatDb 99 alice) as (Hn & _).
  split; [|split].
  - rewrite (proj2 (Hb _ eq_refl)); [reflexivity | discriminate |].
    intros (r & Hin & Hu & _ & Hr & _). simpl in Hin.
    destruct Hin as [<-|[<-|[]]]; discriminate.
  - rewrite (proj1 (proj1 (Ha _ eq_refl) (or_introl eq_refl))). reflexivity.
  - rewrite (Hn eq_refl). reflexivity.
Defined.

(** X9. [editMessage] checks in this order: 404 when no message has the
    id; 403 for anybody but the sender, a group admin included, whatever
    the new content is; 400 for a content that is not valid; nothing is
    written in these cases.  Otherwise the answer is 200 and the message
    found has its content replaced by the trimmed new content, every other
    field and every other message being kept. *)
Theorem editMessage_checks (db : Db) (messageId userId : ObjectId)
  (content : option string) :
  (findOne (messageByIdQ messageId) db.(messages) = None ->
   editMessage messageId userId content db
   = (fail 404 "Message not found", db))
  /\ (forall m,
        findOne (messageByIdQ messageId) db.(messages) = Some m ->
        (m.(Message.sender) <> userId ->
         editMessage messageId userId content db
         = (fail 403 "Only message sender can edit messages", db))
        /\ (m.(Message.sender) = userId -> ~ validContent content ->
            exists msg,
              editMessage messageId userId content db = (fail 400 msg, db))
        /\ (forall c,
              m.(Message.sender) = userId -> content = Some c ->
              validContent content ->
              editMessage messageId userId content db
              = (mkResponse 200 "Message updated successfully"
                   (Some (setContent (trim c) m)),
                 setMessages
                   (findOneAndUpdate (messageByIdQ messageId)
                      (setContent (trim c)))
                   db))).
Proof.
  unfold editMessage, tryCatch, bind, gets, ret, lift.
  split.
  - intros ->. reflexivity.
  - intros m Hm. rewrite Hm. cbv beta iota. split; [|split].
    + intros Hs.
      destruct (Nat.eqb_spec (Message.sender m) userId) as [E|E];
        [contradiction | reflexivity].
    + intros Hs Hinv. rewrite Hs, Nat.eqb_refl. cbn [negb].
      apply validateMessageContent_invalid in Hinv.
      destruct Hinv as [-> | ->]; eexists; reflexivity.
    + intros c Hs -> Hc. rewrite Hs, Nat.eqb_refl. cbn [negb].
      pose proof Hc as Hc'. apply validateMessageContent_valid in Hc'.
      destruct Hc' as (c' & [= <-] & ->).
      destruct Hc as (c' & [= <-] & Hne & Hlen).
      unfold Message_updateContent. rewrite trim_idempotent.
      replace (Nat.eqb (String.length (trim c)) 0) with false.
      2: { symmetry. apply Nat.eqb_neq. intros Hz. apply Hne.
           destruct (trim c); [reflexivity | discriminate]. }
      replace (1000 <? String.length (trim c))%nat with false.
      2: { symmetry. apply Nat.ltb_ge. pose proof (length_trim_le c). lia. }
      cbn [setMessages messages].
      rewrite (find_findOneAndUpdate _ _ _ m Hm).
      * reflexivity.
      * apply find_some in Hm. destruct Hm as [_ Hq]. exact Hq.
Qed.

Lemma editMessage_checks_witness :
  status (fst (editMessage 21 bob (Some "edited") chatDb)) = 403
  /\ map Message.content
       (messages (snd (editMessage 21 alice (Some " edited ") chatDb)))
     = ["edited"; "two"; "three"]
  /\ status (fst (editMessage 21 alice (Some "   ") chatDb)) = 400.
Proof.
  destruct (editMessage_checks chatDb 21 bob (Some "edited")) as (_ & Hb).
  destruct (editMessage_checks chatDb 21 alice (Some " edited ")) as (_ & Ha).
  destruct (editMessage_checks chatDb 21 alice (Some "   ")) as (_ & Hw).
  split; [|split].
  - rewrite (proj1 (Hb _ eq_refl)); [reflexivity | discriminate].
  - rewrite (proj2 (proj2 (Ha _ eq_refl)) " edited " eq_refl eq_refl).
    + reflexivity.
    + exists " edited ". split; [reflexivity|].
      split; [vm_compute; discriminate | apply Nat.leb_le; reflexivity].
  - destruct (proj1 (proj2 (Hw _ eq_refl)) eq_refl) as [msg ->];
      [|reflexivity].
    intros (c & [= <-] & Hne & _). apply Hne. reflexivity.
Defined.

(** ** Creating, updating and deleting groups *)

Lemma validateGroupName_taken (name : string) (excludeId : option ObjectId)
  (db : Db) :
  (exists g, In g db.(groups)
             /\ g.(Group.name) = trim name
             /\ match excludeId with
                | Some id => g.(Group._id) <> id
                | None => True
                end) ->
  validateGroupName name excludeId db
  = newError "Group with this name already exists".
Proof.
  intros (g & Hin & Hn & Hid). unfold validateGroupName.
  destruct (find_ex (groupNameTakenQ name excludeId) db.(groups)) as [g' Hg'].
  - exists g. split; [exact Hin|]. unfold groupNameTakenQ.
    apply andb_true_iff. split; [apply String.eqb_eq, Hn|].
    destruct excludeId; [|reflexivity].
    apply negb_true_iff, Nat.eqb_neq, Hid.
  - unfold findOne. rewrite Hg'. reflexivity.
Qed.

Lemma validateGroupName_free (name : string) (excludeId : option ObjectId)
  (db : Db) :
  validateGroupName name excludeId db = Return tt ->
  forall g, In g db.(groups) ->
            match excludeId with
            | Some id => g.(Group._id) <> id
            | None => True
            end ->
            g.(Group.name) <> trim name.
Proof.
  unfold validateGroupName, findOne. intros H g Hin Hid Hn.
  destruct (find (groupNameTakenQ name excludeId) (groups db)) eqn:E;
    [discriminate|].
  pose proof (find_none _ _ E g Hin) as Hq. unfold groupNameTakenQ in Hq.
  apply andb_false_iff in Hq. destruct Hq as [Hq|Hq].
  - apply String.eqb_neq in Hq. contradiction.
  - destruct excludeId; [|discriminate].
    apply negb_false_iff, Nat.eqb_eq in Hq. contradiction.
Qed.

Lemma validateGroupName_cases (name : string) (excludeId : option ObjectId)
  (db : Db) :
  validateGroupName name excludeId db = Return tt
  \/ validateGroupName name excludeId db
     = newError "Group with this name already exists".
Proof.
  unfold validateGroupName.
  destruct (findOne _ _); [right | left]; reflexivity.
Qed.

Lemma clampMembers_range (n : Z) : 1 <= clampMembers n <= 1000.
Proof. unfold clampMembers. lia. Qed.

(** X10. [createGroup] answers 409 and writes nothing when a group
    already has the trimmed name.  When it answers 201, no group had that
    name before, and exactly one group, one membership row and one message
    were added: the group with the trimmed name, a capacity between 1 and
    1000 and the caller as creator, the caller's active admin row for it,
    and a system message of the caller in it. *)
Theorem createGroup_effect (db : Db) (userId : ObjectId) (name : string)
  (description : option string) (isPublic : option bool)
  (maxMembers : option Z) (now : Date) (newGroupId newMessageId : ObjectId) :
  let answer := createGroup userId name description isPublic maxMembers now
                  newGroupId newMessageId db in
  ((exists g, In g db.(groups) /\ g.(Group.name) = trim name) ->
   answer = (fail 409 "Group with this name already exists", db))
  /\ (status (fst answer) = 201 ->
      (forall g, In g db.(groups) -> g.(Group.name) <> trim name)
      /\ exists g w,
          data (fst answer) = Some g
          /\ g.(Group._id) = newGroupId
          /\ g.(Group.name) = trim name
          /\ g.(Group.createdBy) = Some userId
          /\ 1 <= g.(Group.maxMembers) <= 1000
          /\ groups (snd answer) = db.(groups) ++ [g]
          /\ members (snd answer)
             = db.(members)
               ++ [{| GroupMember.user := userId;
                      GroupMember.group := newGroupId;
                      GroupMember.role := admin;
                      GroupMember.joinedAt := now;
                      GroupMember.isActive := true |}]
          /\ messages (snd answer) = db.(messages) ++ [w]
          /\ w.(Message.sender) = userId
          /\ w.(Message.group) = newGroupId
          /\ w.(Message.messageType) = "system"
          /\ w.(Message.readBy) = []).
Proof.
  intros answer. subst answer. split.
  - intros (g & Hin & Hn).
    unfold createGroup, tryCatch, bind.
    rewrite (validateGroupName_taken name None db); [reflexivity|].
    exists g. tauto.
  - unfold createGroup, tryCatch, bind, ret.
    destruct (validateGroupName_cases name None db) as [Hv|Hv]; rewrite Hv.
    2: { cbn. discriminate. }
    unfold newError. cbv beta iota.
    unfold Group_createValidated, validateGroupFields.
    cbn [Group.name Group.description].
    rewrite trim_idempotent.
    destruct (Nat.eqb (String.length (trim name)) 0); [cbn; discriminate|].
    destruct (100 <? String.length (trim name))%nat; [cbn; discriminate|].
    destruct (500 <? String.length _)%nat; [cbn; discriminate|].
    unfold Group_create. cbn [setName Group._id].
    unfold GroupMember_create. cbn [setGroups members].
    destruct (existsb (membershipQ userId newGroupId) (members db));
      [cbn; discriminate|].
    unfold Message_create.
    destruct (Nat.eqb (String.length (trim (welcomeContent name))) 0);
      [cbn; discriminate|].
    destruct (1000 <? String.length (trim (welcomeContent name)))%nat;
      [cbn; discriminate|].
    cbn [existsb validTypes negb fst snd status data setMembers setMessages
         groups members messages String.eqb Ascii.eqb Bool.eqb orb].
    intros _. split.
    + intros g Hin. apply (validateGroupName_free name None db Hv g Hin I).
    + eexists. eexists.
      repeat (split; [reflexivity|]).
      split; [apply clampMembers_range|].
      repeat (split; [reflexivity|]). reflexivity.
Qed.

Lemma createGroup_effect_witness :
  status (fst (createGroup carol " Cooking " None None (Some 5000) 9000
                 40 41 chatDb)) = 201
  /\ (forall g, In g chatDb.(groups) -> g.(Group.name) <> "Cooking")
  /\ createGroup carol "General " None None None 9000 40 41 chatDb
     = (fail 409 "Group with this name already exists", chatDb).
Proof.
  assert (H : status (fst (createGroup carol " Cooking " None None
                             (Some 5000) 9000 40 41 chatDb)) = 201)
    by reflexivity.
  destruct (createGroup_effect chatDb carol " Cooking " None None (Some 5000)
              9000 40 41) as (_ & Hok).
  destruct (Hok H) as (Hfree & _).
  destruct (createGroup_effect chatDb carol "General " None None None
              9000 40 41) as (Hdup & _).
  split; [exact H|]. split; [exact Hfree|].
  apply Hdup. exists generalGroup. split; [left; reflexivity | reflexivity].
Defined.

Lemma Group_update_cases (groupId : ObjectId)
  (name description : option string) (isPublic : option bool)
  (maxMembers : option Z) (db : Db) :
  (exists msg,
     Group_update groupId name description isPublic maxMembers db
     = (Throw {| Error.name := "ValidationError"; Error.message := msg |},
        db))
  \/ Group_update groupId name description isPublic maxMembers db
     = (Return (findOne (groupByIdQ groupId)
                  (findOneAndUpdate (groupByIdQ groupId)
                     (applyUpdate name description isPublic maxMembers)
                     (groups db))),
        setGroups
          (findOneAndUpdate (groupByIdQ groupId)
             (applyUpdate name description isPublic maxMembers)) db).
Proof.
  unfold Group_update.
  repeat match goal with
         | |- context [if ?b then (Throw _, _) else _] =>
             destruct b; [left; eexists; reflexivity|]
         end.
  right. reflexivity.
Qed.

(** X11. [updateGroup] answers 404 for a missing group and 403 to a caller
    without an admin row, and 409 when the body gives a new name that
    another group already has; nothing is written in these cases.  When it
    answers 200, only the group document found changed, a capacity given
    in the body (other than 0) is stored clamped between 1 and 1000, and a
    changed name is the name of no other group. *)
Theorem updateGroup_checks (db : Db) (groupId userId : ObjectId)
  (name description : option string) (isPublic : option bool)
  (maxMembers : option Z) :
  let answer := updateGroup groupId userId name description isPublic
                  maxMembers db in
  (~ groupExists groupId db -> answer = (fail 404 "Group not found", db))
  /\ (groupExists groupId db -> ~ hasAdminRow userId groupId db ->
      answer = (fail 403 "Only group admin can update the group", db))
  /\ (forall g n,
        findOne (groupByIdQ groupId) db.(groups) = Some g ->
        hasAdminRow userId groupId db ->
        name = Some n -> n <> "" -> n <> g.(Group.name) ->
        (exists g', In g' db.(groups) /\ g'.(Group._id) <> groupId
                    /\ g'.(Group.name) = trim n) ->
        answer = (fail 409 "Group with this name already exists", db))
  /\ (status (fst answer) = 200 ->
      exists g,
        findOne (groupByIdQ groupId) db.(groups) = Some g
        /\ data (fst answer)
           = Some (applyUpdate name description isPublic maxMembers g)
        /\ snd answer
           = setGroups
               (findOneAndUpdate (groupByIdQ groupId)
                  (applyUpdate name description isPublic maxMembers))
               db
        /\ (forall n, maxMembers = Some n -> n <> 0 ->
              1 <= (applyUpdate name description isPublic maxMembers g)
                   .(Group.maxMembers) <= 1000)
        /\ (forall n g',
              name = Some n -> n <> "" -> n <> g.(Group.name) ->
              In g' db.(groups) -> g'.(Group._id) <> groupId ->
              g'.(Group.name) <> trim n)).
Proof.
  intros answer. subst answer.
  unfold updateGroup, tryCatch, bind, gets, ret.
  split; [|split; [|split]].
  - intros Hg. rewrite (not_groupExists_findOne _ _ Hg). reflexivity.
  - intros Hg Ha. apply groupExists_findOne in Hg. destruct Hg as [g Hg].
    rewrite Hg. cbv beta iota.
    rewrite (not_hasAdminRow_findOne _ _ _ Ha). reflexivity.
  - intros g n Hg Ha -> Hne Hdiff Htaken.
    apply hasAdminRow_findOne in Ha. destruct Ha as [r Hr].
    rewrite Hg. cbv beta iota. rewrite Hr. cbv beta iota.
    replace (Nat.eqb (String.length n) 0) with false
      by (symmetry; apply Nat.eqb_neq; destruct n; [contradiction|discriminate]).
    replace (n =? Group.name g)%string with false
      by (symmetry; apply String.eqb_neq; exact Hdiff).
    cbn [negb andb].
    rewrite (validateGroupName_taken n (Some groupId) db); [reflexivity|].
    destruct Htaken as (g' & Hin & Hid & Hn). exists g'. tauto.
  - destruct (findOne (groupByIdQ groupId) (groups db)) as [g|] eqn:Hg;
      [|cbn; discriminate].
    cbv beta iota.
    destruct (findOne (adminMembershipQ userId groupId) (members db));
      [|cbn; discriminate].
    cbv beta iota.
    assert (Hfound : findOne (groupByIdQ groupId)
                       (findOneAndUpdate (groupByIdQ groupId)
                          (applyUpdate name description isPublic maxMembers)
                          (groups db))
                     = Some (applyUpdate name description isPublic
                               maxMembers g)).
    { apply find_findOneAndUpdate; [exact Hg|].
      apply find_some in Hg. destruct Hg as [_ Hq]. exact Hq. }
    assert (Hmax : forall n, maxMembers = Some n -> n <> 0 ->
              1 <= Group.maxMembers
                     (applyUpdate name description isPublic maxMembers g)
              <= 1000).
    { intros n -> Hn. cbn [applyUpdate Group.maxMembers].
      replace (n =? 0) with false by (symmetry; apply Z.eqb_neq; exact Hn).
      apply clampMembers_range. }
    destruct name as [n|].
    + destruct (negb (Nat.eqb (String.length n) 0)
                && negb (n =? Group.name g)%string)%bool eqn:Echk.
      * destruct (validateGroupName_cases n (Some groupId) db) as [Hv|Hv];
          rewrite Hv; [|cbn; discriminate].
        cbv beta iota.
        destruct (Group_update_cases groupId (Some n) description isPublic
                    maxMembers db) as [[msg Eu]|Eu]; rewrite Eu;
          [cbn; discriminate|].
        intros _. cbn [fst snd data]. exists g. rewrite Hfound.
        split; [reflexivity|]. split; [reflexivity|].
        split; [reflexivity|]. split; [exact Hmax|].
        intros n' g' [= <-] _ _ Hin Hid.
        apply (validateGroupName_free n (Some groupId) db Hv g' Hin Hid).
      * cbv beta iota.
        destruct (Group_update_cases groupId (Some n) description isPublic
                    maxMembers db) as [[msg Eu]|Eu]; rewrite Eu;
          [cbn; discriminate|].
        intros _. cbn [fst snd data]. exists g. rewrite Hfound.
        split; [reflexivity|]. split; [reflexivity|].
        split; [reflexivity|]. split; [exact Hmax|].
        intros n' g' [= <-] Hne Hdiff. exfalso.
        apply andb_false_iff in Echk. destruct Echk as [E|E].
        -- apply negb_false_iff, Nat.eqb_eq in E.
           destruct n; [contradiction|discriminate].
        -- apply negb_false_iff, String.eqb_eq in E. contradiction.
    + cbv beta iota.
      destruct (Group_update_cases groupId None description isPublic
                  maxMembers db) as [[msg Eu]|Eu]; rewrite Eu;
        [cbn; discriminate|].
      intros _. cbn [fst snd data]. exists g. rewrite Hfound.
      split; [reflexivity|]. split; [reflexivity|].
      split; [reflexivity|]. split; [exact Hmax|].
      intros n' g' [=].
Qed.

Lemma updateGroup_checks_witness :
  status (fst (updateGroup general bob (Some "Lounge") None None None chatDb))
  = 403
  /\ option_map (fun g => (g.(Group.name), g.(Group.maxMembers)))
       (data (fst (updateGroup general alice (Some " Lounge ") None None
                     (Some 0) chatDb)))
     = Some ("Lounge", 50)
  /\ status (fst (updateGroup general alice None None None (Some 7000)
                    chatDb)) = 200.
Proof.
  destruct (updateGroup_checks chatDb general bob (Some "Lounge") None None
              None) as (_ & Hb & _).
  destruct (updateGroup_checks chatDb general alice (Some " Lounge ") None
              None (Some 0)) as (_ & _ & _ & Ha).
  split; [|split].
  - rewrite Hb; [reflexivity | exists generalGroup; simpl; tauto |].
    intros (r & Hin & Hu & _ & Hr). simpl in Hin.
    destruct Hin as [<-|[<-|[]]]; discriminate.
  - destruct (Ha eq_refl) as (g & Hg & -> & _). injection Hg as <-.
    reflexivity.
  - reflexivity.
Defined.

(** X12. [deleteGroupPublic] is [deleteGroup] without the admin check: it
    answers as [deleteGroup] does to a caller with an admin row, so it
    never deletes a group named "Main Chat", and for any other existing
    group it removes the group with all its messages and membership rows,
    whoever asks. *)
Theorem deleteGroupPublic_no_admin_check (db : Db)
  (groupId userId : ObjectId) :
  (hasAdminRow userId groupId db ->
   deleteGroup groupId userId db = deleteGroupPublic groupId db)
  /\ (forall g,
        findOne (groupByIdQ groupId) db.(groups) = Some g ->
        g.(Group.name) = "Main Chat" ->
        deleteGroupPublic groupId db
        = (fail 400 "Cannot delete the Main Chat group", db))
  /\ (forall g,
        findOne (groupByIdQ groupId) db.(groups) = Some g ->
        g.(Group.name) <> "Main Chat" ->
        status (fst (deleteGroupPublic groupId db)) = 200
        /\ storedMessages groupId (snd (deleteGroupPublic groupId db)) = []
        /\ filter (fun r => Nat.eqb r.(GroupMember.group) groupId)
             (members (snd (deleteGroupPublic groupId db))) = []
        /\ S (List.length (groups (snd (deleteGroupPublic groupId db))))
           = List.length db.(groups)).
Proof.
  split; [|split].
  - intros Ha. apply hasAdminRow_findOne in Ha. destruct Ha as [r Hr].
    unfold deleteGroup, deleteGroupPublic, tryCatch, bind, gets, ret.
    destruct (findOne (groupByIdQ groupId) (groups db)); [|reflexivity].
    cbv beta iota. rewrite Hr. reflexivity.
  - intros g Hg Hn.
    unfold deleteGroupPublic, tryCatch, bind, gets, ret.
    rewrite Hg. cbv beta iota.
    replace (Group.name g =? mainChatName)%string with true
      by (symmetry; apply String.eqb_eq; exact Hn).
    reflexivity.
  - intros g Hg Hn.
    unfold deleteGroupPublic, tryCatch, bind, gets, ret, modify.
    rewrite Hg. cbv beta iota.
    replace (Group.name g =? mainChatName)%string with false
      by (symmetry; apply String.eqb_neq; exact Hn).
    cbn [fst snd status setMessages setMembers setGroups groups members
         messages].
    split; [reflexivity|]. split; [apply filter_deleteMany|].
    split; [apply filter_deleteMany|].
    apply (length_findOneAndDelete _ _ g Hg).
Qed.

Lemma deleteGroupPublic_no_admin_check_witness :
  deleteGroup general alice chatDb = deleteGroupPublic general chatDb
  /\ deleteGroupPublic lobby lobbyDb
     = (fail 400 "Cannot delete the Main Chat group", lobbyDb)
  /\ status (fst (deleteGroupPublic general chatDb)) = 200.
Proof.
  destruct (deleteGroupPublic_no_admin_check chatDb general alice)
    as (H1 & _ & H3).
  destruct (deleteGroupPublic_no_admin_check lobbyDb lobby alice)
    as (_ & H2 & _).
  split; [|split].
  - apply H1. exists (GroupMember.mk alice general admin 100 true).
    simpl. tauto.
  - apply (H2 (newMainChat alice lobby)); reflexivity.
  - apply (H3 generalGroup); [reflexivity | discriminate].
Defined.

(** ** Group data and bootstrap helpers *)

Lemma oldestFirst_total (a b : Message.t) :
  oldestFirst a b = false -> oldestFirst b a = true.
Proof. unfold oldestFirst. rewrite Z.leb_gt, Z.leb_le. lia. Qed.

Lemma oldestFirst_trans (a b c : Message.t) :
  oldestFirst a b = true -> oldestFirst b c = true -> oldestFirst a c = true.
Proof. unfold oldestFirst. rewrite !Z.leb_le. lia. Qed.

Lemma sort_oldestFirst_order (l : list Message.t) :
  chronological (sort oldestFirst l).
Proof.
  unfold chronological.
  pose proof (sort_sorted oldestFirst oldestFirst_total oldestFirst_trans l)
    as H.
  induction H as [|a l' Hs IH Ha]; constructor.
  - exact IH.
  - eapply Forall_impl; [|exact Ha].
    intros b Hb. unfold oldestFirst in Hb. apply Z.leb_le, Hb.
Qed.

(** X13. [getGroupDetails] answers 403 to a caller without an active
    membership, and 500 to an active member of a group that no longer
    exists.  Otherwise it answers 200 with the caller's role, the number
    of active membership rows of the group and the 50 oldest messages of
    the group in chronological order: with more than 50 stored messages
    the recent ones are not part of the answer. *)
Theorem getGroupDetails_answer (db : Db) (groupId userId : ObjectId) :
  (~ isActiveMember userId groupId db ->
   getGroupDetails groupId userId db
   = (fail 403 "You are not a member of this group", db))
  /\ (isActiveMember userId groupId db -> ~ groupExists groupId db ->
      getGroupDetails groupId userId db
      = (fail 500 "Error fetching group details", db))
  /\ (isActiveMember userId groupId db -> groupExists groupId db ->
      exists d r newer,
        getGroupDetails groupId userId db
        = (mkResponse 200 "" (Some (d, r)), db)
        /\ (exists row, findOne (activeMembershipQ userId groupId)
                          db.(members) = Some row
                        /\ r = row.(GroupMember.role))
        /\ findOne (groupByIdQ groupId) db.(groups) = Some d.(gd_group)
        /\ d.(memberCount)
           = Z.of_nat (List.length
                         (filter (activeInGroupQ groupId) db.(members)))
        /\ chronological d.(gd_messages)
        /\ List.length d.(gd_messages)
           = Nat.min 50 (List.length (storedMessages groupId db))
        /\ Permutation (d.(gd_messages) ++ newer) (storedMessages groupId db)
        /\ (forall m m', In m d.(gd_messages) -> In m' newer ->
              m.(Message.createdAt) <= m'.(Message.createdAt))).
Proof.
  unfold getGroupDetails, tryCatch, bind, gets, ret.
  split; [|split].
  - intros Hm. rewrite (not_isActiveMember_findOne _ _ _ Hm). reflexivity.
  - intros Hm Hg. apply isActiveMember_findOne in Hm. destruct Hm as [row Hr].
    rewrite Hr. cbv beta iota.
    unfold getGroupData, getGroupWithMemberCount, bind.
    rewrite (not_groupExists_findOne _ _ Hg). reflexivity.
  - intros Hm Hg. apply isActiveMember_findOne in Hm. destruct Hm as [row Hr].
    apply groupExists_findOne in Hg. destruct Hg as [grp Hgrp].
    rewrite Hr. cbv beta iota.
    unfold getGroupData, getGroupWithMemberCount, bind, gets, ret.
    rewrite Hgrp. cbv beta iota. cbn [fst snd].
    set (sorted := sort oldestFirst
                     (filter (messageOfGroupQ groupId) (messages db))).
    pose proof (sort_oldestFirst_order
                  (filter (messageOfGroupQ groupId) (messages db))) as Hs.
    pose proof (sort_perm oldestFirst
                  (filter (messageOfGroupQ groupId) (messages db))) as Hp.
    fold sorted in Hs, Hp.
    eexists. exists (GroupMember.role row), (skipn 50 sorted).
    split; [reflexivity|].
    cbn [gd_group memberCount gd_messages].
    split; [exists row; split; reflexivity|].
    split; [reflexivity|]. split; [reflexivity|].
    unfold limit. change (Z.to_nat 50) with 50%nat.
    split; [apply StronglySorted_firstn, Hs|].
    split.
    { rewrite length_firstn, (Permutation_length Hp). reflexivity. }
    split.
    { rewrite firstn_skipn. exact Hp. }
    intros m m' Hin Hin'. unfold chronological in Hs.
    rewrite <- (firstn_skipn 50 sorted) in Hs.
    apply StronglySorted_app_inv in Hs. destruct Hs as (_ & _ & H).
    exact (H m m' Hin Hin').
Qed.

Lemma getGroupDetails_answer_witness :
  status (fst (getGroupDetails general carol chatDb)) = 403
  /\ status (fst (getGroupDetails general alice orphanDb)) = 500
  /\ status (fst (getGroupDetails general bob chatDb)) = 200.
Proof.
  destruct (getGroupDetails_answer chatDb general carol) as (H1 & _ & _).
  destruct (getGroupDetails_answer orphanDb general alice) as (_ & H2 & _).
  destruct (getGroupDetails_answer chatDb general bob) as (_ & _ & H3).
  split; [|split].
  - rewrite H1; [reflexivity|].
    intros (r & Hin & Hu & _). simpl in Hin.
    destruct Hin as [<-|[<-|[]]]; discriminate.
  - rewrite H2; [reflexivity | | intros (g & [] & _)].
    exists (GroupMember.mk alice general admin 100 true). simpl. tauto.
  - destruct H3 as (d & r & newer & -> & _).
    + exists (GroupMember.mk bob general member 200 true). simpl. tauto.
    + exists generalGroup. simpl. tauto.
    + reflexivity.
Defined.

Lemma setGroups_app_nil (db : Db) : setGroups (fun gs => gs ++ []) db = db.
Proof. destruct db. unfold setGroups. simpl. rewrite app_nil_r. reflexivity. Qed.

Lemma createGroupsFrom_present (l : list (string * string * Z))
  (newIds : list ObjectId) (db : Db) :
  (forall x, In x l ->
     exists g, findOne (groupByNameQ (fst (fst x))) db.(groups) = Some g) ->
  createGroupsFrom l newIds db = (Return tt, db).
Proof.
  revert newIds. induction l as [|[[n d] c] l IH]; intros newIds H;
    [reflexivity|].
  destruct (H (n, d, c) (or_introl eq_refl)) as [g Hg]. cbn [fst] in Hg.
  cbn [createGroupsFrom]. unfold bind at 1, createDefaultGroup, bind, gets, ret.
  rewrite Hg. apply IH. intros x Hx. apply H. right. exact Hx.
Qed.

Lemma createGroupsFrom_adds (l : list (string * string * Z))
  (newIds : list ObjectId) (db : Db) :
  exists added,
    createGroupsFrom l newIds db
    = (Return tt, setGroups (fun gs => gs ++ added) db)
    /\ (List.length added <= List.length l)%nat
    /\ (forall x, In x l ->
          exists g, findOne (groupByNameQ (fst (fst x)))
                      (db.(groups) ++ added) = Some g)
    /\ Forall (fun g =>
                 g.(Group.isPublic) = true
                 /\ (exists x, In x l /\ g.(Group.name) = fst (fst x))
                 /\ findOne (groupByNameQ g.(Group.name)) db.(groups) = None)
              added.
Proof.
  revert newIds db. induction l as [|[[n d] c] l IH]; intros newIds db.
  - exists []. rewrite setGroups_app_nil.
    repeat split; [simpl; lia | intros x [] | constructor].
  - cbn [createGroupsFrom]. unfold bind at 1, createDefaultGroup, bind, gets, ret.
    destruct (findOne (groupByNameQ n) (groups db)) as [g|] eqn:Eg.
    + destruct (IH (tl newIds) db) as (added & E & Hlen & Hall & Hnew).
      exists added. rewrite E.
      split; [reflexivity|]. split; [simpl; lia|]. split.
      * intros x [<-|Hx]; [|apply Hall, Hx].
        exists g. cbn [fst]. apply find_app_some, Eg.
      * eapply Forall_impl; [|exact Hnew].
        intros g' (Hp & (x & Hx & Hn) & Hf).
        split; [exact Hp|]. split; [|exact Hf].
        exists x. split; [right; exact Hx | exact Hn].
    + unfold Group_create.
      set (g0 := {| Group._id := hd 0%nat newIds;
                    Group.name := n;
                    Group.description := d;
                    Group.createdBy := None;
                    Group.isPublic := true;
                    Group.maxMembers := c;
                    Group.invitedUsers := [] |}).
      destruct (IH (tl newIds) (setGroups (fun gs => gs ++ [g0]) db))
        as (added & E & Hlen & Hall & Hnew).
      exists (g0 :: added). rewrite E.
      split.
      { unfold setGroups. cbn [users groups members messages].
        rewrite <- app_assoc. reflexivity. }
      split; [simpl; lia|]. split.
      * intros x [<-|Hx].
        -- exists g0. cbn [fst].
           change (groups db ++ g0 :: added)
             with (groups db ++ [g0] ++ added).
           rewrite app_assoc. apply find_app_some.
           apply find_app_none; [exact Eg|].
           unfold groupByNameQ. apply String.eqb_refl.
        -- destruct (Hall x Hx) as [g Hg]. exists g.
           cbn [setGroups groups] in Hg. rewrite <- app_assoc in Hg.
           exact Hg.
      * constructor.
        -- split; [reflexivity|]. split; [|exact Eg].
           exists (n, d, c). split; [left; reflexivity | reflexivity].
        -- eapply Forall_impl; [|exact Hnew].
           intros g' (Hp & (x & Hx & Hn) & Hf).
           split; [exact Hp|]. split.
           ++ exists x. split; [right; exact Hx | exact Hn].
           ++ cbn [setGroups groups] in Hf.
              destruct (findOne (groupByNameQ (Group.name g')) (groups db))
                as [g1|] eqn:E1; [|reflexivity].
              unfold findOne in Hf.
              rewrite (find_app_some _ _ [g0] _ E1) in Hf. discriminate.
Qed.

(** X14. [createDefaultGroups] never fails.  It adds at most five groups,
    all public, each under one of the five default names and only under a
    name that no group had; afterwards every default name is the name of
    a group, and a second run changes nothing. *)
Theorem createDefaultGroups_idempotent (db : Db)
  (newIds newIds' : list ObjectId) :
  let db1 := snd (createDefaultGroups newIds db) in
  fst (createDefaultGroups newIds db) = Return tt
  /\ (exists added,
        db1 = setGroups (fun gs => gs ++ added) db
        /\ (List.length added <= 5)%nat
        /\ Forall (fun g =>
                     g.(Group.isPublic) = true
                     /\ In g.(Group.name) (map (fun x => fst (fst x))
                                              defaultGroups)
                     /\ findOne (groupByNameQ g.(Group.name)) db.(groups)
                        = None)
                  added)
  /\ (forall n, In n (map (fun x => fst (fst x)) defaultGroups) ->
        exists g, findOne (groupByNameQ n) db1.(groups) = Some g)
  /\ createDefaultGroups newIds' db1 = (Return tt, db1).
Proof.
  intros db1. subst db1. unfold createDefaultGroups.
  destruct (createGroupsFrom_adds defaultGroups newIds db)
    as (added & E & Hlen & Hall & Hnew).
  rewrite E. cbn [fst snd].
  assert (Hpresent : forall n,
            In n (map (fun x => fst (fst x)) defaultGroups) ->
            exists g, findOne (groupByNameQ n)
                        (groups (setGroups (fun gs => gs ++ added) db))
                      = Some g).
  { intros n Hn. apply in_map_iff in Hn. destruct Hn as (x & <- & Hx).
    apply Hall, Hx. }
  split; [reflexivity|]. split; [|split; [exact Hpresent|]].
  - exists added. split; [reflexivity|]. split; [exact Hlen|].
    eapply Forall_impl; [|exact Hnew].
    intros g (Hp & (x & Hx & Hn) & Hf).
    split; [exact Hp|]. split; [|exact Hf].
    rewrite Hn.
    exact (in_map (fun x : string * string * Z => fst (fst x)) _ _ Hx).
  - apply createGroupsFrom_present. intros x Hx.
    apply Hpresent.
    exact (in_map (fun x : string * string * Z => fst (fst x)) _ _ Hx).
Qed.

(** X15. [ensureGroupMembership] never throws and returns [true]:
    the insert is only tried when no row exists, so the unique index
    cannot refuse it.  Afterwards the user has a membership row of the
    group, active exactly when the user was an active member or had no
    row before; the rows stay distinct by (user, group) and a second call
    changes nothing. *)
Theorem ensureGroupMembership_total (db : Db) (userId groupId : ObjectId)
  (now now' : Date) :
  let db1 := snd (ensureGroupMembership userId groupId now db) in
  fst (ensureGroupMembership userId groupId now db) = Return true
  /\ hasMembershipRow userId groupId db1
  /\ (isActiveMember userId groupId db1 <->
      isActiveMember userId groupId db
      \/ ~ hasMembershipRow userId groupId db)
  /\ (uniqueMembership db -> uniqueMembership db1)
  /\ ensureGroupMembership userId groupId now' db1 = (Return true, db1).
Proof.
  intros db1. subst db1.
  unfold ensureGroupMembership, bind, gets, ret.
  destruct (findOne (membershipQ userId groupId) (members db)) as [r|] eqn:Em.
  - cbn [fst snd]. rewrite Em.
    assert (Hrow : hasMembershipRow userId groupId db)
      by (apply hasMembershipRow_findOne; eauto).
    repeat split; try assumption; try tauto.
  - unfold GroupMember_create. rewrite (find_none_existsb _ _ Em).
    cbn [fst snd].
    set (row := {| GroupMember.user := userId;
                   GroupMember.group := groupId;
                   GroupMember.role := member;
                   GroupMember.joinedAt := now;
                   GroupMember.isActive := true |}).
    assert (Hnorow : ~ hasMembershipRow userId groupId db).
    { intros H. apply hasMembershipRow_findOne in H.
      destruct H as [r Hr]. congruence. }
    assert (Hin : In row (members (setMembers (fun l => l ++ [row]) db))).
    { cbn. apply in_or_app. right. left. reflexivity. }
    assert (Hs : findOne (membershipQ userId groupId)
                   (members (setMembers (fun l => l ++ [row]) db))
                 = Some row).
    { cbn [setMembers members]. apply find_app_none; [exact Em|].
      apply membershipQ_true. split; reflexivity. }
    split; [reflexivity|]. split; [|split; [|split]].
    + exists row. repeat split; exact Hin.
    + split; [intros _; right; exact Hnorow|].
      intros _. exists row. repeat split; exact Hin.
    + intros Hu.
      pose proof (GroupMember_create_unique db userId groupId member now Hu)
        as H.
      unfold GroupMember_create in H.
      rewrite (find_none_existsb _ _ Em) in H. exact H.
    + rewrite Hs. reflexivity.
Qed.

(** ** Invitation, acceptance and removal together *)

Lemma find_app_both_none {A : Type} (q : A -> bool) (l l' : list A) :
  find q l = None -> find q l' = None -> find q (l ++ l') = None.
Proof.
  induction l as [|x l IH]; simpl; intros H H'; [exact H'|].
  destruct (q x); [discriminate | apply IH; assumption].
Qed.

Lemma find_none_weaken {A : Type} (q q' : A -> bool) (l : list A) :
  (forall x, q' x = true -> q x = true) ->
  find q l = None -> find q' l = None.
Proof.
  intros Himp H.
  destruct (find q' l) as [x|] eqn:E; [|reflexivity].
  apply find_some in E. destruct E as [Hin Hq'].
  pose proof (find_none q l H x Hin) as Hq.
  rewrite (Himp x Hq') in Hq. discriminate.
Qed.

Lemma groupByIdQ_found (groupId : ObjectId) (l : list Group.t) (g : Group.t) :
  findOne (groupByIdQ groupId) l = Some g -> g.(Group._id) = groupId.
Proof.
  intros H. apply find_some in H. destruct H as [_ Hq].
  apply Nat.eqb_eq, Hq.
Qed.

Lemma inviteToGroup_success (db : Db) (groupId adminId : ObjectId)
  (email : string) (now : Date) (g : Group.t) (invitee : User.t) :
  findOne (groupByIdQ groupId) db.(groups) = Some g ->
  hasAdminRow adminId groupId db ->
  findOne (userByEmailQ email) db.(users)
  = Some invitee ->
  ~ hasMembershipRow invitee.(User._id) groupId db ->
  find (fun i => Nat.eqb i.(Invite.user) invitee.(User._id))
       g.(Group.invitedUsers) = None ->
  inviteToGroup groupId adminId email now db
  = (mkResponse 200 "User invited successfully" (Some invitee),
     setGroups
       (findOneAndUpdate (groupByIdQ groupId)
          (setInvitedUsers
             (g.(Group.invitedUsers)
              ++ [{| Invite.user := invitee.(User._id);
                     Invite.invitedBy := adminId;
                     Invite.invitedAt := now;
                     Invite.status := pending |}])))
       db).
Proof.
  intros Hg Ha Hu Hm Hi.
  pose proof (groupByIdQ_found _ _ _ Hg) as Hid.
  apply hasAdminRow_findOne in Ha. destruct Ha as [r Hr].
  apply not_hasMembershipRow_findOne in Hm.
  unfold inviteToGroup, tryCatch, bind, gets, ret, saveInvitedUsers, modify.
  rewrite Hg. cbv beta iota. rewrite Hr. cbv beta iota.
  rewrite Hu. cbv beta iota. rewrite Hm. cbv beta iota.
  rewrite Hi. cbn [setInvitedUsers Group._id Group.invitedUsers].
  rewrite Hid. reflexivity.
Qed.

Lemma acceptInvitation_success (db : Db) (groupId userId : ObjectId)
  (now : Date) (g : Group.t) (i : Invite.t) :
  findOne (groupByIdQ groupId) db.(groups) = Some g ->
  find (pendingFor userId) g.(Group.invitedUsers) = Some i ->
  ~ hasMembershipRow userId groupId db ->
  acceptInvitation groupId userId now db
  = (mkResponse 200 "Group invitation accepted successfully" (Some tt),
     setGroups
       (findOneAndUpdate (groupByIdQ groupId)
          (setInvitedUsers
             (findOneAndUpdate (pendingFor userId) (setStatus accepted)
                g.(Group.invitedUsers))))
       (setMembers
          (fun l => l ++ [{| GroupMember.user := userId;
                             GroupMember.group := groupId;
                             GroupMember.role := member;
                             GroupMember.joinedAt := now;
                             GroupMember.isActive := true |}])
          db)).
Proof.
  intros Hg Hi Hm.
  pose proof (groupByIdQ_found _ _ _ Hg) as Hid.
  apply not_hasMembershipRow_findOne in Hm.
  unfold acceptInvitation, tryCatch, bind, gets, ret, saveInvitedUsers,
    modify.
  rewrite Hg. cbv beta iota. rewrite Hi.
  unfold GroupMember_create. rewrite (find_none_existsb _ _ Hm).
  cbn [setInvitedUsers Group._id Group.invitedUsers]. rewrite Hid.
  reflexivity.
Qed.

(** X16. An invitation followed by its acceptance makes the invitee a
    member: when a holder of an admin row invites a user who has an
    account, no membership row and no invitation in an existing group,
    both calls answer 200; the invitation is appended as pending and then
    turned to accepted, and exactly one membership row is added, active,
    with role member.  Accepting once more answers 404 and inviting the
    user again answers 409. *)
Theorem invite_then_accept (db : Db) (groupId adminId : ObjectId)
  (email : string) (now now' : Date) (g : Group.t) (invitee : User.t) :
  findOne (groupByIdQ groupId) db.(groups) = Some g ->
  hasAdminRow adminId groupId db ->
  findOne (userByEmailQ email) db.(users)
  = Some invitee ->
  ~ hasMembershipRow invitee.(User._id) groupId db ->
  find (fun i => Nat.eqb i.(Invite.user) invitee.(User._id))
       g.(Group.invitedUsers) = None ->
  let inviteAnswer := inviteToGroup groupId adminId email now db in
  let acceptAnswer := acceptInvitation groupId invitee.(User._id) now'
                        (snd inviteAnswer) in
  let db2 := snd acceptAnswer in
  let invitation := {| Invite.user := invitee.(User._id);
                       Invite.invitedBy := adminId;
                       Invite.invitedAt := now;
                       Invite.status := pending |} in
  status (fst inviteAnswer) = 200
  /\ findOne (groupByIdQ groupId) (groups (snd inviteAnswer))
     = Some (setInvitedUsers (g.(Group.invitedUsers) ++ [invitation]) g)
  /\ fst acceptAnswer
     = mkResponse 200 "Group invitation accepted successfully" (Some tt)
  /\ members db2
     = db.(members)
       ++ [{| GroupMember.user := invitee.(User._id);
              GroupMember.group := groupId;
              GroupMember.role := member;
              GroupMember.joinedAt := now';
              GroupMember.isActive := true |}]
  /\ isActiveMember invitee.(User._id) groupId db2
  /\ findOne (groupByIdQ groupId) (groups db2)
     = Some (setInvitedUsers
               (g.(Group.invitedUsers) ++ [setStatus accepted invitation]) g)
  /\ fst (acceptInvitation groupId invitee.(User._id) now' db2)
     = fail 404 "No pending invitation found"
  /\ fst (inviteToGroup groupId adminId email now' db2)
     = fail 409 "User is already a member of this group".
Proof.
  intros Hg Ha Hu Hm Hi inviteAnswer acceptAnswer db2 invitation.
  set (uid := User._id invitee) in *.
  set (old := Group.invitedUsers g) in *.
  set (row := {| GroupMember.user := uid;
                 GroupMember.group := groupId;
                 GroupMember.role := member;
                 GroupMember.joinedAt := now';
                 GroupMember.isActive := true |}).
  pose proof (groupByIdQ_found _ _ _ Hg) as Hid.
  assert (Hq : forall l, groupByIdQ groupId (setInvitedUsers l g) = true).
  { intros l. unfold groupByIdQ. cbn [setInvitedUsers Group._id].
    apply Nat.eqb_eq, Hid. }
  assert (Hpold : find (pendingFor uid) old = None).
  { apply (find_none_weaken _ _ _ (fun x H =>
             proj1 (proj1 (andb_true_iff _ _) H)) Hi). }
  (* the invitation *)
  assert (E1 : inviteAnswer
               = (mkResponse 200 "User invited successfully" (Some invitee),
                  setGroups
                    (findOneAndUpdate (groupByIdQ groupId)
                       (setInvitedUsers (old ++ [invitation])))
                    db)).
  { apply inviteToGroup_success; assumption. }
  set (db1 := setGroups
                (findOneAndUpdate (groupByIdQ groupId)
                   (setInvitedUsers (old ++ [invitation]))) db) in *.
  assert (Hg1 : findOne (groupByIdQ groupId) (groups db1)
                = Some (setInvitedUsers (old ++ [invitation]) g)).
  { cbn [db1 setGroups groups].
    apply (find_findOneAndUpdate _ _ _ g Hg), Hq. }
  (* the acceptance *)
  assert (Hp1 : find (pendingFor uid) (old ++ [invitation])
                = Some invitation).
  { apply find_app_none; [exact Hpold|].
    unfold pendingFor. cbn [invitation Invite.user Invite.status status_eqb].
    rewrite Nat.eqb_refl. reflexivity. }
  assert (E2 : acceptAnswer
               = (mkResponse 200 "Group invitation accepted successfully"
                    (Some tt),
                  setGroups
                    (findOneAndUpdate (groupByIdQ groupId)
                       (setInvitedUsers
                          (old ++ [setStatus accepted invitation])))
                    (setMembers (fun l => l ++ [row]) db1))).
  { subst acceptAnswer. rewrite E1. cbn [snd].
    rewrite (acceptInvitation_success db1 groupId uid now' _ invitation Hg1).
    - cbn [setInvitedUsers Group.invitedUsers].
      rewrite (findOneAndUpdate_app_none _ _ _ _ Hpold).
      cbn [findOneAndUpdate]. unfold pendingFor at 1.
      cbn [invitation Invite.user Invite.status status_eqb].
      rewrite Nat.eqb_refl. reflexivity.
    - exact Hp1.
    - exact Hm. }
  subst db2. rewrite E1, E2. cbn [fst snd status].
  set (db2 := setGroups
                (findOneAndUpdate (groupByIdQ groupId)
                   (setInvitedUsers
                      (old ++ [setStatus accepted invitation])))
                (setMembers (fun l => l ++ [row]) db1)).
  assert (Hg2 : findOne (groupByIdQ groupId) (groups db2)
                = Some (setInvitedUsers
                          (old ++ [setStatus accepted invitation]) g)).
  { cbn [db2 setGroups setMembers groups].
    rewrite (find_findOneAndUpdate _ _ _ _ Hg1); [reflexivity|].
    apply (Hq (old ++ [setStatus accepted invitation])). }
  assert (Hrow : findOne (membershipQ uid groupId) (members db2) = Some row).
  { cbn [db2 db1 setGroups setMembers members].
    apply find_app_none; [apply not_hasMembershipRow_findOne, Hm|].
    apply membershipQ_true. split; reflexivity. }
  split; [reflexivity|]. split; [exact Hg1|]. split; [reflexivity|].
  split; [reflexivity|]. split; [|split; [exact Hg2|split]].
  - exists row. split; [|repeat split].
    apply find_some in Hrow. apply Hrow.
  - unfold acceptInvitation, tryCatch, bind, gets, ret.
    rewrite Hg2. cbv beta iota.
    cbn [setInvitedUsers Group.invitedUsers].
    rewrite (find_app_both_none _ _ _ Hpold); [reflexivity|].
    cbn [find]. unfold pendingFor.
    cbn [setStatus Invite.status status_eqb]. rewrite andb_false_r.
    reflexivity.
  - apply hasAdminRow_findOne in Ha. destruct Ha as [r Hr].
    unfold inviteToGroup, tryCatch, bind, gets, ret.
    rewrite Hg2. cbv beta iota.
    replace (findOne (adminMembershipQ adminId groupId) (members db2))
      with (Some r)
      by (symmetry; cbn [db2 db1 setGroups setMembers members];
          apply find_app_some, Hr).
    cbv beta iota.
    replace (users db2) with (users db) by reflexivity.
    rewrite Hu. cbv beta iota. fold uid. rewrite Hrow. reflexivity.
Qed.

Lemma invite_then_accept_witness :
  isActiveMember carol general
    (snd (acceptInvitation general carol 700
            (snd (inviteToGroup general alice "carol@example.com" 600
                    chatDb))))
  /\ fst (inviteToGroup general alice "carol@example.com" 700
            (snd (acceptInvitation general carol 700
                    (snd (inviteToGroup general alice "carol@example.com"
                            600 chatDb)))))
     = fail 409 "User is already a member of this group".
Proof.
  destruct (invite_then_accept chatDb general alice "carol@example.com"
              600 700 generalGroup (User.mk carol "Carol" "carol@example.com"))
    as (_ & _ & _ & _ & H5 & _ & _ & H8).
  - reflexivity.
  - exists (GroupMember.mk alice general admin 100 true). simpl. tauto.
  - reflexivity.
  - intros (r & Hin & Hu & _). simpl in Hin.
    destruct Hin as [<-|[<-|[]]]; discriminate.
  - reflexivity.
  - split; [exact H5 | exact H8].
Defined.

Lemma findOneAndUpdate_deactivated (u g : ObjectId)
  (l : list GroupMember.t) (r : GroupMember.t) :
  NoDup (map (fun r => (r.(GroupMember.user), r.(GroupMember.group))) l) ->
  In r (findOneAndUpdate (membershipQ u g) deactivate l) ->
  membershipQ u g r = true ->
  r.(GroupMember.isActive) = false.
Proof.
  induction l as [|y l IH]; simpl; intros Hnd Hin Hq; [destruct Hin|].
  inversion Hnd as [|? ? Hnin Hnd']; subst.
  destruct (membershipQ u g y) eqn:Ey.
  - destruct Hin as [<-|Hin]; [reflexivity|].
    exfalso. apply Hnin.
    apply membershipQ_true in Ey. apply membershipQ_true in Hq.
    destruct Ey as [-> ->]. destruct Hq as [<- <-].
    apply (in_map (fun r => (GroupMember.user r, GroupMember.group r))), Hin.
  - destruct Hin as [<-|Hin]; [congruence|].
    apply IH; assumption.
Qed.

Lemma map_key_findOneAndUpdate (q : GroupMember.t -> bool)
  (l : list GroupMember.t) :
  map (fun r => (r.(GroupMember.user), r.(GroupMember.group)))
      (findOneAndUpdate q deactivate l)
  = map (fun r => (r.(GroupMember.user), r.(GroupMember.group))) l.
Proof.
  induction l as [|y l IH]; simpl; [reflexivity|].
  destruct (q y); simpl; [reflexivity|]. f_equal. exact IH.
Qed.

(** X17. With membership rows distinct by (user, group), a [removeMember]
    answered 200 leaves the removed user, the one whose id the parameter
    spells, without an active membership of
    the group, so the user's next requests on the group are refused:
    [getUnreadMessageCount], [getGroupMembers] and [getGroupDetails] with
    403, [getGroupMessages] with 403 (400 for bad paging parameters),
    [markMessagesAsRead] with 403 (400 without ids), and a valid
    [sendMessage] with 403.  The row itself is kept. *)
Theorem removeMember_revokes_access (db : Db)
  (groupId adminId userId : ObjectId) (param : string) :
  uniqueMembership db ->
  castObjectId param = Return userId ->
  status (fst (removeMember groupId param adminId db)) = 200 ->
  let db' := snd (removeMember groupId param adminId db) in
  ~ isActiveMember userId groupId db'
  /\ List.length db'.(members) = List.length db.(members)
  /\ uniqueMembership db'
  /\ fst (getUnreadMessageCount groupId userId db')
     = fail 403 "You are not a member of this group"
  /\ fst (getGroupMembers groupId userId db')
     = fail 403 "You are not a member of this group"
  /\ fst (getGroupDetails groupId userId db')
     = fail 403 "You are not a member of this group"
  /\ (forall qpage qlimit now,
        data (fst (getGroupMessages groupId userId qpage qlimit now db'))
        = None)
  /\ (forall ids now,
        data (fst (markMessagesAsRead groupId userId ids now db')) = None)
  /\ (forall content messageType now newId,
        validContent content -> validType messageType ->
        sendMessage groupId userId content messageType now newId db'
        = (fail 403 "You are not a member of this group", db')).
Proof.
  intros Hu Hcast H200 db'.
  assert (Hdb : db' = setMembers
                        (findOneAndUpdate (membershipQ userId groupId)
                           deactivate) db).
  { subst db'.
    destruct (removeMember_cases db groupId adminId param)
      as [[_ Hn]|(user & Hcast' & E)]; [contradiction|].
    rewrite E. cbn [snd]. congruence. }
  clearbody db'. subst db'.
  assert (Hn : ~ isActiveMember userId groupId
                 (setMembers
                    (findOneAndUpdate (membershipQ userId groupId) deactivate)
                    db)).
  { intros (r & Hin & Hru & Hrg & Hra). cbn [setMembers members] in Hin.
    pose proof (findOneAndUpdate_deactivated userId groupId _ r Hu Hin) as H.
    rewrite H in Hra; [discriminate|].
    apply membershipQ_true. tauto. }
  pose proof (not_isActiveMember_findOne _ _ _ Hn) as Hf.
  split; [exact Hn|]. split; [|split].
  - cbn [setMembers members].
    rewrite <- (length_map
                  (fun r => (GroupMember.user r, GroupMember.group r))),
      map_key_findOneAndUpdate, length_map. reflexivity.
  - unfold uniqueMembership. cbn [setMembers members].
    rewrite map_key_findOneAndUpdate. exact Hu.
  - split; [|split; [|split; [|split; [|split]]]].
    + unfold getUnreadMessageCount, tryCatch, bind, validateGroupMembership.
      rewrite Hf. reflexivity.
    + unfold getGroupMembers, tryCatch, bind, gets, ret.
      rewrite Hf. reflexivity.
    + unfold getGroupDetails, tryCatch, bind, gets, ret.
      rewrite Hf. reflexivity.
    + intros qpage qlimit now. unfold getGroupMessages, tryCatch.
      destruct ((parseIntOr qpage 1 <? 1) || (parseIntOr qlimit 50 <? 1)
                || (100 <? parseIntOr qlimit 50))%bool; [reflexivity|].
      unfold bind, validateGroupMembership. rewrite Hf. reflexivity.
    + intros ids now. unfold markMessagesAsRead, tryCatch.
      destruct ids as [[|id ids]|]; try reflexivity.
      unfold bind, validateGroupMembership. rewrite Hf. reflexivity.
    + intros content messageType now newId Hc Ht.
      apply validateMessageContent_valid in Hc. destruct Hc as (c & -> & Hc).
      apply validateMessageType_valid in Ht.
      unfold sendMessage, tryCatch, bind, lift, validateGroupMembership.
      rewrite Hc, Ht, Hf. reflexivity.
Qed.

Lemma removeMember_revokes_access_witness :
  ~ isActiveMember bob general
      (snd (removeMember general (toString bob) alice chatDb))
  /\ fst (getGroupMembers general bob
            (snd (removeMember general (toString bob) alice chatDb)))
     = fail 403 "You are not a member of this group".
Proof.
  assert (Hu : uniqueMembership chatDb).
  { unfold uniqueMembership. simpl.
    repeat constructor; simpl; intuition discriminate. }
  destruct (removeMember_revokes_access chatDb general alice bob
              (toString bob) Hu eq_refl eq_refl)
    as (H1 & _ & _ & _ & H5 & _).
  split; [exact H1 | exact H5].
Defined.

Lemma deleteMany_keeps_unique (q : GroupMember.t -> bool)
  (rows : list GroupMember.t) :
  NoDup (map (fun r => (r.(GroupMember.user), r.(GroupMember.group))) rows) ->
  NoDup (map (fun r => (r.(GroupMember.user), r.(GroupMember.group)))
             (deleteMany q rows)).
Proof.
  unfold deleteMany. intros Hrows.
  induction rows as [|row rows IH]; [constructor|].
  apply NoDup_cons_iff in Hrows. destruct Hrows as [Hfresh Hrest].
  cbn [filter]. destruct (negb (q row)); [|exact (IH Hrest)].
  cbn [map]. apply NoDup_cons_iff. split; [|exact (IH Hrest)].
  intros Hdup. apply Hfresh.
  apply in_map_iff in Hdup. destruct Hdup as (other & Hkey & Hother).
  apply filter_In in Hother. apply in_map_iff.
  exists other. split; [exact Hkey | apply Hother].
Qed.

Lemma acceptInvitation_members (db : Db) (groupId userId : ObjectId)
  (now : Date) :
  members (snd (acceptInvitation groupId userId now db)) = members db
  \/ members (snd (acceptInvitation groupId userId now db))
     = members (snd (GroupMember_create userId groupId member now db)).
Proof.
  unfold acceptInvitation, tryCatch, bind, gets, ret, saveInvitedUsers,
    modify.
  destruct (findOne (groupByIdQ groupId) (groups db)) as [g|];
    [|left; reflexivity].
  destruct (find (pendingFor userId) (Group.invitedUsers g));
    [|left; reflexivity].
  destruct (GroupMember_create userId groupId member now db) as [[r|e] d];
    right; reflexivity.
Qed.

(** X18. The handlers that write membership rows keep them distinct by
    (user, group): if no two rows share user and group before
    [removeMember], [acceptInvitation], [getMainChat], [createGroup] or
    [deleteGroup], none do afterwards, whatever the answer is. *)
Theorem handlers_keep_uniqueMembership (db : Db) :
  uniqueMembership db ->
  (forall groupId userId adminId,
     uniqueMembership (snd (removeMember groupId userId adminId db)))
  /\ (forall groupId userId now,
        uniqueMembership (snd (acceptInvitation groupId userId now db)))
  /\ (forall userId now newId,
        uniqueMembership (snd (getMainChat userId now newId db)))
  /\ (forall userId name description isPublic maxMembers now gid mid,
        uniqueMembership
          (snd (createGroup userId name description isPublic maxMembers now
                  gid mid db)))
  /\ (forall groupId userId,
        uniqueMembership (snd (deleteGroup groupId userId db))).
Proof.
  intros Hu. split; [|split; [|split; [|split]]].
  - intros groupId userId adminId. unfold uniqueMembership.
    destruct (removeMember_cases db groupId adminId userId)
      as [[-> _]|(user & _ & ->)]; [exact Hu|].
    cbn [snd setMembers members].
    rewrite map_key_findOneAndUpdate. exact Hu.
  - intros groupId userId now. unfold uniqueMembership.
    destruct (acceptInvitation_members db groupId userId now) as [-> | ->];
      [exact Hu|].
    apply GroupMember_create_unique, Hu.
  - intros userId now newId.
    assert (Hfound : forall d g,
              uniqueMembership d ->
              findOne (groupByNameQ mainChatName) d.(groups) = Some g ->
              uniqueMembership (snd (getMainChat userId now newId d))).
    { intros d g Hd Hg.
      destruct (getMainChat_found d userId now newId g Hg) as [x ->].
      cbn [snd].
      destruct (findOne (membershipQ userId (Group._id g)) (members d))
        eqn:Em; [exact Hd|].
      pose proof (GroupMember_create_unique d userId (Group._id g) member now
                    Hd) as H.
      unfold GroupMember_create in H.
      rewrite (find_none_existsb _ _ Em) in H. exact H. }
    destruct (findOne (groupByNameQ mainChatName) (groups db)) as [g|] eqn:Eg.
    + apply (Hfound db g Hu Eg).
    + rewrite (getMainChat_create db userId now newId Eg).
      apply (Hfound _ (newMainChat userId newId)); [exact Hu|].
      cbn [setGroups groups]. apply find_app_none; [exact Eg | reflexivity].
  - intros userId name description isPublic maxMembers now gid mid.
    unfold createGroup, tryCatch, bind, ret.
    destruct (validateGroupName name None db); [|exact Hu].
    unfold Group_createValidated.
    destruct (validateGroupFields _ _) as [n|e0]; [|exact Hu].
    unfold Group_create. cbn [setName Group._id].
    pose proof (GroupMember_create_unique
                  (setGroups (fun l => l ++ [setName n
                     {| Group._id := gid;
                        Group.name := trim name;
                        Group.description :=
                          match description with
                          | Some d => trim d
                          | None => ""
                          end;
                        Group.createdBy := Some userId;
                        Group.isPublic :=
                          match isPublic with Some b => b | None => false end;
                        Group.maxMembers :=
                          clampMembers (parseIntOr maxMembers 50);
                        Group.invitedUsers := [] |}]) db)
                  userId gid admin now Hu) as H.
    destruct (GroupMember_create userId gid admin now _) as [[r|e] d];
      cbn [snd] in H; [|exact H].
    unfold Message_create.
    repeat match goal with
           | |- context [if ?b then (Throw _, _) else _] =>
               destruct b; [exact H|]
           end.
    exact H.
  - intros groupId userId.
    destruct (deleteGroup_cases db groupId userId)
      as [(msg & -> & _)|[(msg & ->)|[(msg & g & -> & _)|(g & _ & _ & ->)]]];
      try exact Hu.
    unfold uniqueMembership. cbn [snd members].
    apply deleteMany_keeps_unique, Hu.
Qed.

Lemma handlers_keep_uniqueMembership_witness :
  uniqueMembership (snd (removeMember general (toString bob) alice chatDb))
  /\ uniqueMembership (snd (getMainChat carol 9000 50 chatDb)).
Proof.
  assert (Hu : uniqueMembership chatDb).
  { unfold uniqueMembership. simpl.
    repeat constructor; simpl; intuition discriminate. }
  destruct (handlers_keep_uniqueMembership chatDb Hu) as (H1 & _ & H3 & _).
  split; [apply H1 | apply H3].
Defined.

(** ** The two Main Chat lookups *)

(** X23. [getMainChatGroup] never fails and returns a public group named
    "Main Chat" that is stored afterwards; it adds a group only when no
    public group of that name existed, and a second call returns the same
    group and changes nothing.  It looks for a public group, so next to a
    private group named "Main Chat" it creates a second group of that
    name, and the lookup by name alone made by [getMainChat] still finds
    the private one. *)
Theorem getMainChatGroup_public (db : Db) (creatorId : option ObjectId)
  (newId newId' : ObjectId) :
  let db1 := snd (getMainChatGroup creatorId newId db) in
  exists g,
    fst (getMainChatGroup creatorId newId db) = Return g
    /\ findOne publicMainChatQ db1.(groups) = Some g
    /\ g.(Group.name) = "Main Chat" /\ g.(Group.isPublic) = true
    /\ (db1 = db
        \/ (findOne publicMainChatQ db.(groups) = None
            /\ db1 = setGroups (fun l => l ++ [g]) db))
    /\ getMainChatGroup creatorId newId' db1 = (Return g, db1)
    /\ (forall g0,
          findOne (groupByNameQ mainChatName) db.(groups) = Some g0 ->
          g0.(Group.isPublic) = false ->
          findOne (groupByNameQ mainChatName) db1.(groups) = Some g0
          /\ g <> g0).
Proof.
  intros db1. subst db1.
  unfold getMainChatGroup, bind, gets, ret.
  destruct (findOne publicMainChatQ (groups db)) as [g|] eqn:Eg.
  - exists g. cbn [fst snd]. rewrite Eg.
    pose proof Eg as Hq. apply find_some in Hq. destruct Hq as [_ Hq].
    unfold publicMainChatQ in Hq. apply andb_true_iff in Hq.
    destruct Hq as [Hn Hp].
    apply String.eqb_eq in Hn. apply Bool.eqb_prop in Hp.
    split; [reflexivity|]. split; [reflexivity|]. split; [exact Hn|].
    split; [exact Hp|]. split; [left; reflexivity|].
    split; [reflexivity|].
    intros g0 Hg0 Hp0. split; [exact Hg0|].
    intros ->. congruence.
  - unfold Group_create. cbn [fst snd].
    set (g := {| Group._id := newId;
                 Group.name := mainChatName;
                 Group.description := "Welcome to the main chat room!";
                 Group.createdBy := creatorId;
                 Group.isPublic := true;
                 Group.maxMembers := 1000;
                 Group.invitedUsers := [] |}).
    assert (Hs : findOne publicMainChatQ
                   (groups (setGroups (fun l => l ++ [g]) db)) = Some g).
    { cbn [setGroups groups]. apply find_app_none; [exact Eg|reflexivity]. }
    exists g. rewrite Hs.
    split; [reflexivity|]. split; [reflexivity|]. split; [reflexivity|].
    split; [reflexivity|]. split; [right; split; reflexivity|].
    split; [reflexivity|].
    intros g0 Hg0 Hp. split.
    + cbn [setGroups groups]. apply find_app_some, Hg0.
    + intros <-. discriminate.
Qed.

Lemma getMainChatGroup_public_witness :
  map Group.isPublic
    (groups (snd (getMainChatGroup None 60 privateLobbyDb)))
  = [false; true]
  /\ option_map Group._id
       (findOne (groupByNameQ mainChatName)
          (groups (snd (getMainChatGroup None 60 privateLobbyDb))))
     = Some lobby.
Proof.
  destruct (getMainChatGroup_public privateLobbyDb None 60 61)
    as (g & _ & _ & _ & _ & _ & _ & H).
  destruct (H _ eq_refl eq_refl) as [Hf _].
  split; [reflexivity|]. cbv zeta in Hf. rewrite Hf. reflexivity.
Defined.

(** ** Instances of the earlier lemmas *)

Lemma removeMember_guard_witness :
  removeMember studio danaLower dana studioDb
  = (fail 400
       "Cannot remove yourself as the only admin. Transfer admin role first or delete group.",
     studioDb)
  /\ removeMember studio danaUpper dana studioDb
     = (mkResponse 200 "Member removed successfully" (Some tt),
        setMembers
          (findOneAndUpdate (membershipQ dana studio) deactivate) studioDb).
Proof.
  assert (Ha : hasAdminRow dana studio studioDb).
  { exists (GroupMember.mk dana studio admin 100 true).
    split; [left; reflexivity | repeat split]. }
  destruct (removeMember_guard studioDb studio dana danaLower Ha eq_refl)
    as [H1 _].
  destruct (removeMember_guard studioDb studio dana danaUpper Ha eq_refl)
    as [_ H2].
  split; [apply H1; reflexivity|].
  apply H2; [discriminate | reflexivity].
Defined.

Lemma removeMember_floor_witness :
  1 <= adminCount general
         (snd (removeMember general (toString bob) alice chatDb))
  /\ 1 <= adminCount general
            (snd (removeMember general (toString alice) alice chatDb)).
Proof.
  assert (Ha : isActiveAdmin alice general chatDb).
  { exists (GroupMember.mk alice general admin 100 true). simpl. tauto. }
  split; apply (removeMember_floor chatDb general alice _ Ha).
  - intros H. vm_compute in H. discriminate H.
  - reflexivity.
Defined.

Lemma inviteToGroup_checks_witness :
  inviteToGroup general bob "carol@example.com" 600 chatDb
  = (fail 403 "Only group admin can invite members", chatDb)
  /\ inviteToGroup general alice "nobody@example.com" 600 chatDb
     = (fail 404 "User not found", chatDb)
  /\ inviteToGroup general alice " Bob@Example.COM " 600 chatDb
     = (fail 409 "User is already a member of this group", chatDb)
  /\ status (fst (inviteToGroup general alice "Carol@Example.com" 600 chatDb))
     = 200.
Proof.
  assert (Ha : hasAdminRow alice general chatDb).
  { exists (GroupMember.mk alice general admin 100 true). simpl. tauto. }
  destruct (inviteToGroup_checks chatDb general bob "carol@example.com" 600
              generalGroup eq_refl) as (H1 & _).
  destruct (inviteToGroup_checks chatDb general alice "nobody@example.com"
              600 generalGroup eq_refl) as (_ & H2 & _).
  destruct (inviteToGroup_checks chatDb general alice " Bob@Example.COM " 600
              generalGroup eq_refl) as (_ & _ & H3).
  destruct (inviteToGroup_checks chatDb general alice "Carol@Example.com" 600
              generalGroup eq_refl) as (_ & _ & H4).
  split; [|split; [|split]].
  - apply H1. intros (r & Hin & Hu & _ & Hr). simpl in Hin.
    destruct Hin as [<-|[<-|[]]]; discriminate.
  - apply H2; [exact Ha | reflexivity].
  - apply (proj1 (H3 (User.mk bob "Bob" "bob@example.com") Ha eq_refl)).
    exists (GroupMember.mk bob general member 200 true). simpl. tauto.
  - destruct (H4 (User.mk carol "Carol" "carol@example.com") Ha eq_refl)
      as (_ & _ & H).
    rewrite H; [reflexivity| |].
    + intros (r & Hin & Hu & _). simpl in Hin.
      destruct Hin as [<-|[<-|[]]]; discriminate.
    + intros (i & [] & _).
Defined.

Lemma getGroupMembers_listing_witness :
  exists l,
    getGroupMembers general bob staffDb = (mkResponse 200 "" (Some l), staffDb)
    /\ Permutation l (filter (activeInGroupQ general) staffDb.(members))
    /\ (forall l1 r l2,
          l = l1 ++ r :: l2 -> r.(GroupMember.role) = admin ->
          Forall (fun r' => r'.(GroupMember.role) = admin) l2).
Proof.
  destruct (getGroupMembers_listing staffDb general bob)
    as (l & H1 & H2 & _ & H4).
  - exists (GroupMember.mk bob general member 200 true). simpl. tauto.
  - exists l. split; [exact H1|]. split; [exact H2 | exact H4].
Defined.
